(** * MiHome-Control-Hub: the gesture recognition controller

    A shallow embedding of [gesture_recognition.py]: the finger-pattern
    classifier ([GestureClassifier.classify_gesture]), the hold tracker
    ([GestureController._handle_gesture_logic]), command resolution and
    callback dispatch ([GestureController._execute_gesture]), hand selection
    in the frame loop ([GestureController.process_frame]) and the session
    operations ([start], [stop], [register_gesture_callback]); the
    registries built by [main] and by [main_app.py]; and, from
    [device_controller.py], the light devices, the loops of the device
    controller and the loading of the devices.

    Conventions of the embedding.
    - Timestamps ([time.time()]) and durations are rationals ([Q]); the
      clock reading of a tick is an argument of the tick.
    - Python dictionaries are [gmap]s, the set [executed_gestures] is a
      [gset]; list indexing is [!!], whose [None] stands for [IndexError].
    - Methods of the controller run in a small state-and-exception monad
      [M] that also records a trace of the effects they perform. *)

From Stdlib Require Import ZArith QArith Lqa String.
From stdpp Require Import base option list strings countable gmap.

Local Open Scope string_scope.
Local Open Scope list_scope.
Local Open Scope Z_scope.

(** ** Gesture labels *)

Inductive GestureType : Set :=
| NONE | FIST | OPEN_PALM | PEACE | THUMBS_UP | POINTING_UP
| THREE_FINGERS | TWO_FINGERS | ONE_FINGER.

(** The string value of each member of the enumeration ([gesture.value]). *)
Definition value (g : GestureType) : string :=
  match g with
  | NONE => "none"
  | FIST => "fist"
  | OPEN_PALM => "open_palm"
  | PEACE => "peace"
  | THUMBS_UP => "thumbs_up"
  | POINTING_UP => "pointing_up"
  | THREE_FINGERS => "three_fingers"
  | TWO_FINGERS => "two_fingers"
  | ONE_FINGER => "one_finger"
  end.

#[global] Instance GestureType_eq_dec : EqDecision GestureType.
Proof. solve_decision. Defined.

Definition GestureType_code (g : GestureType) : nat :=
  match g with
  | NONE => 0 | FIST => 1 | OPEN_PALM => 2 | PEACE => 3 | THUMBS_UP => 4
  | POINTING_UP => 5 | THREE_FINGERS => 6 | TWO_FINGERS => 7 | ONE_FINGER => 8
  end%nat.

Definition GestureType_of_code (n : nat) : GestureType :=
  match n with
  | 1 => FIST | 2 => OPEN_PALM | 3 => PEACE | 4 => THUMBS_UP
  | 5 => POINTING_UP | 6 => THREE_FINGERS | 7 => TWO_FINGERS | 8 => ONE_FINGER
  | _ => NONE
  end%nat.

#[global] Instance GestureType_countable : Countable GestureType.
Proof.
  apply (inj_countable' GestureType_code GestureType_of_code).
  intros []; reflexivity.
Defined.

Record GestureCommand : Set := {
  gesture_type : GestureType;
  action : string;
  description : string;
  hand_type : string
}.

(** The positional constructor call; [hand_type] defaults to ["both"]. *)
Definition mkGestureCommand (g : GestureType) (a d : string) : GestureCommand :=
  {| gesture_type := g; action := a; description := d; hand_type := "both" |}.

(** ** MediaPipeHandDetector.get_finger_positions *)

Record Landmark : Set := { lm_x : Q; lm_y : Q }.

Definition tip_ids : list nat := [4; 8; 12; 16; 20]%nat.
Definition pip_ids : list nat := [3; 6; 10; 14; 18]%nat.

(** Strict comparison of two coordinates, as a boolean. *)
Definition Qlt_bool (a b : Q) : bool := negb (Qle_bool b a).

(** One of the four non-thumb fingers: the tip lies above the PIP joint. *)
Definition finger_up (landmarks : list Landmark) (i : nat) : option Z :=
  tip_id ← tip_ids !! i;
  pip_id ← pip_ids !! i;
  tip ← landmarks !! tip_id;
  pip ← landmarks !! pip_id;
  Some (if Qlt_bool (lm_y tip) (lm_y pip) then 1 else 0).

Definition get_finger_positions (landmarks : list Landmark) : option (list Z) :=
  tip_id ← tip_ids !! 0%nat;
  tip ← landmarks !! tip_id;
  prev ← landmarks !! (tip_id - 1)%nat;
  let thumb := if Qlt_bool (lm_x prev) (lm_x tip) then 1 else 0 in
  rest ← mapM (finger_up landmarks) [1; 2; 3; 4]%nat;
  Some (thumb :: rest).

(** ** GestureClassifier.classify_gesture *)

Definition sum (fingers : list Z) : Z := foldr Z.add 0 fingers.

(** The body of [classify_gesture] after the finger list is computed. *)
Definition classify_fingers (fingers : list Z) : option GestureType :=
  let fingers_up := sum fingers in
  if fingers_up =? 0 then Some FIST
  else if fingers_up =? 5 then Some OPEN_PALM
  else if fingers_up =? 1 then
    f1 ← fingers !! 1%nat;
    if f1 =? 1 then Some POINTING_UP
    else
      f0 ← fingers !! 0%nat;
      if f0 =? 1 then Some THUMBS_UP else Some ONE_FINGER
  else if fingers_up =? 2 then
    f1 ← fingers !! 1%nat;
    if f1 =? 1 then
      f2 ← fingers !! 2%nat;
      if f2 =? 1 then Some PEACE else Some TWO_FINGERS
    else Some TWO_FINGERS
  else if fingers_up =? 3 then Some THREE_FINGERS
  else if fingers_up =? 4 then Some NONE
  else Some NONE.

Definition classify_gesture (landmarks : list Landmark) : option GestureType :=
  fingers ← get_finger_positions landmarks;
  classify_fingers fingers.

(** A finger vector: which of the five fingers are extended. *)
Record FingerVector : Set := {
  thumb : bool; index : bool; middle : bool; ring : bool; pinky : bool
}.

(** The list [get_finger_positions] builds for a finger vector. *)
Definition fingers_of (v : FingerVector) : list Z :=
  Z.b2z <$> [thumb v; index v; middle v; ring v; pinky v].

Definition extended (v : FingerVector) : nat :=
  length (filter (λ b : bool, b = true) [thumb v; index v; middle v; ring v; pinky v]).

(** ** Effects, exceptions and the method monad *)

(** An exception object: an instance of [Exception], carrying the text
    that [str(e)] yields. Callbacks and library calls signal failure by
    raising one. *)
Inductive Exn : Set := Exception (msg : string).

Definition str (e : Exn) : string := match e with Exception msg => msg end.

(** A registered callback: a zero-argument callable. Calling it either
    returns or raises; what it does to the devices is outside the
    controller and is recorded in the trace as [Invoke]. *)
Record Callback : Set := {
  callback_name : string;
  callback_raises : option Exn
}.

(** What a method does besides changing the controller. [Trigger g h]
    records the call [self._execute_gesture(g, h)] made by the hold
    tracker. *)
Inductive Effect : Set :=
| Trigger (gesture : GestureType) (hand : string)
| LogInfo (msg : string)
| LogError (msg : string)
| Invoke (callback : Callback).

Inductive Outcome (A : Type) : Type :=
| Normal (a : A)
| Raised (e : Exn).
Arguments Normal {A} a.
Arguments Raised {A} e.

Record VideoCapture : Set := {
  capture_index : Z;
  isOpened : bool
}.

(** The handle of the display thread started by [start]. *)
Inductive Thread : Set := DisplayLoop.

Record GestureController : Type := {
  gesture_callbacks : gmap string Callback;
  last_gesture : GestureType;
  gesture_start_time : Q;
  gesture_hold_duration : Q;
  frame_count : Z;
  executed_gestures : gset GestureType;
  running : bool;
  cap : option VideoCapture;
  display_thread : option Thread
}.

(** A method body: from the controller before the call to its outcome,
    the controller after the call (mutations made before a raise persist)
    and the effects performed, in order. *)
Definition M (A : Type) : Type :=
  GestureController → Outcome A * GestureController * list Effect.

Definition ret {A} (a : A) : M A := λ self, (Normal a, self, []).

Definition bind {A B} (m : M A) (k : A → M B) : M B := λ self,
  match m self with
  | (Normal a, self1, t1) =>
      match k a self1 with (r, self2, t2) => (r, self2, t1 ++ t2) end
  | (Raised e, self1, t1) => (Raised e, self1, t1)
  end.

Definition raise {A} (e : Exn) : M A := λ self, (Raised e, self, []).

(** [try: body except Exception as e: handler e]. *)
Definition try_except {A} (body : M A) (handler : Exn → M A) : M A := λ self,
  match body self with
  | (Normal a, self1, t1) => (Normal a, self1, t1)
  | (Raised e, self1, t1) =>
      match handler e self1 with (r, self2, t2) => (r, self2, t1 ++ t2) end
  end.

Definition get : M GestureController := λ self, (Normal self, self, []).
Definition put (self' : GestureController) : M unit := λ _, (Normal tt, self', []).
Definition emit (e : Effect) : M unit := λ self, (Normal tt, self, [e]).

Declare Scope method_scope.
Delimit Scope method_scope with method.
Notation "x ←ₘ m ;; k" := (bind m (λ x, k))
  (at level 100, m at next level, right associativity) : method_scope.
Notation "m ;;ₘ k" := (bind m (λ _, k))
  (at level 100, right associativity) : method_scope.
Local Open Scope method_scope.

(** [callback()] *)
Definition call (callback : Callback) : M unit :=
  emit (Invoke callback) ;;ₘ
  match callback_raises callback with
  | Some e => raise e
  | None => ret tt
  end.

(** Field assignments on [self]. *)
Definition set_gesture_callbacks (v : gmap string Callback) (self : GestureController) :=
  {| gesture_callbacks := v; last_gesture := last_gesture self;
     gesture_start_time := gesture_start_time self;
     gesture_hold_duration := gesture_hold_duration self;
     frame_count := frame_count self; executed_gestures := executed_gestures self;
     running := running self; cap := cap self; display_thread := display_thread self |}.

Definition set_last_gesture (v : GestureType) (self : GestureController) :=
  {| gesture_callbacks := gesture_callbacks self; last_gesture := v;
     gesture_start_time := gesture_start_time self;
     gesture_hold_duration := gesture_hold_duration self;
     frame_count := frame_count self; executed_gestures := executed_gestures self;
     running := running self; cap := cap self; display_thread := display_thread self |}.

Definition set_gesture_start_time (v : Q) (self : GestureController) :=
  {| gesture_callbacks := gesture_callbacks self; last_gesture := last_gesture self;
     gesture_start_time := v;
     gesture_hold_duration := gesture_hold_duration self;
     frame_count := frame_count self; executed_gestures := executed_gestures self;
     running := running self; cap := cap self; display_thread := display_thread self |}.

Definition set_frame_count (v : Z) (self : GestureController) :=
  {| gesture_callbacks := gesture_callbacks self; last_gesture := last_gesture self;
     gesture_start_time := gesture_start_time self;
     gesture_hold_duration := gesture_hold_duration self;
     frame_count := v; executed_gestures := executed_gestures self;
     running := running self; cap := cap self; display_thread := display_thread self |}.

Definition set_executed_gestures (v : gset GestureType) (self : GestureController) :=
  {| gesture_callbacks := gesture_callbacks self; last_gesture := last_gesture self;
     gesture_start_time := gesture_start_time self;
     gesture_hold_duration := gesture_hold_duration self;
     frame_count := frame_count self; executed_gestures := v;
     running := running self; cap := cap self; display_thread := display_thread self |}.

Definition set_running (v : bool) (self : GestureController) :=
  {| gesture_callbacks := gesture_callbacks self; last_gesture := last_gesture self;
     gesture_start_time := gesture_start_time self;
     gesture_hold_duration := gesture_hold_duration self;
     frame_count := frame_count self; executed_gestures := executed_gestures self;
     running := v; cap := cap self; display_thread := display_thread self |}.

Definition set_cap (v : option VideoCapture) (self : GestureController) :=
  {| gesture_callbacks := gesture_callbacks self; last_gesture := last_gesture self;
     gesture_start_time := gesture_start_time self;
     gesture_hold_duration := gesture_hold_duration self;
     frame_count := frame_count self; executed_gestures := executed_gestures self;
     running := running self; cap := v; display_thread := display_thread self |}.

Definition set_display_thread (v : option Thread) (self : GestureController) :=
  {| gesture_callbacks := gesture_callbacks self; last_gesture := last_gesture self;
     gesture_start_time := gesture_start_time self;
     gesture_hold_duration := gesture_hold_duration self;
     frame_count := frame_count self; executed_gestures := executed_gestures self;
     running := running self; cap := cap self; display_thread := v |}.

Definition modify (f : GestureController → GestureController) : M unit :=
  λ self, (Normal tt, f self, []).

(** ** GestureController.__init__ *)

(** The three command tables built by the constructor. No method of the
    controller assigns to them afterwards. *)
Definition gesture_commands : gmap GestureType GestureCommand :=
  list_to_map [
    (FIST, mkGestureCommand FIST "close_all" "拳头 - 关闭所有设备");
    (OPEN_PALM, mkGestureCommand OPEN_PALM "open_all" "张开手掌 - 打开所有设备");
    (PEACE, mkGestureCommand PEACE "toggle_device" "V手势 - 切换设备状态");
    (THUMBS_UP, mkGestureCommand THUMBS_UP "increase_brightness" "拇指向上 - 增加亮度");
    (POINTING_UP, mkGestureCommand POINTING_UP "max_brightness" "食指向上 - 最大亮度")
  ].

Definition left_hand_commands : gmap GestureType GestureCommand :=
  list_to_map [
    (THUMBS_UP, mkGestureCommand THUMBS_UP "decrease_brightness" "左手拇指向上 - 降低亮度");
    (POINTING_UP, mkGestureCommand POINTING_UP "min_brightness" "左手食指向上 - 最小亮度");
    (THREE_FINGERS, mkGestureCommand THREE_FINGERS "decrease_color_temp" "左手三指 - 降低色温(暖光)");
    (TWO_FINGERS, mkGestureCommand TWO_FINGERS "set_warm_color_temp" "左手两指 - 设置暖光色温")
  ].

Definition right_hand_commands : gmap GestureType GestureCommand :=
  list_to_map [
    (THUMBS_UP, mkGestureCommand THUMBS_UP "increase_brightness" "右手拇指向上 - 增加亮度");
    (POINTING_UP, mkGestureCommand POINTING_UP "max_brightness" "右手食指向上 - 最大亮度");
    (THREE_FINGERS, mkGestureCommand THREE_FINGERS "increase_color_temp" "右手三指 - 提高色温(冷光)");
    (TWO_FINGERS, mkGestureCommand TWO_FINGERS "set_cool_color_temp" "右手两指 - 设置冷光色温")
  ].

(** [key in table] *)
Definition contains (table : gmap GestureType GestureCommand) (key : GestureType) : bool :=
  bool_decide (is_Some (table !! key)).

Definition __init__ : GestureController :=
  {| gesture_callbacks := ∅;
     last_gesture := NONE;
     gesture_start_time := 0%Q;
     gesture_hold_duration := 2.0%Q;
     frame_count := 0;
     executed_gestures := ∅;
     running := false;
     cap := None;
     display_thread := None |}.

(** ** GestureController.register_gesture_callback *)

Definition register_gesture_callback (gesture_key : string) (callback : Callback) : M unit :=
  modify (λ self, set_gesture_callbacks (<[gesture_key := callback]> (gesture_callbacks self)) self) ;;ₘ
  emit (LogInfo ("已注册手势回调: " +:+ gesture_key)).

(** ** GestureController._execute_gesture *)

(** The value of the local variable [command] after the table selection
    at the head of [_execute_gesture]. *)
Definition select_command (gesture : GestureType) (hand_type : string) : option GestureCommand :=
  if (hand_type =? "left")%string && contains left_hand_commands gesture then
    left_hand_commands !! gesture
  else if (hand_type =? "right")%string && contains right_hand_commands gesture then
    right_hand_commands !! gesture
  else if contains gesture_commands gesture then
    gesture_commands !! gesture
  else None.

(** [f"{hand_type}_{gesture.value}"] *)
Definition gesture_key_of (hand_type : string) (gesture : GestureType) : string :=
  hand_type +:+ "_" +:+ value gesture.

(** The value of the local variable [callback] when [if callback:] is
    reached: the entry under the hand-and-gesture key or, failing that,
    the entry under the action of the command. *)
Definition found_callback (callbacks : gmap string Callback) (gesture : GestureType)
    (hand_type : string) (command : GestureCommand) : option Callback :=
  let gesture_key := gesture_key_of hand_type gesture in
  let callback := callbacks !! gesture_key in
  match callback with
  | None => callbacks !! action command
  | Some _ => callback
  end.

Definition _execute_gesture (gesture : GestureType) (hand_type : string) : M unit :=
  self ←ₘ get ;;
  match select_command gesture hand_type with
  | Some command =>
      match found_callback (gesture_callbacks self) gesture hand_type command with
      | Some callback =>
          try_except
            (emit (LogInfo ("执行手势: " +:+ description command)) ;;ₘ
             call callback)
            (λ e, emit (LogError ("执行手势回调时出错: " +:+ str e)))
      | None => ret tt
      end
  | None => ret tt
  end.

(** ** GestureController._handle_gesture_logic *)

(** [current_time] is the reading of [time.time()] at the head of the
    method. *)
Definition _handle_gesture_logic (gesture : GestureType) (hand_type : string)
    (current_time : Q) : M unit :=
  self ←ₘ get ;;
  if bool_decide (gesture ≠ NONE) && contains gesture_commands gesture then
    if bool_decide (gesture ≠ last_gesture self) then
      modify (set_gesture_start_time current_time) ;;ₘ
      modify (set_last_gesture gesture) ;;ₘ
      if bool_decide (gesture ∈ executed_gestures self) then
        modify (λ self, set_executed_gestures (executed_gestures self ∖ {[gesture]}) self)
      else ret tt
    else if Qle_bool (gesture_hold_duration self) (current_time - gesture_start_time self) then
      if bool_decide (gesture ∉ executed_gestures self) then
        emit (Trigger gesture hand_type) ;;ₘ
        _execute_gesture gesture hand_type ;;ₘ
        modify (λ self, set_executed_gestures ({[gesture]} ∪ executed_gestures self) self)
      else ret tt
    else ret tt
  else
    modify (set_last_gesture NONE).

(** ** GestureController.process_frame *)

(** What the detector reports for one frame: the landmark lists of the
    detected hands and, in the same order, the label of
    [handedness.classification[0]] of each. Either attribute is [None]
    when no hand is detected. *)
Record DetectionResults : Set := {
  multi_hand_landmarks : option (list (list Landmark));
  multi_handedness : option (list string)
}.

(** Truth value of an attribute that is [None] or a list. *)
Definition truthy {A} (o : option (list A)) : bool :=
  match o with
  | Some (_ :: _) => true
  | _ => false
  end.

(** [zip(results.multi_hand_landmarks, results.multi_handedness)] *)
Definition zip_hands (results : DetectionResults) : list (list Landmark * string) :=
  zip (default [] (multi_hand_landmarks results)) (default [] (multi_handedness results)).

(** ["left" if hand_label == "Left" else "right"] *)
Definition hand_type_of (hand_label : string) : string :=
  if (hand_label =? "Left")%string then "left" else "right".

(** The [for] loop over the detected hands. [current_gesture] and
    [hand_type] are the loop-carried local variables; an [IndexError]
    of the classifier leaves the loop as a raised exception. *)
Fixpoint scan_hands (hands : list (list Landmark * string))
    (current_gesture : GestureType) (hand_type : string)
    : Outcome (GestureType * string) :=
  match hands with
  | [] => Normal (current_gesture, hand_type)
  | (hand_landmarks, hand_label) :: rest =>
      let hand_type := hand_type_of hand_label in
      match classify_gesture hand_landmarks with
      | None => Raised (Exception "list index out of range")
      | Some gesture =>
          if bool_decide (gesture ≠ NONE) then Normal (gesture, hand_type)
          else scan_hands rest current_gesture hand_type
      end
  end.

(** The pair [(current_gesture, hand_type)] that [process_frame] hands to
    the hold tracker. *)
Definition active_pair (results : DetectionResults) : Outcome (GestureType * string) :=
  let current_gesture := NONE in
  let hand_type := "unknown" in
  if truthy (multi_hand_landmarks results) && truthy (multi_handedness results) then
    scan_hands (zip_hands results) current_gesture hand_type
  else Normal (current_gesture, hand_type).

Definition lift {A} (o : Outcome A) : M A := λ self, (o, self, []).

(** Drawing on the frame has no effect on the controller and is left
    out; [current_time] is the clock reading of the tick. *)
Definition process_frame (results : DetectionResults) (current_time : Q) : M unit :=
  modify (λ self, set_frame_count (frame_count self + 1) self) ;;ₘ
  p ←ₘ lift (active_pair results) ;;
  _handle_gesture_logic p.1 p.2 current_time.

(** ** GestureController.start and GestureController.stop *)

Definition release (c : VideoCapture) : VideoCapture :=
  {| capture_index := capture_index c; isOpened := false |}.

(** [cv2_VideoCapture] stands for the constructor [cv2.VideoCapture]:
    it yields a capture object, opened or not, or raises. The three
    [cap.set] calls configure the camera and leave the controller as it
    is. *)
Definition start (cv2_VideoCapture : Z → Outcome VideoCapture) (camera_index : Z) : M bool :=
  try_except
    (self ←ₘ get ;;
     if running self then ret true
     else
       c ←ₘ lift (cv2_VideoCapture camera_index) ;;
       modify (set_cap (Some c)) ;;ₘ
       if negb (isOpened c) then
         emit (LogError "无法打开摄像头") ;;ₘ
         ret false
       else
         modify (set_running true) ;;ₘ
         emit (LogInfo "手势识别启动成功") ;;ₘ
         modify (set_display_thread (Some DisplayLoop)) ;;ₘ
         ret true)
    (λ e,
       emit (LogError ("启动手势识别失败: " +:+ str e)) ;;ₘ
       ret false).

Definition stop : M unit :=
  try_except
    (modify (set_running false) ;;ₘ
     self ←ₘ get ;;
     (match cap self with
      | Some _ => modify (set_cap None)
      | None => ret tt
      end) ;;ₘ
     emit (LogInfo "手势识别已停止"))
    (λ e, emit (LogError ("停止手势识别失败: " +:+ str e))).

Definition is_running : M bool :=
  self ←ₘ get ;; ret (running self).

(** ** GestureController._display_loop *)

(** One turn of the camera: whether [cap.read()] succeeded, what the
    detector saw in the frame, the clock at the tick and the key code
    returned by [cv2.waitKey(1) & 0xFF]. *)
Record FrameInput : Set := {
  read_ret : bool;
  detection : DetectionResults;
  clock : Q;
  key : Z
}.

(** The statements after the [while] loop. *)
Definition display_cleanup : M unit :=
  self ←ₘ get ;;
  (match cap self with
   | Some c => modify (set_cap (Some (release c)))
   | None => ret tt
   end) ;;ₘ
  modify (set_running false) ;;ₘ
  emit (LogInfo "显示循环已结束").

(** The display loop over the frames the camera delivers. The list is
    the stream read so far: when it is used up the loop is still inside
    the [while], so no cleanup has run. *)
Fixpoint _display_loop (frames : list FrameInput) : M unit :=
  match frames with
  | [] => ret tt
  | f :: rest =>
      self ←ₘ get ;;
      if running self && from_option isOpened false (cap self) then
        if negb (read_ret f) then
          emit (LogError "无法读取摄像头画面") ;;ₘ
          display_cleanup
        else
          process_frame (detection f) (clock f) ;;ₘ
          if (key f =? 113) || (key f =? 27) then display_cleanup
          else _display_loop rest
      else display_cleanup
  end.

(** ** Runs of the hold tracker *)

(** One tick of the hold tracker: the observed gesture, the hand and the
    clock reading. *)
Record Tick : Set := {
  tick_gesture : GestureType;
  tick_hand : string;
  tick_time : Q
}.

Fixpoint run_ticks (ticks : list Tick) : M unit :=
  match ticks with
  | [] => ret tt
  | t :: rest =>
      _handle_gesture_logic (tick_gesture t) (tick_hand t) (tick_time t) ;;ₘ
      run_ticks rest
  end.

(** Ticks that keep observing gesture [g] on hand [h] at the given clock
    readings. *)
Definition hold (g : GestureType) (h : string) (times : list Q) : list Tick :=
  (λ t, {| tick_gesture := g; tick_hand := h; tick_time := t |}) <$> times.

(** The triggers of a trace, in order. *)
Definition triggers (trace : list Effect) : list (GestureType * string) :=
  omap (λ e, match e with Trigger g h => Some (g, h) | _ => None end) trace.

(** The callbacks invoked in a trace, in order. *)
Definition invoked (trace : list Effect) : list Callback :=
  omap (λ e, match e with Invoke c => Some c | _ => None end) trace.

Definition outcome_of {A} (r : Outcome A * GestureController * list Effect) : Outcome A := r.1.1.
Definition state_of {A} (r : Outcome A * GestureController * list Effect) : GestureController := r.1.2.
Definition trace_of {A} (r : Outcome A * GestureController * list Effect) : list Effect := r.2.

(** ** Reachable controllers *)

(** The calls a host can make on a controller. *)
Inductive Call : Type :=
| CallRegister (gesture_key : string) (callback : Callback)
| CallStart (cv2_VideoCapture : Z → Outcome VideoCapture) (camera_index : Z)
| CallStop
| CallProcessFrame (results : DetectionResults) (current_time : Q)
| CallHandleGestureLogic (gesture : GestureType) (hand_type : string) (current_time : Q)
| CallDisplayLoop (frames : list FrameInput).

Definition perform (c : Call) (self : GestureController) : GestureController :=
  match c with
  | CallRegister k cb => state_of (register_gesture_callback k cb self)
  | CallStart open i => state_of (start open i self)
  | CallStop => state_of (stop self)
  | CallProcessFrame r t => state_of (process_frame r t self)
  | CallHandleGestureLogic g h t => state_of (_handle_gesture_logic g h t self)
  | CallDisplayLoop fs => state_of (_display_loop fs self)
  end.

(** Controllers obtained from a fresh one by a sequence of calls. *)
Inductive reachable : GestureController → Prop :=
| reachable_init : reachable __init__
| reachable_step c self : reachable self → reachable (perform c self).

(** ** Auxiliary notions used in the statements *)

(** The effects of invoking a callback found for [command]. *)
Definition invocation (command : GestureCommand) (callback : Callback) : list Effect :=
  LogInfo ("执行手势: " +:+ description command) :: Invoke callback ::
  match callback_raises callback with
  | Some e => [LogError ("执行手势回调时出错: " +:+ str e)]
  | None => []
  end.

(** A run that first performed the effects [t1] and then went on as [r]. *)
Definition then_run (t1 : list Effect) (r : Outcome unit * GestureController * list Effect)
    : Outcome unit * GestureController * list Effect :=
  (outcome_of r, state_of r, t1 ++ trace_of r).

(** The controller after the tick that starts a hold of [g] at [t0]. *)
Definition started (g : GestureType) (t0 : Q) (self : GestureController) : GestureController :=
  set_executed_gestures (executed_gestures self ∖ {[g]})
    (set_last_gesture g (set_gesture_start_time t0 self)).

(** Every executed mark is on a key of the generic table. *)
Definition executed_in_generic (self : GestureController) : Prop :=
  ∀ x, x ∈ executed_gestures self → contains gesture_commands x = true.

(** Sample callbacks for the examples: one that returns and one that
    raises. *)
Definition returning (name : string) : Callback :=
  {| callback_name := name; callback_raises := None |}.

Definition failing (name msg : string) : Callback :=
  {| callback_name := name; callback_raises := Some (Exception msg) |}.

(** A fresh controller after the given registrations, first to last. *)
Definition registered (entries : list (string * Callback)) : GestureController :=
  foldl (λ self entry, state_of (register_gesture_callback entry.1 entry.2 self))
        __init__ entries.

(** A hand of 21 landmarks that shows the finger vector [v]: the thumb
    tip lies to the right of the joint before it when the thumb is
    extended, and the tip of another finger lies above its PIP joint
    (smaller [y]) when that finger is extended. *)
Definition sample_hand (v : FingerVector) : list Landmark :=
  (λ i : nat,
     let up (b : bool) : Q := if b then (-1)%Q else 0%Q in
     match i with
     | 4 => {| lm_x := if thumb v then 1%Q else 0%Q; lm_y := 0%Q |}
     | 8 => {| lm_x := 0%Q; lm_y := up (index v) |}
     | 12 => {| lm_x := 0%Q; lm_y := up (middle v) |}
     | 16 => {| lm_x := 0%Q; lm_y := up (ring v) |}
     | 20 => {| lm_x := 0%Q; lm_y := up (pinky v) |}
     | _ => {| lm_x := 0%Q; lm_y := 0%Q |}
     end%nat) <$> seq 0 21.

Definition fist_hand : list Landmark :=
  sample_hand {| thumb := false; index := false; middle := false; ring := false; pinky := false |}.

Definition four_finger_hand : list Landmark :=
  sample_hand {| thumb := false; index := true; middle := true; ring := true; pinky := true |}.

Definition peace_hand : list Landmark :=
  sample_hand {| thumb := false; index := true; middle := true; ring := false; pinky := false |}.

(** A frame in which the detector reports the given hands, in order. *)
Definition detected (hands : list (string * list Landmark)) : DetectionResults :=
  match hands with
  | [] => {| multi_hand_landmarks := None; multi_handedness := None |}
  | _ => {| multi_hand_landmarks := Some (hands.*2); multi_handedness := Some (hands.*1) |}
  end.

(** A camera whose capture object opens, and one whose capture object
    does not. *)
Definition working_camera (camera_index : Z) : Outcome VideoCapture :=
  Normal {| capture_index := camera_index; isOpened := true |}.

Definition missing_camera (camera_index : Z) : Outcome VideoCapture :=
  Normal {| capture_index := camera_index; isOpened := false |}.

(** ** Registration of the callbacks by the two hosts *)

(** [for x in items: body(x)] *)
Fixpoint for_each {A} (items : list A) (body : A → M unit) : M unit :=
  match items with
  | [] => ret tt
  | x :: rest => body x ;;ₘ for_each rest body
  end.

(** The items of the three command tables in the order of the dictionary
    literals, which is the order in which [.items()] yields them. *)
Definition gesture_commands_items : list (GestureType * GestureCommand) :=
  [ (FIST, mkGestureCommand FIST "close_all" "拳头 - 关闭所有设备");
    (OPEN_PALM, mkGestureCommand OPEN_PALM "open_all" "张开手掌 - 打开所有设备");
    (PEACE, mkGestureCommand PEACE "toggle_device" "V手势 - 切换设备状态");
    (THUMBS_UP, mkGestureCommand THUMBS_UP "increase_brightness" "拇指向上 - 增加亮度");
    (POINTING_UP, mkGestureCommand POINTING_UP "max_brightness" "食指向上 - 最大亮度") ].

Definition left_hand_commands_items : list (GestureType * GestureCommand) :=
  [ (THUMBS_UP, mkGestureCommand THUMBS_UP "decrease_brightness" "左手拇指向上 - 降低亮度");
    (POINTING_UP, mkGestureCommand POINTING_UP "min_brightness" "左手食指向上 - 最小亮度");
    (THREE_FINGERS, mkGestureCommand THREE_FINGERS "decrease_color_temp" "左手三指 - 降低色温(暖光)");
    (TWO_FINGERS, mkGestureCommand TWO_FINGERS "set_warm_color_temp" "左手两指 - 设置暖光色温") ].

Definition right_hand_commands_items : list (GestureType * GestureCommand) :=
  [ (THUMBS_UP, mkGestureCommand THUMBS_UP "increase_brightness" "右手拇指向上 - 增加亮度");
    (POINTING_UP, mkGestureCommand POINTING_UP "max_brightness" "右手食指向上 - 最大亮度");
    (THREE_FINGERS, mkGestureCommand THREE_FINGERS "increase_color_temp" "右手三指 - 提高色温(冷光)");
    (TWO_FINGERS, mkGestureCommand TWO_FINGERS "set_cool_color_temp" "右手两指 - 设置冷光色温") ].

(** [create_device_callback(action)] of [main] in gesture_recognition.py:
    the closure acts on the devices for [action] and has no handler of
    its own, so whether it raises is up to the device layer
    ([device_raises]). *)
Definition create_device_callback (device_raises : string → option Exn) (action : string)
    : Callback :=
  {| callback_name := action; callback_raises := device_raises action |}.

(** The registration loop of [main] in gesture_recognition.py. *)
Definition main_register_callbacks (device_raises : string → option Exn) : M unit :=
  for_each ["left"; "right"] (λ hand,
    for_each gesture_commands_items (λ item,
      let callback_key := hand +:+ "_" +:+ value item.1 in
      register_gesture_callback callback_key
        (create_device_callback device_raises (action item.2)))).

(** [create_device_callback(action)] of
    [MiHomeControlApp._register_gesture_callbacks]: the body of the
    closure is wrapped in [try ... except Exception], so the call
    returns whatever the devices do. *)
Definition app_device_callback (action : string) : Callback :=
  {| callback_name := action; callback_raises := None |}.

(** [MiHomeControlApp._register_gesture_callbacks], run on the
    controller the application has just created. *)
Definition _register_gesture_callbacks : M unit :=
  for_each left_hand_commands_items (λ item,
    let callback_key := "left_" +:+ value item.1 in
    register_gesture_callback callback_key (app_device_callback (action item.2))) ;;ₘ
  for_each right_hand_commands_items (λ item,
    let callback_key := "right_" +:+ value item.1 in
    register_gesture_callback callback_key (app_device_callback (action item.2))) ;;ₘ
  for_each ["left"; "right"] (λ hand,
    for_each gesture_commands_items (λ item,
      if ((hand =? "left")%string && contains left_hand_commands item.1)
         || ((hand =? "right")%string && contains right_hand_commands item.1)
      then ret tt
      else
        let callback_key := hand +:+ "_" +:+ value item.1 in
        register_gesture_callback callback_key (app_device_callback (action item.2)))) ;;ₘ
  for_each gesture_commands_items (λ item,
    register_gesture_callback (value item.1) (app_device_callback (action item.2))) ;;ₘ
  emit (LogInfo "手势回调函数注册完成").

(** ** GestureController._draw_interface: the hold status line *)

Definition gesture_names (g : GestureType) : string :=
  match g with
  | NONE => "无手势"
  | FIST => "拳头"
  | OPEN_PALM => "张开手掌"
  | PEACE => "V手势"
  | THUMBS_UP => "拇指向上"
  | POINTING_UP => "食指向上"
  | THREE_FINGERS => "三个手指"
  | TWO_FINGERS => "两个手指"
  | ONE_FINGER => "一个手指"
  end.

(** What the block "绘制手势保持状态" draws at the bottom of the frame:
    nothing, the countdown of the hold (gesture name and remaining time,
    which the source prints with one decimal) or the "executing" line. *)
Inductive HoldStatus : Set :=
| NoStatus
| Progress (gesture_name : string) (remaining_time : Q)
| Executing (gesture_name : string).

(** [max(0, x)] on rationals. *)
Definition Qmax0 (x : Q) : Q := if Qle_bool x 0 then 0%Q else x.

(** [current_time] is the reading of [time.time()] inside
    [_draw_interface], taken after the tick of the same frame. *)
Definition hold_status (self : GestureController) (current_time : Q) : HoldStatus :=
  if bool_decide (last_gesture self ≠ NONE) && contains gesture_commands (last_gesture self) then
    let hold_time := (current_time - gesture_start_time self)%Q in
    let remaining_time := Qmax0 (gesture_hold_duration self - hold_time) in
    if Qlt_bool 0 remaining_time then
      Progress (gesture_names (last_gesture self)) remaining_time
    else if bool_decide (last_gesture self ∉ executed_gestures self) then
      Executing (gesture_names (last_gesture self))
    else NoStatus
  else NoStatus.

(** Ticks that keep observing [g] on changing hands. *)
Definition hold_on (g : GestureType) (shown : list (string * Q)) : list Tick :=
  (λ p, {| tick_gesture := g; tick_hand := p.1; tick_time := p.2 |}) <$> shown.

(** The invariants every method of the controller keeps. *)
Definition well_formed (self : GestureController) : Prop :=
  gesture_hold_duration self = 2.0%Q ∧
  (last_gesture self = NONE ∨ contains gesture_commands (last_gesture self) = true) ∧
  (running self = true →
   from_option isOpened false (cap self) = true ∧ display_thread self = Some DisplayLoop).

(** The actions whose callbacks a run of the application can reach. *)
Definition reachable_actions : list string :=
  ["close_all"; "open_all"; "toggle_device"; "increase_brightness";
   "decrease_brightness"; "max_brightness"; "min_brightness"].

(** The actions of the colour-temperature commands of the hand tables. *)
Definition color_temp_actions : list string :=
  ["decrease_color_temp"; "set_warm_color_temp"; "increase_color_temp"; "set_cool_color_temp"].

(** The fields of the controller that the hold tracker never writes. *)
Definition same_session (self self' : GestureController) : Prop :=
  running self' = running self ∧ cap self' = cap self ∧
  display_thread self' = display_thread self ∧
  gesture_hold_duration self' = gesture_hold_duration self ∧
  gesture_callbacks self' = gesture_callbacks self.

(** The fields of the hold tracker. *)
Definition same_hold_state (self self' : GestureController) : Prop :=
  last_gesture self' = last_gesture self ∧
  gesture_start_time self' = gesture_start_time self ∧
  executed_gestures self' = executed_gestures self.

(** The display loop has run its cleanup: the controller is stopped and
    holds no opened capture. *)
Definition ended (self : GestureController) : Prop :=
  running self = false ∧ from_option isOpened false (cap self) = false.

(** A frame that ends the display loop: the read failed, or the key
    pressed is [q] or ESC. *)
Definition ends_loop (f : FrameInput) : Prop :=
  read_ret f = false ∨ key f = 113 ∨ key f = 27.

(** A frame with one hand and its label, read at [clock] with no key
    pressed ([cv2.waitKey] then yields 255 after masking). *)
Definition frame_of (hand_label : string) (landmarks : list Landmark) (clock : Q) : FrameInput :=
  {| read_ret := true; detection := detected [(hand_label, landmarks)];
     clock := clock; key := 255 |}.

Definition three_finger_hand : list Landmark :=
  sample_hand {| thumb := false; index := true; middle := true; ring := true; pinky := false |}.

(** ** device_controller.py: the devices behind the callbacks *)

(** A JSON value in a reply of the device or in the parameters of a
    command: a string or an integer. *)
Inductive Value : Set :=
| VStr (s : string)
| VInt (n : Z).

Inductive DeviceType : Set :=
| LIGHT | CEILING_LIGHT | DESK_LAMP | BULB | STRIP | UNKNOWN.

Record DeviceInfo : Set := {
  name : string;
  device_type : DeviceType;
  ip : string;
  token : string;
  model : string;
  did : string;
  mac : string;
  online : bool;
  brightness : Z;
  power : bool;
  color_temp : Z
}.

(** The [miio.Device] object: what [device.send(command, parameters)]
    does, namely return the reply (a list of values) or raise. *)
Definition MiioDevice : Type := string → list Value → Outcome (list Value).

(** A [MiHomeDevice]; [light] tells whether the object is an instance of
    [LightDevice]. [device] is [None] when the connection failed. *)
Record MiHomeDevice : Type := {
  device_info : DeviceInfo;
  device : option MiioDevice;
  light : bool
}.

(** The commands handed to [device.send], with the name of the device
    they go to. Log lines are left out of the device traces. *)
Inductive DeviceEffect : Set :=
| Send (device_name : string) (command : string) (parameters : list Value).

Definition set_info (f : DeviceInfo → DeviceInfo) (self : MiHomeDevice) : MiHomeDevice :=
  {| device_info := f (device_info self); device := device self; light := light self |}.

Definition with_brightness (v : Z) (i : DeviceInfo) : DeviceInfo :=
  {| name := name i; device_type := device_type i; ip := ip i; token := token i;
     model := model i; did := did i; mac := mac i; online := online i;
     brightness := v; power := power i; color_temp := color_temp i |}.

Definition with_power (v : bool) (i : DeviceInfo) : DeviceInfo :=
  {| name := name i; device_type := device_type i; ip := ip i; token := token i;
     model := model i; did := did i; mac := mac i; online := online i;
     brightness := brightness i; power := v; color_temp := color_temp i |}.

Definition with_color_temp (v : Z) (i : DeviceInfo) : DeviceInfo :=
  {| name := name i; device_type := device_type i; ip := ip i; token := token i;
     model := model i; did := did i; mac := mac i; online := online i;
     brightness := brightness i; power := power i; color_temp := v |}.

(** [MiHomeDevice.send_command]: [None] when the device is not
    connected or [send] raises, the reply otherwise. *)
Definition send_command (self : MiHomeDevice) (command : string) (parameters : list Value)
    : option (list Value) * list DeviceEffect :=
  match device self with
  | None => (None, [])
  | Some d =>
      match d command parameters with
      | Normal result => (Some result, [Send (name (device_info self)) command parameters])
      | Raised _ => (None, [Send (name (device_info self)) command parameters])
      end
  end.

(** [result and result[0] == text] *)
Definition first_is (text : string) (result : option (list Value)) : bool :=
  match result with
  | Some (VStr s :: _) => (s =? text)%string
  | _ => false
  end.

(** [LightDevice.turn_on] and [LightDevice.turn_off] *)
Definition turn_on (self : MiHomeDevice) : bool * MiHomeDevice * list DeviceEffect :=
  let '(result, sent) := send_command self "set_power" [VStr "on"] in
  if first_is "ok" result then (true, set_info (with_power true) self, sent)
  else (false, self, sent).

Definition turn_off (self : MiHomeDevice) : bool * MiHomeDevice * list DeviceEffect :=
  let '(result, sent) := send_command self "set_power" [VStr "off"] in
  if first_is "ok" result then (true, set_info (with_power false) self, sent)
  else (false, self, sent).

(** [LightDevice.set_brightness] *)
Definition set_brightness (self : MiHomeDevice) (brightness : Z)
    : bool * MiHomeDevice * list DeviceEffect :=
  if negb ((1 <=? brightness) && (brightness <=? 100)) then (false, self, [])
  else
    let '(result, sent) :=
      send_command self "set_scene" [VStr "color"; VInt 16777215; VInt brightness] in
    if first_is "ok" result then (true, set_info (with_brightness brightness) self, sent)
    else (false, self, sent).

(** [LightDevice.set_color_temp] *)
Definition set_color_temp (self : MiHomeDevice) (temp : Z)
    : bool * MiHomeDevice * list DeviceEffect :=
  if negb ((1700 <=? temp) && (temp <=? 6500)) then (false, self, [])
  else
    let '(result, sent) :=
      send_command self "set_ct_abx" [VInt temp; VStr "smooth"; VInt 500] in
    if first_is "ok" result then (true, set_info (with_color_temp temp) self, sent)
    else (false, self, sent).

(** The dictionary [get_status] returns. *)
Record Status : Set := {
  status_power : bool;
  status_brightness : Z;
  status_color_temp : Z;
  status_online : bool
}.

Definition default_status : Status :=
  {| status_power := false; status_brightness := 0; status_color_temp := 0;
     status_online := false |}.

Section DeviceMethods.
(** [int(s)] on a string: the integer it denotes, or [None] for the
    [ValueError] raised on a string that denotes none. *)
Variable int_of_str : string → option Z.

(** [int(v)] *)
Definition int (v : Value) : option Z :=
  match v with
  | VInt n => Some n
  | VStr s => int_of_str s
  end.

(** [LightDevice.get_brightness] *)
Definition get_brightness (self : MiHomeDevice)
    : option Z * MiHomeDevice * list DeviceEffect :=
  let '(result, sent) := send_command self "get_prop" [VStr "bright"] in
  match result with
  | Some (v :: _) =>
      match int v with
      | Some brightness => (Some brightness, set_info (with_brightness brightness) self, sent)
      | None => (None, self, sent)
      end
  | _ => (None, self, sent)
  end.

(** [LightDevice.adjust_brightness] *)
Definition adjust_brightness (self : MiHomeDevice) (delta : Z)
    : bool * MiHomeDevice * list DeviceEffect :=
  match get_brightness self with
  | (None, self, sent) => (false, self, sent)
  | (Some current_brightness, self, sent) =>
      let new_brightness := Z.max 1 (Z.min 100 (current_brightness + delta)) in
      let '(r, self, sent') := set_brightness self new_brightness in
      (r, self, sent ++ sent')
  end.

(** [LightDevice.adjust_color_temp] *)
Definition adjust_color_temp (self : MiHomeDevice) (delta : Z)
    : bool * MiHomeDevice * list DeviceEffect :=
  let '(result, sent) := send_command self "get_prop" [VStr "ct"] in
  match result with
  | Some (v :: _) =>
      match int v with
      | Some current_temp =>
          let current_temp :=
            if (6500 <? current_temp) || (current_temp <? 1700) then 3000 else current_temp in
          let new_temp := Z.max 1700 (Z.min 6500 (current_temp + delta)) in
          let '(r, self, sent') := set_color_temp self new_temp in
          (r, self, sent ++ sent')
      | None => (false, self, sent)
      end
  | _ => (false, self, sent)
  end.

(** [LightDevice.get_status]: the three cached fields are assigned one
    after the other, so a conversion that raises leaves the earlier
    assignments in place. *)
Definition get_status (self : MiHomeDevice) : Status * MiHomeDevice * list DeviceEffect :=
  let '(result, sent) :=
    send_command self "get_prop" [VStr "power"; VStr "bright"; VStr "ct"] in
  match result with
  | Some (r0 :: r1 :: r2 :: _) =>
      let self := set_info (with_power (first_is "on" (Some [r0]))) self in
      match int r1 with
      | None => (default_status, self, sent)
      | Some b =>
          let self := set_info (with_brightness b) self in
          match int r2 with
          | None => (default_status, self, sent)
          | Some ct =>
              let self := set_info (with_color_temp ct) self in
              ({| status_power := power (device_info self);
                  status_brightness := brightness (device_info self);
                  status_color_temp := color_temp (device_info self);
                  status_online := online (device_info self) |}, self, sent)
          end
      end
  | _ => (default_status, self, sent)
  end.

(** The loop shared by the [..._all] methods of [DeviceController]:
    [method] runs on every [LightDevice] of the dictionary, in its
    order, and its result is filed under the name of the device. *)
Fixpoint for_lights (method : MiHomeDevice → bool * MiHomeDevice * list DeviceEffect)
    (devices : list (string * MiHomeDevice))
    : list (string * bool) * list (string * MiHomeDevice) * list DeviceEffect :=
  match devices with
  | [] => ([], [], [])
  | (device_name, d) :: rest =>
      if light d then
        let '(r, d', sent) := method d in
        let '(results, rest', sent') := for_lights method rest in
        ((device_name, r) :: results, (device_name, d') :: rest', sent ++ sent')
      else
        let '(results, rest', sent') := for_lights method rest in
        (results, (device_name, d) :: rest', sent')
  end.

Definition turn_on_all := for_lights turn_on.
Definition turn_off_all := for_lights turn_off.
Definition adjust_brightness_all (delta : Z) := for_lights (λ d, adjust_brightness d delta).
Definition set_color_temp_all (temp : Z) := for_lights (λ d, set_color_temp d temp).

(** The body of the loop of [DeviceController.adjust_color_temp_all]. *)
Definition adjust_cached_color_temp (delta : Z) (d : MiHomeDevice)
    : bool * MiHomeDevice * list DeviceEffect :=
  let current_temp := color_temp (device_info d) in
  let '(d, sent) :=
    if current_temp =? 0 then let '(_, d, sent) := get_status d in (d, sent)
    else (d, []) in
  let current_temp := color_temp (device_info d) in
  let new_temp := Z.max 1700 (Z.min 6500 (current_temp + delta)) in
  let '(r, d, sent') := set_color_temp d new_temp in
  (r, d, sent ++ sent').

Definition adjust_color_temp_all (delta : Z) := for_lights (adjust_cached_color_temp delta).
End DeviceMethods.

(** A command as the light methods may send it: power on or off, a
    brightness from 1 to 100 with the colour white, a colour temperature
    from 1700 to 6500 with a smooth transition of 500 ms, or a query. *)
Definition valid_command (e : DeviceEffect) : Prop :=
  match e with
  | Send _ command parameters =>
      (command = "set_power" ∧ (parameters = [VStr "on"] ∨ parameters = [VStr "off"])) ∨
      (command = "set_scene" ∧
       ∃ b, parameters = [VStr "color"; VInt 16777215; VInt b] ∧ 1 ≤ b ≤ 100) ∨
      (command = "set_ct_abx" ∧
       ∃ t, parameters = [VInt t; VStr "smooth"; VInt 500] ∧ 1700 ≤ t ≤ 6500) ∨
      command = "get_prop"
  end.

(** A device that reports the given brightness and colour temperature,
    as strings, and acknowledges every other command. *)
Definition reporting (bright ct : string) : MiioDevice :=
  λ command parameters,
    if (command =? "get_prop")%string then
      match parameters with
      | [VStr "bright"] => Normal [VStr bright]
      | [VStr "ct"] => Normal [VStr ct]
      | _ => Normal [VStr "on"; VStr bright; VStr ct]
      end
    else Normal [VStr "ok"].

(** A conversion for the examples: the decimal strings used there. *)
Definition sample_int (s : string) : option Z :=
  if (s =? "100")%string then Some 100
  else if (s =? "50")%string then Some 50
  else if (s =? "65535")%string then Some 65535
  else if (s =? "4000")%string then Some 4000
  else None.

Definition sample_info (device_name : string) : DeviceInfo :=
  {| name := device_name; device_type := LIGHT; ip := "192.168.1.10"; token := "00";
     model := ""; did := ""; mac := ""; online := true; brightness := 0; power := false;
     color_temp := 0 |}.

Definition sample_light (device_name bright ct : string) : MiHomeDevice :=
  {| device_info := sample_info device_name; device := Some (reporting bright ct);
     light := true |}.

Definition unconnected_light (device_name : string) : MiHomeDevice :=
  {| device_info := sample_info device_name; device := None; light := true |}.


(** The fields of a device object that no method of [LightDevice]
    assigns: the name, the connection and the class of the object. *)
Definition same_identity (a b : MiHomeDevice) : Prop :=
  name (device_info a) = name (device_info b) ∧ device a = device b ∧ light a = light b.

Definition addressed_to (device_name : string) (e : DeviceEffect) : Prop :=
  match e with Send n _ _ => n = device_name end.

(** A method that took [self] to [self'] and handed [sent] to the
    device kept the identity of the object, sent valid commands to this
    device only, and sent nothing if the device is not connected. *)
Definition behaved (self self' : MiHomeDevice) (sent : list DeviceEffect) : Prop :=
  same_identity self self' ∧
  Forall (λ e, valid_command e ∧ addressed_to (name (device_info self)) e) sent ∧
  (device self = None → sent = []).

(** What a loop over the dictionary of devices returns: a result for
    every [LightDevice] and for no other device, under its key and in
    the order of the dictionary; the same keys, with devices of the same
    identity, the other devices untouched; commands that went to
    connected lights of the dictionary only. *)
Definition serves_lights (devices : list (string * MiHomeDevice))
    (r : list (string * bool) * list (string * MiHomeDevice) * list DeviceEffect) : Prop :=
  r.1.1.*1 = (filter (λ kd, light kd.2 = true) devices).*1 ∧
  r.1.2.*1 = devices.*1 ∧
  (∀ i k d, devices !! i = Some (k, d) →
     ∃ d', r.1.2 !! i = Some (k, d') ∧ same_identity d d' ∧ (light d = false → d' = d)) ∧
  Forall (λ e, ∃ kd, kd ∈ devices ∧ light kd.2 = true ∧ is_Some (device kd.2) ∧
                     addressed_to (name (device_info kd.2)) e) r.2.

(** A light with a colour temperature in its cache. *)
Definition cached_light (device_name : string) (ct : Z) : MiHomeDevice :=
  set_info (with_color_temp ct) (sample_light device_name "50" "4000").

(** A device whose every command times out. *)
Definition silent : MiioDevice := λ _ _, Raised (Exception "timed out").

Definition silent_light (device_name : string) : MiHomeDevice :=
  {| device_info := sample_info device_name; device := Some silent; light := true |}.

(** ** device_controller.py: loading the devices *)

(** [DeviceType(value)]: the member with this value; [None] stands for
    the [ValueError] raised for any other value. *)
Definition DeviceType_of (s : string) : option DeviceType :=
  if (s =? "light")%string then Some LIGHT
  else if (s =? "ceiling_light")%string then Some CEILING_LIGHT
  else if (s =? "desk_lamp")%string then Some DESK_LAMP
  else if (s =? "bulb")%string then Some BULB
  else if (s =? "strip")%string then Some STRIP
  else if (s =? "unknown")%string then Some UNKNOWN
  else None.

Definition with_online (v : bool) (i : DeviceInfo) : DeviceInfo :=
  {| name := name i; device_type := device_type i; ip := ip i; token := token i;
     model := model i; did := did i; mac := mac i; online := v;
     brightness := brightness i; power := power i; color_temp := color_temp i |}.

(** [devices[name] = device] on a dictionary kept as the list of its
    items: the value of a key that is present is replaced in place, a
    new key goes to the end. *)
Fixpoint dict_set {A : Type} (k : string) (v : A) (d : list (string * A))
    : list (string * A) :=
  match d with
  | [] => [(k, v)]
  | (k', v') :: rest =>
      if (k' =? k)%string then (k, v) :: rest else (k', v') :: dict_set k v rest
  end.

(** [DeviceController.get_device]: [self.devices.get(name)] *)
Fixpoint get_device (devices : list (string * MiHomeDevice)) (device_name : string)
    : option MiHomeDevice :=
  match devices with
  | [] => None
  | (k, d) :: rest => if (k =? device_name)%string then Some d else get_device rest device_name
  end.

Section Loading.
(** [miio.Device(ip, token)]: the device object, or the exception the
    constructor raises. *)
Variable miio_Device : string → string → Outcome MiioDevice.

(** [MiHomeDevice._connect] *)
Definition _connect (self : MiHomeDevice) : MiHomeDevice :=
  match miio_Device (ip (device_info self)) (token (device_info self)) with
  | Normal d =>
      {| device_info := with_online true (device_info self); device := Some d;
         light := light self |}
  | Raised _ => set_info (with_online false) self
  end.

(** [MiHomeDevice.__init__], which [LightDevice] inherits; [is_light]
    tells which of the two classes is instantiated. *)
Definition MiHomeDevice__init__ (is_light : bool) (device_info : DeviceInfo) : MiHomeDevice :=
  _connect {| device_info := device_info; device := None; light := is_light |}.

(** The body of the loop of [_load_devices_from_config] and of
    [_load_devices_from_json], which is the same in both: one entry of
    the configuration, a dictionary whose values are taken to be
    strings. Every exception ([ValueError] of [DeviceType], [KeyError]
    of a missing "ip" or "token") is logged and the entry skipped. *)
Definition load_device (device_name : string) (config : gmap string string)
    (devices : list (string * MiHomeDevice)) : list (string * MiHomeDevice) :=
  match DeviceType_of (default "light" (config !! "type")) with
  | None => devices
  | Some device_type =>
      match config !! "ip" with
      | None => devices
      | Some ip =>
          match config !! "token" with
          | None => devices
          | Some token =>
              let device_info :=
                {| name := device_name; device_type := device_type; ip := ip; token := token;
                   model := default "" (config !! "model");
                   did := default "" (config !! "did");
                   mac := default "" (config !! "mac");
                   online := false; brightness := 0; power := false; color_temp := 0 |} in
              match device_type with
              | LIGHT | CEILING_LIGHT | DESK_LAMP | BULB =>
                  dict_set device_name (MiHomeDevice__init__ true device_info) devices
              | UNKNOWN =>
                  dict_set device_name (MiHomeDevice__init__ false device_info) devices
              | STRIP => devices
              end
          end
      end
  end.

Fixpoint _load_devices_from_config (devices_config : list (string * gmap string string))
    (devices : list (string * MiHomeDevice)) : list (string * MiHomeDevice) :=
  match devices_config with
  | [] => devices
  | (device_name, config) :: rest =>
      _load_devices_from_config rest (load_device device_name config devices)
  end.

Fixpoint _load_devices_from_json (devices_data : list (string * gmap string string))
    (devices : list (string * MiHomeDevice)) : list (string * MiHomeDevice) :=
  match devices_data with
  | [] => devices
  | (device_name, data) :: rest =>
      _load_devices_from_json rest (load_device device_name data devices)
  end.
End Loading.

(** An entry of the configuration that gives a device: it has an "ip"
    and a "token", and its "type" (light when absent) is one of the four
    kinds of light or unknown. *)
Definition loadable (config : gmap string string) : Prop :=
  is_Some (config !! "ip") ∧ is_Some (config !! "token") ∧
  default "light" (config !! "type") ∈
    ["light"; "ceiling_light"; "desk_lamp"; "bulb"; "unknown"].

(** A connection that succeeds for every address but one. *)
Definition sample_connect (address _ : string) : Outcome MiioDevice :=
  if (address =? "192.168.1.99")%string then Raised (Exception "unreachable")
  else Normal (reporting "50" "4000").

Definition sample_config : list (string * gmap string string) :=
  [("desk", {[ "type" := "desk_lamp"; "ip" := "192.168.1.10"; "token" := "00" ]});
   ("strip", {[ "type" := "strip"; "ip" := "192.168.1.11"; "token" := "11" ]});
   ("hall", {[ "ip" := "192.168.1.99"; "token" := "22" ]});
   ("plug", {[ "type" := "unknown"; "ip" := "192.168.1.12"; "token" := "33" ]});
   ("bed", {[ "type" := "bulb"; "ip" := "192.168.1.13" ]})].

(** The device object built from the entry [config] under the key
    [device_name]: the fields of the entry with their defaults, a fresh
    cache, a light unless the type is unknown, connected and online
    exactly when [miio.Device] returned. *)
Definition built_from (miio_Device : string → string → Outcome MiioDevice)
    (device_name : string) (config : gmap string string) (self : MiHomeDevice) : Prop :=
  name (device_info self) = device_name ∧
  Some (device_type (device_info self)) = DeviceType_of (default "light" (config !! "type")) ∧
  config !! "ip" = Some (ip (device_info self)) ∧
  config !! "token" = Some (token (device_info self)) ∧
  model (device_info self) = default "" (config !! "model") ∧
  did (device_info self) = default "" (config !! "did") ∧
  mac (device_info self) = default "" (config !! "mac") ∧
  brightness (device_info self) = 0 ∧
  power (device_info self) = false ∧
  color_temp (device_info self) = 0 ∧
  (light self = false ↔ default "light" (config !! "type") = "unknown") ∧
  device self =
    match miio_Device (ip (device_info self)) (token (device_info self)) with
    | Normal d => Some d
    | Raised _ => None
    end ∧
  (online (device_info self) = true ↔ is_Some (device self)).

(** * Theorems *)

(** ** The classifier *)

Lemma classify_fingers_total (v : FingerVector) :
  is_Some (classify_fingers (fingers_of v)).
Proof. destruct v as [[] [] [] [] []]; vm_compute; eauto. Qed.

(** The finger list always has the five entries of some finger vector,
    provided the hand carries the 21 landmarks the detector delivers. *)
Lemma get_finger_positions_shape (landmarks : list Landmark) :
  (21 ≤ length landmarks)%nat →
  ∃ v, get_finger_positions landmarks = Some (fingers_of v).
Proof.
  intros Hlen.
  assert (Hget : ∀ i, (i < 21)%nat → is_Some (landmarks !! i)).
  { intros i Hi. apply lookup_lt_is_Some. lia. }
  destruct (Hget 3%nat) as [l3 E3]; [lia|].
  destruct (Hget 4%nat) as [l4 E4]; [lia|].
  destruct (Hget 6%nat) as [l6 E6]; [lia|].
  destruct (Hget 8%nat) as [l8 E8]; [lia|].
  destruct (Hget 10%nat) as [l10 E10]; [lia|].
  destruct (Hget 12%nat) as [l12 E12]; [lia|].
  destruct (Hget 14%nat) as [l14 E14]; [lia|].
  destruct (Hget 16%nat) as [l16 E16]; [lia|].
  destruct (Hget 18%nat) as [l18 E18]; [lia|].
  destruct (Hget 20%nat) as [l20 E20]; [lia|].
  exists {| thumb := Qlt_bool (lm_x l3) (lm_x l4);
            index := Qlt_bool (lm_y l8) (lm_y l6);
            middle := Qlt_bool (lm_y l12) (lm_y l10);
            ring := Qlt_bool (lm_y l16) (lm_y l14);
            pinky := Qlt_bool (lm_y l20) (lm_y l18) |}.
  unfold get_finger_positions, finger_up, fingers_of; cbn.
  rewrite E3, E4, E6, E8, E10, E12, E14, E16, E18, E20; cbn.
  repeat match goal with |- context [Qlt_bool ?a ?b] => destruct (Qlt_bool a b) end;
    reflexivity.
Qed.

Lemma classify_gesture_total (landmarks : list Landmark) :
  (21 ≤ length landmarks)%nat → is_Some (classify_gesture landmarks).
Proof.
  intros Hlen. destruct (get_finger_positions_shape landmarks Hlen) as [v Hv].
  unfold classify_gesture. rewrite Hv. cbn. apply classify_fingers_total.
Qed.

(** C3. On every five-element boolean finger vector the classifier
    returns a label (it never fails, and a function returns one label
    only), and the label is the one of the table: no finger extended is
    FIST, five are OPEN_PALM, the index alone is POINTING_UP, the thumb
    alone is THUMBS_UP, any other single finger is ONE_FINGER, index and
    middle alone are PEACE, any other two fingers are TWO_FINGERS, any
    three are THREE_FINGERS and any four are NONE. *)
Theorem classify_gesture_table (v : FingerVector) :
  ∃ label, classify_fingers (fingers_of v) = Some label ∧
    (extended v = 0%nat → label = FIST) ∧
    (extended v = 5%nat → label = OPEN_PALM) ∧
    (extended v = 1%nat → index v = true → label = POINTING_UP) ∧
    (extended v = 1%nat → thumb v = true → label = THUMBS_UP) ∧
    (extended v = 1%nat → index v = false → thumb v = false → label = ONE_FINGER) ∧
    (extended v = 2%nat → index v = true → middle v = true → label = PEACE) ∧
    (extended v = 2%nat → ¬ (index v = true ∧ middle v = true) → label = TWO_FINGERS) ∧
    (extended v = 3%nat → label = THREE_FINGERS) ∧
    (extended v = 4%nat → label = NONE) ∧
    (extended v ≤ 5)%nat.
Proof.
  destruct v as [[] [] [] [] []];
    (eexists; split; [vm_compute; reflexivity|]);
    repeat split; intros;
    repeat match goal with
           | H : extended _ = _ |- _ => vm_compute in H
           | H : ¬ _ |- _ => cbn in H
           end;
    first [reflexivity | discriminate | tauto | (vm_compute; lia)].
Qed.

Lemma classify_gesture_table_witness :
  classify_fingers (fingers_of {| thumb := false; index := true; middle := true;
                                  ring := false; pinky := false |}) = Some PEACE.
Proof.
  destruct (classify_gesture_table
              {| thumb := false; index := true; middle := true;
                 ring := false; pinky := false |})
    as (label & Hc & _ & _ & _ & _ & _ & Hpeace & _).
  rewrite Hc. f_equal. apply Hpeace; reflexivity.
Defined.

(** ** Dispatch *)

(** [_execute_gesture] in closed form: it always returns normally, leaves
    the controller as it is, and invokes at most the first callback found
    under the two keys. *)
Lemma execute_gesture_eq (g : GestureType) (h : string) (self : GestureController) :
  _execute_gesture g h self =
  (Normal tt, self,
   match select_command g h with
   | Some command =>
       match found_callback (gesture_callbacks self) g h command with
       | Some callback => invocation command callback
       | None => []
       end
   | None => []
   end).
Proof.
  unfold _execute_gesture, bind, get, invocation.
  destruct (select_command g h) as [command|]; [|reflexivity].
  destruct (found_callback (gesture_callbacks self) g h command) as [cb|]; [|reflexivity].
  unfold try_except, bind, emit, call, bind, emit, raise, ret.
  destruct (callback_raises cb); reflexivity.
Qed.

Lemma execute_gesture_normal (g : GestureType) (h : string) (self : GestureController) :
  _execute_gesture g h self = (Normal tt, self, trace_of (_execute_gesture g h self)).
Proof. rewrite execute_gesture_eq. reflexivity. Qed.

Lemma invocation_triggers command callback : triggers (invocation command callback) = [].
Proof. unfold invocation. destruct (callback_raises callback); reflexivity. Qed.

Lemma invocation_invoked command callback : invoked (invocation command callback) = [callback].
Proof. unfold invocation. destruct (callback_raises callback); reflexivity. Qed.

Lemma triggers_cons_trigger g h trace :
  triggers (Trigger g h :: trace) = (g, h) :: triggers trace.
Proof. reflexivity. Qed.

Lemma invoked_cons_trigger g h trace : invoked (Trigger g h :: trace) = invoked trace.
Proof. reflexivity. Qed.

Lemma execute_gesture_triggers g h self : triggers (trace_of (_execute_gesture g h self)) = [].
Proof.
  rewrite execute_gesture_eq. unfold trace_of; cbn.
  repeat case_match; auto using invocation_triggers.
Qed.

Lemma execute_gesture_invoked_le g h self :
  (length (invoked (trace_of (_execute_gesture g h self))) ≤ 1)%nat.
Proof.
  rewrite execute_gesture_eq. unfold trace_of; cbn.
  repeat case_match; rewrite ?invocation_invoked; cbn; lia.
Qed.

(** The effects of a dispatch depend on the registry only. *)
Lemma execute_gesture_trace_registry g h self self' :
  gesture_callbacks self = gesture_callbacks self' →
  trace_of (_execute_gesture g h self) = trace_of (_execute_gesture g h self').
Proof. intros E. rewrite !execute_gesture_eq. unfold trace_of; cbn. rewrite E. reflexivity. Qed.

(** ** One tick of the hold tracker *)

#[local] Arguments _execute_gesture : simpl never.
#[local] Arguments contains : simpl never.

Lemma contains_generic_not_NONE g : contains gesture_commands g = true → g ≠ NONE.
Proof. intros H ->. vm_compute in H. discriminate. Qed.

Lemma contains_spec (table : gmap GestureType GestureCommand) (g : GestureType) :
  contains table g = match table !! g with Some _ => true | None => false end.
Proof.
  unfold contains. destruct (table !! g) as [c|].
  - apply bool_decide_eq_true_2. eauto.
  - apply bool_decide_eq_false_2. intros [c Hc]. discriminate Hc.
Qed.

(** The observed gesture has no entry in the generic table (or is NONE):
    only the tracked label is cleared. *)
Lemma handle_untracked g h t self :
  contains gesture_commands g = false →
  _handle_gesture_logic g h t self = (Normal tt, set_last_gesture NONE self, []).
Proof.
  intros Hc. unfold _handle_gesture_logic, bind, get.
  rewrite Hc, andb_false_r. reflexivity.
Qed.

(** The observed gesture differs from the tracked one: the hold starts. *)
Lemma handle_change g h t self :
  contains gesture_commands g = true → g ≠ last_gesture self →
  _handle_gesture_logic g h t self =
  (Normal tt,
   set_executed_gestures (executed_gestures self ∖ {[g]})
     (set_last_gesture g (set_gesture_start_time t self)),
   []).
Proof.
  intros Hc Hne. unfold _handle_gesture_logic, bind, get.
  rewrite Hc, (bool_decide_eq_true_2 _ (contains_generic_not_NONE g Hc)),
    (bool_decide_eq_true_2 _ Hne). cbn.
  destruct (bool_decide (g ∈ executed_gestures self)) eqn:Hin; cbn; [reflexivity|].
  apply bool_decide_eq_false_1 in Hin.
  unfold set_executed_gestures, set_last_gesture, set_gesture_start_time; cbn.
  do 2 f_equal. f_equal. symmetry. apply difference_disjoint_L, disjoint_singleton_r, Hin.
Qed.

(** The tracked gesture is observed again before the hold duration has
    elapsed. *)
Lemma handle_wait g h t self :
  contains gesture_commands g = true → g = last_gesture self →
  (t - gesture_start_time self < gesture_hold_duration self)%Q →
  _handle_gesture_logic g h t self = (Normal tt, self, []).
Proof.
  intros Hc He Hlt. unfold _handle_gesture_logic, bind, get.
  rewrite Hc, (bool_decide_eq_true_2 _ (contains_generic_not_NONE g Hc)). cbn.
  rewrite bool_decide_eq_false_2 by (intros Hne; apply Hne, He).
  destruct (Qle_bool _ _) eqn:Hle; [|reflexivity].
  apply Qle_bool_iff in Hle. exfalso. apply (Qlt_not_le _ _ Hlt Hle).
Qed.

(** The tracked gesture is observed after it has already fired. *)
Lemma handle_fired g h t self :
  contains gesture_commands g = true → g = last_gesture self →
  g ∈ executed_gestures self →
  _handle_gesture_logic g h t self = (Normal tt, self, []).
Proof.
  intros Hc He Hin. unfold _handle_gesture_logic, bind, get.
  rewrite Hc, (bool_decide_eq_true_2 _ (contains_generic_not_NONE g Hc)). cbn.
  rewrite bool_decide_eq_false_2 by (intros Hne; apply Hne, He).
  destruct (Qle_bool _ _); [|reflexivity].
  rewrite bool_decide_eq_false_2 by (intros Hn; apply Hn, Hin). reflexivity.
Qed.

(** The tracked gesture is observed once the hold duration has elapsed
    and it has not fired yet: the trigger. *)
Lemma handle_fire g h t self :
  contains gesture_commands g = true → g = last_gesture self →
  (gesture_hold_duration self <= t - gesture_start_time self)%Q →
  g ∉ executed_gestures self →
  _handle_gesture_logic g h t self =
  (Normal tt,
   set_executed_gestures ({[g]} ∪ executed_gestures self) self,
   Trigger g h :: trace_of (_execute_gesture g h self)).
Proof.
  intros Hc He Hle Hin. unfold _handle_gesture_logic, bind, get.
  rewrite Hc, (bool_decide_eq_true_2 _ (contains_generic_not_NONE g Hc)). cbn.
  rewrite bool_decide_eq_false_2 by (intros Hne; apply Hne, He).
  apply Qle_bool_iff in Hle. rewrite Hle.
  rewrite (bool_decide_eq_true_2 _ Hin).
  unfold emit, modify. cbn. rewrite execute_gesture_normal. cbn.
  rewrite app_nil_r. reflexivity.
Qed.

(** ** Runs of ticks *)

Lemma run_ticks_step tick rest self s1 t1 :
  _handle_gesture_logic (tick_gesture tick) (tick_hand tick) (tick_time tick) self
    = (Normal tt, s1, t1) →
  run_ticks (tick :: rest) self = then_run t1 (run_ticks rest s1).
Proof.
  intros E. cbn [run_ticks]. unfold bind at 1. rewrite E.
  unfold then_run, outcome_of, state_of, trace_of.
  destruct (run_ticks rest s1) as [[r s2] t2]. reflexivity.
Qed.

Lemma run_hold_cons g h t ts self s1 t1 :
  _handle_gesture_logic g h t self = (Normal tt, s1, t1) →
  run_ticks (hold g h (t :: ts)) self = then_run t1 (run_ticks (hold g h ts) s1).
Proof. intros E. unfold hold. rewrite fmap_cons. apply run_ticks_step. exact E. Qed.

Lemma then_run_nil r : then_run [] r = r.
Proof. destruct r as [[o s] t]. reflexivity. Qed.

Section Hold.
Variables (g : GestureType) (h : string) (self : GestureController).
Hypothesis generic : contains gesture_commands g = true.
Hypothesis tracking : g = last_gesture self.

(** Once fired, further ticks of the same hold do nothing. *)
Lemma run_hold_fired ts :
  g ∈ executed_gestures self →
  run_ticks (hold g h ts) self = (Normal tt, self, []).
Proof.
  intros Hin. induction ts as [|t ts IH]; [reflexivity|].
  rewrite (run_hold_cons _ _ _ _ _ self []) by (apply handle_fired; assumption).
  rewrite then_run_nil. exact IH.
Qed.

(** While every tick is short of the hold duration nothing happens. *)
Lemma run_hold_waiting ts :
  Forall (λ t, t - gesture_start_time self < gesture_hold_duration self)%Q ts →
  run_ticks (hold g h ts) self = (Normal tt, self, []).
Proof.
  induction 1 as [|t ts Ht _ IH]; [reflexivity|].
  rewrite (run_hold_cons _ _ _ _ _ self []) by (apply handle_wait; assumption).
  rewrite then_run_nil. exact IH.
Qed.
End Hold.

(** A hold in progress that has not fired: the first tick at or past the
    hold duration triggers, and it is the only one. *)
Lemma run_hold_fires g h self ts :
  contains gesture_commands g = true → g = last_gesture self →
  g ∉ executed_gestures self →
  Exists (λ t, gesture_hold_duration self <= t - gesture_start_time self)%Q ts →
  run_ticks (hold g h ts) self =
  (Normal tt,
   set_executed_gestures ({[g]} ∪ executed_gestures self) self,
   Trigger g h :: trace_of (_execute_gesture g h self)).
Proof.
  intros Hc He Hin Hex. induction ts as [|t ts IH]; [inversion Hex|].
  destruct (Qlt_le_dec (t - gesture_start_time self) (gesture_hold_duration self))
    as [Hlt|Hle].
  - rewrite (run_hold_cons _ _ _ _ _ self []) by (apply handle_wait; assumption).
    rewrite then_run_nil. apply IH.
    inversion Hex as [? ? Hhd|]; subst; [|assumption].
    exfalso. apply (Qlt_not_le _ _ Hlt Hhd).
  - rewrite (run_hold_cons _ _ _ _ _ _ _ (handle_fire g h t self Hc He Hle Hin)).
    rewrite run_hold_fired;
      [|assumption|assumption|cbn; apply elem_of_union_l, elem_of_singleton; reflexivity].
    unfold then_run, outcome_of, state_of, trace_of; cbn.
    rewrite app_nil_r. reflexivity.
Qed.

Lemma final_tick_exists (d t0 : Q) (ts : list Q) :
  (0 < d)%Q → (d <= List.last ts t0 - t0)%Q → Exists (λ t, d <= t - t0)%Q ts.
Proof.
  intros Hd Hl. destruct ts as [|t ts].
  - cbn in Hl. exfalso. lra.
  - apply Exists_exists. exists (List.last (t :: ts) t0). split; [|exact Hl].
    clear Hl. revert t. induction ts as [|t' ts IH]; intros t.
    + left.
    + right. apply IH.
Qed.

(** A hold that starts with a change of label and stays short of the
    hold duration: the start tick is all that happens. *)
Lemma run_hold_short g h self t0 ts :
  contains gesture_commands g = true → last_gesture self ≠ g →
  Forall (λ t, t - t0 < gesture_hold_duration self)%Q ts →
  run_ticks (hold g h (t0 :: ts)) self = (Normal tt, started g t0 self, []).
Proof.
  intros Hc Hne Hall.
  rewrite (run_hold_cons _ _ _ _ _ _ _ (handle_change g h t0 self Hc (not_eq_sym Hne))).
  rewrite then_run_nil. fold (started g t0 self).
  apply run_hold_waiting; [assumption|reflexivity|exact Hall].
Qed.

(** A hold that starts with a change of label and reaches the hold
    duration: exactly one trigger, dispatched on the registry as it is. *)
Lemma run_hold_long g h self t0 ts :
  contains gesture_commands g = true → last_gesture self ≠ g →
  Exists (λ t, gesture_hold_duration self <= t - t0)%Q ts →
  run_ticks (hold g h (t0 :: ts)) self =
  (Normal tt,
   set_executed_gestures ({[g]} ∪ executed_gestures (started g t0 self)) (started g t0 self),
   Trigger g h :: trace_of (_execute_gesture g h self)).
Proof.
  intros Hc Hne Hex.
  rewrite (run_hold_cons _ _ _ _ _ _ _ (handle_change g h t0 self Hc (not_eq_sym Hne))).
  rewrite then_run_nil. fold (started g t0 self).
  rewrite run_hold_fires;
    [|assumption|reflexivity|
     cbn; rewrite elem_of_difference, elem_of_singleton; tauto|exact Hex].
  do 2 f_equal. apply execute_gesture_trace_registry. reflexivity.
Qed.

(** A gesture without an entry in the generic table never gets past the
    guard of the hold tracker, however long it is shown. *)
Lemma run_hold_untracked g h self ts :
  contains gesture_commands g = false → ts ≠ [] →
  run_ticks (hold g h ts) self = (Normal tt, set_last_gesture NONE self, []).
Proof.
  intros Hc Hne. destruct ts as [|t ts]; [congruence|]. clear Hne.
  revert self t. induction ts as [|t' ts IH]; intros self t.
  - rewrite (run_hold_cons _ _ _ _ _ _ _ (handle_untracked g h t self Hc)).
    reflexivity.
  - rewrite (run_hold_cons _ _ _ _ _ _ _ (handle_untracked g h t self Hc)).
    rewrite then_run_nil, IH. reflexivity.
Qed.

(** ** The executed set stays inside the generic table *)

(** The four things a tick can do to the controller. *)
Lemma handle_state_cases g h t self :
  (contains gesture_commands g = false ∧
   _handle_gesture_logic g h t self = (Normal tt, set_last_gesture NONE self, [])) ∨
  (contains gesture_commands g = true ∧
   (_handle_gesture_logic g h t self = (Normal tt, started g t self, []) ∨
    _handle_gesture_logic g h t self = (Normal tt, self, []) ∨
    _handle_gesture_logic g h t self =
      (Normal tt, set_executed_gestures ({[g]} ∪ executed_gestures self) self,
       Trigger g h :: trace_of (_execute_gesture g h self)))).
Proof.
  destruct (contains gesture_commands g) eqn:Hc.
  - right. split; [reflexivity|].
    destruct (decide (g = last_gesture self)) as [He|Hne].
    + destruct (decide (g ∈ executed_gestures self)) as [Hin|Hnin].
      * right. left. apply handle_fired; assumption.
      * destruct (Qlt_le_dec (t - gesture_start_time self) (gesture_hold_duration self)).
        -- right. left. apply handle_wait; assumption.
        -- right. right. apply handle_fire; assumption.
    + left. apply handle_change; assumption.
  - left. split; [reflexivity|]. apply handle_untracked. exact Hc.
Qed.

Lemma handle_normal g h t self :
  outcome_of (_handle_gesture_logic g h t self) = Normal tt.
Proof.
  destruct (handle_state_cases g h t self) as [[_ E]|[_ [E|[E|E]]]]; rewrite E; reflexivity.
Qed.

Lemma handle_executed_in_generic g h t self :
  executed_in_generic self →
  executed_in_generic (state_of (_handle_gesture_logic g h t self)).
Proof.
  intros Hinv x.
  destruct (handle_state_cases g h t self) as [[_ E]|[Hc [E|[E|E]]]]; rewrite E;
    unfold state_of; cbn.
  - apply Hinv.
  - rewrite elem_of_difference. intros [Hx _]. apply Hinv, Hx.
  - apply Hinv.
  - rewrite elem_of_union, elem_of_singleton. intros [->|Hx]; [exact Hc|apply Hinv, Hx].
Qed.

Lemma process_frame_executed_in_generic results t self :
  executed_in_generic self →
  executed_in_generic (state_of (process_frame results t self)).
Proof.
  intros Hinv. unfold process_frame, bind, modify, lift.
  destruct (active_pair results) as [[g h]|e]; [|exact Hinv].
  cbn [fst snd].
  pose proof (handle_executed_in_generic g h t
                (set_frame_count (frame_count self + 1) self) Hinv) as H.
  destruct (_handle_gesture_logic g h t _) as [[o s] tr]. exact H.
Qed.

Lemma display_cleanup_executed self :
  executed_gestures (state_of (display_cleanup self)) = executed_gestures self.
Proof. unfold display_cleanup, bind, get, modify, emit. destruct (cap self); reflexivity. Qed.

Lemma display_loop_executed_in_generic frames self :
  executed_in_generic self →
  executed_in_generic (state_of (_display_loop frames self)).
Proof.
  revert self. induction frames as [|f rest IH]; intros self Hinv; [exact Hinv|].
  assert (Hclean : executed_in_generic (state_of (display_cleanup self))).
  { intros x. rewrite display_cleanup_executed. apply Hinv. }
  cbn [_display_loop]. unfold bind at 1, get.
  destruct (running self && from_option isOpened false (cap self)).
  - destruct (read_ret f); cbn [negb].
    + unfold bind at 1.
      pose proof (process_frame_executed_in_generic (detection f) (clock f) self Hinv) as Hp.
      destruct (process_frame (detection f) (clock f) self) as [[[[]|e] s1] t1];
        unfold state_of in Hp; cbn in Hp; [|exact Hp].
      destruct ((key f =? 113) || (key f =? 27)).
      * assert (Hc1 : executed_in_generic (state_of (display_cleanup s1))).
        { intros x. rewrite display_cleanup_executed. apply Hp. }
        destruct (display_cleanup s1) as [[o2 s2] t2]. exact Hc1.
      * specialize (IH s1 Hp).
        destruct (_display_loop rest s1) as [[o2 s2] t2]. exact IH.
    + unfold bind at 1, emit.
      destruct (display_cleanup self) as [[o2 s2] t2]. exact Hclean.
  - destruct (display_cleanup self) as [[o2 s2] t2]. exact Hclean.
Qed.

Lemma start_executed open i self :
  executed_gestures (state_of (start open i self)) = executed_gestures self.
Proof.
  unfold start, try_except, bind, get, lift, modify, emit, ret.
  destruct (running self); [reflexivity|].
  destruct (open i) as [c|e]; [|reflexivity].
  destruct (isOpened c); reflexivity.
Qed.

Lemma stop_executed self :
  executed_gestures (state_of (stop self)) = executed_gestures self.
Proof.
  unfold stop, try_except, bind, get, modify, emit, ret. cbn.
  destruct (cap self); reflexivity.
Qed.

Lemma reachable_executed_in_generic self :
  reachable self → executed_in_generic self.
Proof.
  induction 1 as [|c self _ IH].
  - intros x Hx. cbn in Hx. apply elem_of_empty in Hx. destruct Hx.
  - destruct c as [k cb|open i| |r t|g h t|fs]; cbn [perform].
    + exact IH.
    + intros x. rewrite start_executed. apply IH.
    + intros x. rewrite stop_executed. apply IH.
    + apply process_frame_executed_in_generic, IH.
    + apply handle_executed_in_generic, IH.
    + apply display_loop_executed_in_generic, IH.
Qed.

Lemma run_ticks_normal ticks self : outcome_of (run_ticks ticks self) = Normal tt.
Proof.
  revert self. induction ticks as [|tick rest IH]; intros self; [reflexivity|].
  pose proof (handle_normal (tick_gesture tick) (tick_hand tick) (tick_time tick) self) as Hn.
  destruct (_handle_gesture_logic (tick_gesture tick) (tick_hand tick) (tick_time tick) self)
    as [[o s1] t1] eqn:E.
  unfold outcome_of in Hn; cbn in Hn; subst o.
  rewrite (run_ticks_step _ _ _ _ _ E). unfold then_run, outcome_of. cbn. apply IH.
Qed.

(** ** C1: the hold tracker triggers once per hold *)

(** C1, as stated, fails: ONE_FINGER is a non-NONE gesture, and holding
    it for three seconds on a fresh controller (hold duration 2.0) emits
    no trigger at all. *)
Lemma hold_trigger_every_gesture_counterexample :
  ¬ (∀ (g : GestureType) (h : string) (self : GestureController) (t0 : Q) (ts : list Q),
       g ≠ NONE → last_gesture self ≠ g →
       (0 < gesture_hold_duration self)%Q →
       (gesture_hold_duration self <= List.last ts t0 - t0)%Q →
       triggers (trace_of (run_ticks (hold g h (t0 :: ts)) self)) = [(g, h)]).
Proof.
  intros H.
  specialize (H ONE_FINGER "left" __init__ 0%Q [1%Q; 3%Q]).
  assert (E : triggers (trace_of (run_ticks (hold ONE_FINGER "left" [0%Q; 1%Q; 3%Q]) __init__))
              = []) by (vm_compute; reflexivity).
  rewrite E in H. discriminate H; [discriminate|discriminate|reflexivity|discriminate].
Qed.

(** C1, amended. A hold of a non-NONE gesture [g] on hand [h] starts at
    the tick [t0] that changes the tracked label and goes on over the
    ticks [ts]. While every tick is less than the hold duration after
    [t0] no trigger is emitted; when [g] is a key of the generic command
    table and the last tick is at least the (positive) hold duration
    after [t0], exactly one trigger is emitted and it carries [(g, h)],
    however many ticks there are; ONE_FINGER, which has no command in
    any table, emits no trigger however long it is held. *)
Theorem hold_trigger_once (g : GestureType) (h : string) (self : GestureController)
    (t0 : Q) (ts : list Q) :
  g ≠ NONE → last_gesture self ≠ g →
  outcome_of (run_ticks (hold g h (t0 :: ts)) self) = Normal tt ∧
  (Forall (λ t, t - t0 < gesture_hold_duration self)%Q ts →
   triggers (trace_of (run_ticks (hold g h (t0 :: ts)) self)) = []) ∧
  (contains gesture_commands g = true →
   (0 < gesture_hold_duration self)%Q →
   (gesture_hold_duration self <= List.last ts t0 - t0)%Q →
   triggers (trace_of (run_ticks (hold g h (t0 :: ts)) self)) = [(g, h)]) ∧
  (g = ONE_FINGER →
   triggers (trace_of (run_ticks (hold g h (t0 :: ts)) self)) = []).
Proof.
  intros Hg Hne. split; [apply run_ticks_normal|]. split; [|split].
  - intros Hall. destruct (contains gesture_commands g) eqn:Hc.
    + rewrite run_hold_short by assumption. reflexivity.
    + rewrite run_hold_untracked by (assumption || discriminate). reflexivity.
  - intros Hc Hd Hl.
    rewrite run_hold_long by (try assumption; apply final_tick_exists; assumption).
    unfold trace_of; cbn. fold (trace_of (_execute_gesture g h self)).
    rewrite execute_gesture_triggers. reflexivity.
  - intros ->. rewrite run_hold_untracked by (reflexivity || discriminate). reflexivity.
Qed.

Lemma hold_trigger_once_witness :
  triggers (trace_of (run_ticks (hold FIST "left" [0%Q; 1%Q; 2.5%Q; 4%Q]) __init__))
    = [(FIST, "left")] ∧
  triggers (trace_of (run_ticks (hold FIST "left" [0%Q; 1%Q; 1.9%Q]) __init__)) = [].
Proof.
  split.
  - destruct (hold_trigger_once FIST "left" __init__ 0%Q [1%Q; 2.5%Q; 4%Q])
      as (_ & _ & Hlong & _); [discriminate | discriminate |].
    apply Hlong; [reflexivity | reflexivity | discriminate].
  - destruct (hold_trigger_once FIST "left" __init__ 0%Q [1%Q; 1.9%Q])
      as (_ & Hshort & _); [discriminate | discriminate |].
    apply Hshort.
    constructor; [reflexivity|]. constructor; [reflexivity|]. constructor.
Defined.

(** ** C4: what a change of label resets *)

(** C4, as stated, fails for a change to NONE: after a FIST tick at time
    1 the tracker holds FIST with start time 1; a NONE tick at time 5
    clears the tracked label but leaves the start time at 1. *)
Lemma label_change_restamps_counterexample :
  ¬ (∀ (g : GestureType) (h : string) (t : Q) (self : GestureController),
       reachable self → g ≠ last_gesture self →
       last_gesture (state_of (_handle_gesture_logic g h t self)) = g ∧
       (gesture_start_time (state_of (_handle_gesture_logic g h t self)) == t)%Q ∧
       (g ∉ executed_gestures (state_of (_handle_gesture_logic g h t self)))).
Proof.
  intros H.
  destruct (H NONE "unknown" 5%Q (perform (CallHandleGestureLogic FIST "left" 1%Q) __init__))
    as (_ & Hstart & _).
  - apply reachable_step, reachable_init.
  - discriminate.
  - vm_compute in Hstart. discriminate Hstart.
Qed.

(** C4, amended. When the observed gesture [g] differs from the tracked
    one and is a key of the generic command table, the tick makes [g]
    the tracked gesture, stamps the start time with the current time and
    clears [g] from the executed set. When the observed gesture is NONE
    the tick only clears the tracked label: the start time and the
    executed set stay as they are (the start time is stamped again by
    the next change to a generic-table gesture). A tick that observes
    the tracked gesture again, on whatever hand, resets nothing: label
    and start time stay and an executed mark is kept. *)
Theorem label_change_resets (g : GestureType) (h : string) (t : Q)
    (self : GestureController) :
  (g ≠ last_gesture self → contains gesture_commands g = true →
   last_gesture (state_of (_handle_gesture_logic g h t self)) = g ∧
   gesture_start_time (state_of (_handle_gesture_logic g h t self)) = t ∧
   (g ∉ executed_gestures (state_of (_handle_gesture_logic g h t self))) ∧
   trace_of (_handle_gesture_logic g h t self) = []) ∧
  (g ≠ last_gesture self → g = NONE →
   last_gesture (state_of (_handle_gesture_logic g h t self)) = NONE ∧
   gesture_start_time (state_of (_handle_gesture_logic g h t self)) = gesture_start_time self ∧
   executed_gestures (state_of (_handle_gesture_logic g h t self)) = executed_gestures self ∧
   trace_of (_handle_gesture_logic g h t self) = []) ∧
  (g = last_gesture self → contains gesture_commands g = true →
   ∀ h' : string,
     last_gesture (state_of (_handle_gesture_logic g h' t self)) = g ∧
     gesture_start_time (state_of (_handle_gesture_logic g h' t self)) = gesture_start_time self ∧
     (g ∈ executed_gestures self →
      g ∈ executed_gestures (state_of (_handle_gesture_logic g h' t self)))).
Proof.
  split; [|split].
  - intros Hne Hc. rewrite handle_change by assumption.
    unfold state_of, trace_of; cbn. repeat split.
    rewrite elem_of_difference, elem_of_singleton. tauto.
  - intros Hne ->. rewrite handle_untracked by reflexivity.
    unfold state_of, trace_of; cbn. repeat split.
  - intros He Hc h'.
    destruct (decide (g ∈ executed_gestures self)) as [Hin|Hnin].
    + rewrite handle_fired by assumption. unfold state_of; cbn. auto.
    + destruct (Qlt_le_dec (t - gesture_start_time self) (gesture_hold_duration self)).
      * rewrite handle_wait by assumption. unfold state_of; cbn. auto.
      * rewrite handle_fire by assumption. unfold state_of; cbn.
        repeat split; auto. tauto.
Qed.

Lemma label_change_resets_witness :
  gesture_start_time
    (state_of (_handle_gesture_logic FIST "left" 7%Q
                 (perform (CallHandleGestureLogic PEACE "left" 1%Q) __init__))) = 7%Q ∧
  gesture_start_time
    (state_of (_handle_gesture_logic NONE "unknown" 5%Q
                 (perform (CallHandleGestureLogic FIST "left" 1%Q) __init__))) = 1%Q ∧
  gesture_start_time
    (state_of (_handle_gesture_logic FIST "right" 2%Q
                 (perform (CallHandleGestureLogic FIST "left" 1%Q) __init__))) = 1%Q.
Proof.
  split; [|split].
  - destruct (label_change_resets FIST "left" 7%Q
                (perform (CallHandleGestureLogic PEACE "left" 1%Q) __init__))
      as (Hchange & _).
    apply Hchange; [discriminate | reflexivity].
  - destruct (label_change_resets NONE "unknown" 5%Q
                (perform (CallHandleGestureLogic FIST "left" 1%Q) __init__))
      as (_ & Hnone & _).
    apply Hnone; [discriminate | reflexivity].
  - destruct (label_change_resets FIST "left" 2%Q
                (perform (CallHandleGestureLogic FIST "left" 1%Q) __init__))
      as (_ & _ & Hsame).
    apply (Hsame eq_refl eq_refl "right").
Defined.

(** ** C5: the round trip through NONE re-enables the trigger *)

(** C5. Let [g] have fired (it is in the executed set of a reachable
    controller). A tick that observes NONE followed by a hold of [g]
    that starts at [t0] and whose last tick is at least the (positive)
    hold duration later emits a trigger for [g] again, exactly one; the
    executed mark of [g] is cleared by the tick that observes [g] after
    the NONE. *)
Theorem retrigger_after_none (g : GestureType) (h h0 : string)
    (self : GestureController) (tn t0 : Q) (ts : list Q) :
  reachable self → g ∈ executed_gestures self →
  (0 < gesture_hold_duration self)%Q →
  (gesture_hold_duration self <= List.last ts t0 - t0)%Q →
  (g ∉ executed_gestures
        (state_of (run_ticks [ {| tick_gesture := NONE; tick_hand := h0; tick_time := tn |};
                               {| tick_gesture := g; tick_hand := h; tick_time := t0 |} ] self))) ∧
  triggers (trace_of (run_ticks
     ({| tick_gesture := NONE; tick_hand := h0; tick_time := tn |} :: hold g h (t0 :: ts))
     self)) = [(g, h)].
Proof.
  intros Hr Hin Hd Hl.
  pose proof (reachable_executed_in_generic self Hr g Hin) as Hc.
  pose proof (contains_generic_not_NONE g Hc) as Hg.
  assert (Hnone : ∀ rest,
    run_ticks ({| tick_gesture := NONE; tick_hand := h0; tick_time := tn |} :: rest) self
    = run_ticks rest (set_last_gesture NONE self)).
  { intros rest.
    rewrite (run_ticks_step _ rest self (set_last_gesture NONE self) [])
      by (apply handle_untracked; reflexivity).
    apply then_run_nil. }
  split.
  - rewrite Hnone.
    change [ {| tick_gesture := g; tick_hand := h; tick_time := t0 |} ] with (hold g h [t0]).
    rewrite run_hold_short; [|assumption|cbn; congruence|constructor].
    unfold state_of; cbn. rewrite elem_of_difference, elem_of_singleton. tauto.
  - rewrite Hnone.
    rewrite run_hold_long;
      [|assumption|cbn; congruence|apply final_tick_exists; assumption].
    unfold trace_of; cbn.
    fold (trace_of (_execute_gesture g h (set_last_gesture NONE self))).
    rewrite execute_gesture_triggers. reflexivity.
Qed.

Lemma retrigger_after_none_witness :
  triggers (trace_of (run_ticks (hold FIST "left" [0%Q; 3%Q]) __init__)) = [(FIST, "left")] ∧
  triggers (trace_of (run_ticks
     ({| tick_gesture := NONE; tick_hand := "unknown"; tick_time := 4%Q |}
        :: hold FIST "left" [5%Q; 6%Q; 7.5%Q])
     (perform (CallHandleGestureLogic FIST "left" 3%Q)
        (perform (CallHandleGestureLogic FIST "left" 0%Q) __init__))))
  = [(FIST, "left")].
Proof.
  split; [vm_compute; reflexivity|].
  apply (retrigger_after_none FIST "left" "unknown"
           (perform (CallHandleGestureLogic FIST "left" 3%Q)
              (perform (CallHandleGestureLogic FIST "left" 0%Q) __init__))
           4%Q 5%Q [6%Q; 7.5%Q]).
  - apply reachable_step, reachable_step, reachable_init.
  - apply (bool_decide_unpack _). vm_compute. exact I.
  - reflexivity.
  - discriminate.
Defined.

(** ** C9: only generic-table gestures are ever tracked or executed *)

(** C9. On every reachable controller the executed set holds keys of
    the generic command table only. A tick whose observed gesture is not
    a key of the generic table neither stamps the start time nor fires:
    it clears the tracked label and does nothing else. Hence a gesture
    that is in no table but the hand-specific ones (every table that has
    it as a key is the left-hand or the right-hand table), which is the
    case of ONE_FINGER, TWO_FINGERS and THREE_FINGERS, never starts a
    hold timer, never fires and never has a callback invoked, on any
    hand and however long it is shown. *)
Theorem executed_only_generic (self : GestureController) :
  reachable self →
  (∀ x, x ∈ executed_gestures self → contains gesture_commands x = true) ∧
  (∀ g h t, contains gesture_commands g = false →
     _handle_gesture_logic g h t self = (Normal tt, set_last_gesture NONE self, [])) ∧
  (∀ g h t,
     gesture_start_time (state_of (_handle_gesture_logic g h t self)) ≠ gesture_start_time self ∨
     trace_of (_handle_gesture_logic g h t self) ≠ [] →
     contains gesture_commands g = true) ∧
  (∀ g, g ∈ [ONE_FINGER; TWO_FINGERS; THREE_FINGERS] →
     (∀ table, table ∈ [gesture_commands; left_hand_commands; right_hand_commands] →
        contains table g = true → table ∈ [left_hand_commands; right_hand_commands]) ∧
     ∀ h ts,
       gesture_start_time (state_of (run_ticks (hold g h ts) self)) = gesture_start_time self ∧
       executed_gestures (state_of (run_ticks (hold g h ts) self)) = executed_gestures self ∧
       (g ∉ executed_gestures (state_of (run_ticks (hold g h ts) self))) ∧
       triggers (trace_of (run_ticks (hold g h ts) self)) = [] ∧
       invoked (trace_of (run_ticks (hold g h ts) self)) = []).
Proof.
  intros Hr. pose proof (reachable_executed_in_generic self Hr) as Hinv.
  split; [exact Hinv|]. split; [intros; apply handle_untracked; assumption|].
  split.
  - intros g h t Hchg. destruct (contains gesture_commands g) eqn:Hc; [reflexivity|].
    rewrite handle_untracked in Hchg by assumption.
    unfold state_of, trace_of in Hchg; cbn in Hchg. destruct Hchg as [H|H]; congruence.
  - intros g Hg.
    assert (Hc : contains gesture_commands g = false).
    { rewrite !elem_of_cons in Hg. destruct Hg as [->|[->|[->|Hg]]];
        [reflexivity..|inversion Hg]. }
    split.
    + intros table Ht Hin. rewrite !elem_of_cons in Ht.
      destruct Ht as [->|[->|[->|Ht]]]; [congruence|left|right; left|inversion Ht].
    + intros h ts.
      assert (Hnot : g ∉ executed_gestures self).
      { intros Hin. apply Hinv in Hin. congruence. }
      destruct ts as [|t ts]; [cbn; repeat split; exact Hnot|].
      rewrite run_hold_untracked by (assumption || discriminate).
      unfold state_of, trace_of; cbn. repeat split. exact Hnot.
Qed.

Lemma executed_only_generic_witness :
  run_ticks (hold THREE_FINGERS "left" [0%Q; 1%Q; 5%Q]) __init__ = (Normal tt, __init__, []) ∧
  triggers (trace_of (run_ticks (hold TWO_FINGERS "right" [0%Q; 3%Q]) __init__)) = [].
Proof.
  destruct (executed_only_generic __init__ reachable_init) as (_ & _ & _ & Hhand).
  split; [vm_compute; reflexivity|].
  destruct (Hhand TWO_FINGERS) as (_ & Hrun).
  - right; left.
  - apply (Hrun "right" [0%Q; 3%Q]).
Defined.

(** ** C2: command resolution *)

(** C2. The command for a gesture and a hand is the entry of that hand's
    own table when the hand is left or right and its table has one,
    otherwise the entry of the generic table, otherwise none; it is one
    command at most and at most one callback is invoked for it. With the
    tables as configured OPEN_PALM resolves to "open_all" on the left
    and on the right hand; a hold of THUMBS_UP that reaches the hold
    duration of 2.0 s triggers once and dispatches the command
    "decrease_brightness" on the left hand and "increase_brightness" on
    the right hand (the callback invoked is the one found for that
    command, under the action name when the registry has no entry for
    the hand and gesture). *)
Theorem command_resolution (g : GestureType) (h : string) (self : GestureController)
    (t0 : Q) (ts : list Q) :
  (h = "left" →
   select_command g h = match left_hand_commands !! g with
                        | Some command => Some command
                        | None => gesture_commands !! g
                        end) ∧
  (h = "right" →
   select_command g h = match right_hand_commands !! g with
                        | Some command => Some command
                        | None => gesture_commands !! g
                        end) ∧
  (h ≠ "left" → h ≠ "right" → select_command g h = gesture_commands !! g) ∧
  (length (invoked (trace_of (_execute_gesture g h self))) ≤ 1)%nat ∧
  action <$> select_command OPEN_PALM "left" = Some "open_all" ∧
  action <$> select_command OPEN_PALM "right" = Some "open_all" ∧
  (last_gesture self ≠ THUMBS_UP → gesture_hold_duration self = 2.0%Q →
   (2.0 <= List.last ts t0 - t0)%Q →
   ∀ side act, (side, act) ∈ [("left", "decrease_brightness"); ("right", "increase_brightness")] →
     ∃ command,
       select_command THUMBS_UP side = Some command ∧ action command = act ∧
       triggers (trace_of (run_ticks (hold THUMBS_UP side (t0 :: ts)) self))
         = [(THUMBS_UP, side)] ∧
       trace_of (run_ticks (hold THUMBS_UP side (t0 :: ts)) self)
         = Trigger THUMBS_UP side ::
           match found_callback (gesture_callbacks self) THUMBS_UP side command with
           | Some callback => invocation command callback
           | None => []
           end ∧
       (∀ callback,
          gesture_callbacks self !! (side +:+ "_thumbs_up") = None →
          gesture_callbacks self !! act = Some callback →
          invoked (trace_of (run_ticks (hold THUMBS_UP side (t0 :: ts)) self)) = [callback])).
Proof.
  split; [|split; [|split; [|split; [|split; [|split]]]]].
  - intros ->. unfold select_command. rewrite !contains_spec.
    cbn [String.eqb Ascii.eqb Bool.eqb andb].
    destruct (left_hand_commands !! g), (gesture_commands !! g); reflexivity.
  - intros ->. unfold select_command. rewrite !contains_spec.
    cbn [String.eqb Ascii.eqb Bool.eqb andb].
    destruct (right_hand_commands !! g), (gesture_commands !! g); reflexivity.
  - intros Hl Hr. unfold select_command. rewrite !contains_spec.
    apply String.eqb_neq in Hl, Hr. rewrite Hl, Hr. cbn [andb].
    destruct (gesture_commands !! g); reflexivity.
  - apply execute_gesture_invoked_le.
  - reflexivity.
  - reflexivity.
  - intros Hne Hd Hl side act Hside.
    assert (Hex : Exists (λ t, gesture_hold_duration self <= t - t0)%Q ts).
    { rewrite Hd. apply final_tick_exists; [reflexivity|exact Hl]. }
    assert (Hrun : trace_of (run_ticks (hold THUMBS_UP side (t0 :: ts)) self)
                   = Trigger THUMBS_UP side :: trace_of (_execute_gesture THUMBS_UP side self)).
    { rewrite run_hold_long; [reflexivity|reflexivity|assumption|assumption]. }
    assert (Hdispatch : ∀ command act',
      select_command THUMBS_UP side = Some command → action command = act' →
      ∃ command,
        select_command THUMBS_UP side = Some command ∧ action command = act' ∧
        triggers (trace_of (run_ticks (hold THUMBS_UP side (t0 :: ts)) self))
          = [(THUMBS_UP, side)] ∧
        trace_of (run_ticks (hold THUMBS_UP side (t0 :: ts)) self)
          = Trigger THUMBS_UP side ::
            match found_callback (gesture_callbacks self) THUMBS_UP side command with
            | Some callback => invocation command callback
            | None => []
            end ∧
        (∀ callback,
           gesture_callbacks self !! (side +:+ "_thumbs_up") = None →
           gesture_callbacks self !! act' = Some callback →
           invoked (trace_of (run_ticks (hold THUMBS_UP side (t0 :: ts)) self)) = [callback])).
    { intros command act' Hsel Hact. exists command.
      split; [exact Hsel|]. split; [exact Hact|].
      rewrite Hrun. split; [|split].
      - rewrite triggers_cons_trigger, execute_gesture_triggers. reflexivity.
      - rewrite execute_gesture_eq, Hsel. reflexivity.
      - intros callback Hk Ha.
        rewrite invoked_cons_trigger, execute_gesture_eq, Hsel. unfold trace_of; cbn [snd].
        unfold found_callback, gesture_key_of.
        replace (side +:+ "_" +:+ value THUMBS_UP) with (side +:+ "_thumbs_up")
          by reflexivity.
        rewrite Hk, Hact, Ha. apply invocation_invoked. }
    rewrite !elem_of_cons in Hside.
    destruct Hside as [E|[E|E]]; [| |inversion E]; injection E as -> ->.
    + apply (Hdispatch (mkGestureCommand THUMBS_UP "decrease_brightness"
                          "左手拇指向上 - 降低亮度")); reflexivity.
    + apply (Hdispatch (mkGestureCommand THUMBS_UP "increase_brightness"
                          "右手拇指向上 - 增加亮度")); reflexivity.
Qed.

Lemma command_resolution_witness :
  invoked (trace_of (run_ticks (hold THUMBS_UP "left" [0%Q; 1%Q; 2%Q])
                       (registered [("decrease_brightness", returning "dim");
                                    ("increase_brightness", returning "brighten")])))
    = [returning "dim"] ∧
  invoked (trace_of (run_ticks (hold THUMBS_UP "right" [0%Q; 1%Q; 2%Q])
                       (registered [("decrease_brightness", returning "dim");
                                    ("increase_brightness", returning "brighten")])))
    = [returning "brighten"].
Proof.
  destruct (command_resolution NONE "unknown"
              (registered [("decrease_brightness", returning "dim");
                           ("increase_brightness", returning "brighten")])
              0%Q [1%Q; 2%Q]) as (_ & _ & _ & _ & _ & _ & Hhold).
  assert (H1 : last_gesture (registered [("decrease_brightness", returning "dim");
                                         ("increase_brightness", returning "brighten")])
               ≠ THUMBS_UP) by discriminate.
  specialize (Hhold H1 eq_refl).
  assert (H2 : (2.0 <= List.last [1%Q; 2%Q] 0%Q - 0%Q)%Q) by discriminate.
  specialize (Hhold H2).
  split.
  - destruct (Hhold "left" "decrease_brightness") as (c & _ & _ & _ & _ & Hcb); [left|].
    apply Hcb; vm_compute; reflexivity.
  - destruct (Hhold "right" "increase_brightness") as (c & _ & _ & _ & _ & Hcb); [right; left|].
    apply Hcb; vm_compute; reflexivity.
Defined.

(** ** C7: the keys under which a callback is looked up *)

(** C7, as stated, fails: the registry is not consulted under
    "{side}.{action}". With callbacks registered under
    "left.decrease_brightness" and under "decrease_brightness", a left
    THUMBS_UP trigger (resolved action "decrease_brightness") invokes
    the second, not the first. *)
Lemma callback_key_side_action_counterexample :
  ¬ (∀ (self : GestureController) (g : GestureType) (h : string)
       (command : GestureCommand) (callback : Callback),
       select_command g h = Some command →
       gesture_callbacks self !! (h +:+ "." +:+ action command) = Some callback →
       invoked (trace_of (_execute_gesture g h self)) = [callback]).
Proof.
  intros H.
  specialize (H (registered [("left.decrease_brightness", returning "qualified");
                             ("decrease_brightness", returning "plain")])
                THUMBS_UP "left"
                (mkGestureCommand THUMBS_UP "decrease_brightness" "左手拇指向上 - 降低亮度")
                (returning "qualified")).
  assert (E : invoked (trace_of (_execute_gesture THUMBS_UP "left"
                (registered [("left.decrease_brightness", returning "qualified");
                             ("decrease_brightness", returning "plain")])))
              = [returning "plain"]) by (vm_compute; reflexivity).
  rewrite E in H. discriminate H; vm_compute; reflexivity.
Qed.

(** C7, amended. For a trigger of gesture [g] on hand [h] that resolves
    to [command], the registry is consulted first under the key made of
    the hand side, an underscore and the value of the gesture label
    ("{side}_{gesture}", as in "left_thumbs_up") and, only when that key
    is absent, under the action name of the command; the first callback
    found is invoked, once and within the call. If neither key is
    registered nothing is invoked and nothing is logged; in every case
    the dispatch returns normally and leaves the controller as it is. *)
Theorem callback_lookup_order (self : GestureController) (g : GestureType) (h : string)
    (command : GestureCommand) :
  select_command g h = Some command →
  outcome_of (_execute_gesture g h self) = Normal tt ∧
  state_of (_execute_gesture g h self) = self ∧
  (∀ callback,
     gesture_callbacks self !! (h +:+ "_" +:+ value g) = Some callback →
     trace_of (_execute_gesture g h self) = invocation command callback ∧
     invoked (trace_of (_execute_gesture g h self)) = [callback]) ∧
  (∀ callback,
     gesture_callbacks self !! (h +:+ "_" +:+ value g) = None →
     gesture_callbacks self !! action command = Some callback →
     trace_of (_execute_gesture g h self) = invocation command callback ∧
     invoked (trace_of (_execute_gesture g h self)) = [callback]) ∧
  (gesture_callbacks self !! (h +:+ "_" +:+ value g) = None →
   gesture_callbacks self !! action command = None →
   trace_of (_execute_gesture g h self) = []).
Proof.
  intros Hsel. rewrite execute_gesture_eq, Hsel.
  unfold outcome_of, state_of, trace_of, found_callback, gesture_key_of; cbn [fst snd].
  split; [reflexivity|]. split; [reflexivity|]. split; [|split].
  - intros callback Hk. rewrite Hk. split; [reflexivity|apply invocation_invoked].
  - intros callback Hk Ha. rewrite Hk, Ha. split; [reflexivity|apply invocation_invoked].
  - intros Hk Ha. rewrite Hk, Ha. reflexivity.
Qed.

Lemma callback_lookup_order_witness :
  invoked (trace_of (_execute_gesture THUMBS_UP "left"
             (registered [("left_thumbs_up", returning "qualified");
                          ("decrease_brightness", returning "plain")])))
    = [returning "qualified"] ∧
  invoked (trace_of (_execute_gesture THUMBS_UP "left"
             (registered [("decrease_brightness", returning "plain")])))
    = [returning "plain"] ∧
  trace_of (_execute_gesture THUMBS_UP "left" __init__) = [].
Proof.
  split; [|split].
  - destruct (callback_lookup_order
                (registered [("left_thumbs_up", returning "qualified");
                             ("decrease_brightness", returning "plain")])
                THUMBS_UP "left"
                (mkGestureCommand THUMBS_UP "decrease_brightness" "左手拇指向上 - 降低亮度")
                eq_refl) as (_ & _ & Hkey & _).
    apply Hkey. vm_compute. reflexivity.
  - destruct (callback_lookup_order
                (registered [("decrease_brightness", returning "plain")])
                THUMBS_UP "left"
                (mkGestureCommand THUMBS_UP "decrease_brightness" "左手拇指向上 - 降低亮度")
                eq_refl) as (_ & _ & _ & Haction & _).
    apply Haction; vm_compute; reflexivity.
  - destruct (callback_lookup_order __init__ THUMBS_UP "left"
                (mkGestureCommand THUMBS_UP "decrease_brightness" "左手拇指向上 - 降低亮度")
                eq_refl) as (_ & _ & _ & _ & Hnone).
    apply Hnone; vm_compute; reflexivity.
Defined.

(** ** C8: a failing or missing callback still consumes the trigger *)

Lemma process_frame_eq results t self g h :
  active_pair results = Normal (g, h) →
  process_frame results t self
  = _handle_gesture_logic g h t (set_frame_count (frame_count self + 1) self).
Proof.
  intros E. unfold process_frame, bind, modify, lift. rewrite E. cbn [fst snd].
  destruct (_handle_gesture_logic g h t _) as [[o s] tr]. reflexivity.
Qed.

(** One turn of the display loop whose frame is processed without an
    exception and without a quit key: the loop goes on with the next
    frame. *)
Lemma display_loop_step f rest self :
  running self = true → from_option isOpened false (cap self) = true →
  read_ret f = true → (key f =? 113) || (key f =? 27) = false →
  outcome_of (process_frame (detection f) (clock f) self) = Normal tt →
  _display_loop (f :: rest) self
  = then_run (trace_of (process_frame (detection f) (clock f) self))
             (_display_loop rest (state_of (process_frame (detection f) (clock f) self))).
Proof.
  intros Hrun Hcap Hread Hkey Hout. cbn [_display_loop]. unfold bind at 1, get.
  rewrite Hrun, Hcap, Hread. cbn [andb negb]. unfold bind at 1.
  destruct (process_frame (detection f) (clock f) self) as [[o s1] t1].
  unfold outcome_of in Hout; cbn in Hout; subst o. rewrite Hkey.
  unfold then_run, state_of, trace_of, outcome_of; cbn [fst snd].
  destruct (_display_loop rest s1) as [[o2 s2] t2]. reflexivity.
Qed.

(** C8. Take a tick that fires: the tracked gesture [g] is observed on
    hand [h] once the hold duration has elapsed and [g] is not yet in
    the executed set. Whatever the callback does, the tick returns
    normally (an exception raised by the callback is caught and logged
    inside the dispatch), the trigger is emitted once, at most one
    callback invocation is made and [g] ends in the executed set; so
    every later tick of the same hold, on any hand, does nothing: no
    retry and no second dispatch. This holds when the callback raises
    and when no callback is registered under either key. The frame that
    carries such a tick is processed without an exception and the
    display loop goes on with the next frame. *)
Theorem dispatch_failure_consumes_trigger (self : GestureController) (g : GestureType)
    (h : string) (t : Q) :
  contains gesture_commands g = true → g = last_gesture self →
  (gesture_hold_duration self <= t - gesture_start_time self)%Q →
  g ∉ executed_gestures self →
  outcome_of (_handle_gesture_logic g h t self) = Normal tt ∧
  triggers (trace_of (_handle_gesture_logic g h t self)) = [(g, h)] ∧
  (length (invoked (trace_of (_handle_gesture_logic g h t self))) ≤ 1)%nat ∧
  g ∈ executed_gestures (state_of (_handle_gesture_logic g h t self)) ∧
  (∀ command callback e,
     select_command g h = Some command →
     found_callback (gesture_callbacks self) g h command = Some callback →
     callback_raises callback = Some e →
     trace_of (_handle_gesture_logic g h t self)
     = [Trigger g h; LogInfo ("执行手势: " +:+ description command); Invoke callback;
        LogError ("执行手势回调时出错: " +:+ str e)]) ∧
  (∀ command,
     select_command g h = Some command →
     found_callback (gesture_callbacks self) g h command = None →
     trace_of (_handle_gesture_logic g h t self) = [Trigger g h]) ∧
  (∀ h' ts,
     run_ticks (hold g h' ts) (state_of (_handle_gesture_logic g h t self))
     = (Normal tt, state_of (_handle_gesture_logic g h t self), [])) ∧
  (∀ f rest,
     running self = true → from_option isOpened false (cap self) = true →
     read_ret f = true → key f ≠ 113 → key f ≠ 27 →
     active_pair (detection f) = Normal (g, h) → clock f = t →
     outcome_of (process_frame (detection f) (clock f) self) = Normal tt ∧
     g ∈ executed_gestures (state_of (process_frame (detection f) (clock f) self)) ∧
     _display_loop (f :: rest) self
     = then_run (trace_of (process_frame (detection f) (clock f) self))
                (_display_loop rest (state_of (process_frame (detection f) (clock f) self)))).
Proof.
  intros Hc He Hle Hnin.
  pose proof (handle_fire g h t self Hc He Hle Hnin) as Hfire.
  split; [apply handle_normal|]. rewrite Hfire.
  unfold state_of, trace_of; cbn [fst snd].
  fold (trace_of (_execute_gesture g h self)).
  split; [rewrite triggers_cons_trigger, execute_gesture_triggers; reflexivity|].
  split; [rewrite invoked_cons_trigger; apply execute_gesture_invoked_le|].
  split; [cbn; rewrite elem_of_union, elem_of_singleton; auto|].
  split; [|split; [|split]].
  - intros command callback e Hsel Hfound Hraise.
    rewrite execute_gesture_eq, Hsel, Hfound. unfold trace_of, invocation; cbn [snd].
    rewrite Hraise. reflexivity.
  - intros command Hsel Hfound.
    rewrite execute_gesture_eq, Hsel, Hfound. reflexivity.
  - intros h' ts. apply run_hold_fired; [assumption|exact He|].
    cbn. rewrite elem_of_union, elem_of_singleton; auto.
  - intros f rest Hrun Hcap Hread Hq Hesc Hpair Ht.
    assert (Hout : outcome_of (process_frame (detection f) (clock f) self) = Normal tt).
    { rewrite (process_frame_eq _ _ _ g h Hpair). apply handle_normal. }
    split; [exact Hout|]. split.
    + rewrite (process_frame_eq _ _ _ g h Hpair), Ht.
      rewrite (handle_fire g h t (set_frame_count (frame_count self + 1) self) Hc He Hle Hnin).
      unfold state_of; cbn. rewrite elem_of_union, elem_of_singleton; auto.
    + apply display_loop_step; try assumption.
      apply Z.eqb_neq in Hq, Hesc. rewrite Hq, Hesc. reflexivity.
Qed.

Lemma dispatch_failure_consumes_trigger_witness :
  trace_of (_handle_gesture_logic FIST "left" 3%Q
              (perform (CallHandleGestureLogic FIST "left" 0%Q)
                 (registered [("close_all", failing "close" "device offline")])))
  = [Trigger FIST "left"; LogInfo ("执行手势: " +:+ "拳头 - 关闭所有设备");
     Invoke (failing "close" "device offline");
     LogError ("执行手势回调时出错: " +:+ "device offline")] ∧
  FIST ∈ executed_gestures
    (state_of (_handle_gesture_logic FIST "left" 3%Q
                 (perform (CallHandleGestureLogic FIST "left" 0%Q)
                    (registered [("close_all", failing "close" "device offline")])))) ∧
  trace_of (run_ticks (hold FIST "left" [4%Q; 5%Q; 9%Q])
              (state_of (_handle_gesture_logic FIST "left" 3%Q
                 (perform (CallHandleGestureLogic FIST "left" 0%Q)
                    (registered [("close_all", failing "close" "device offline")])))))
  = [].
Proof.
  destruct (dispatch_failure_consumes_trigger
              (perform (CallHandleGestureLogic FIST "left" 0%Q)
                 (registered [("close_all", failing "close" "device offline")]))
              FIST "left" 3%Q)
    as (_ & _ & _ & Hin & Hraise & _ & Hlater & _).
  - reflexivity.
  - reflexivity.
  - discriminate.
  - apply (bool_decide_unpack _). vm_compute. exact I.
  - split; [|split].
    + apply (Hraise (mkGestureCommand FIST "close_all" "拳头 - 关闭所有设备")
                    (failing "close" "device offline") (Exception "device offline"));
        vm_compute; reflexivity.
    + exact Hin.
    + rewrite (Hlater "left" [4%Q; 5%Q; 9%Q]). reflexivity.
Defined.

(** ** C6: the pair the frame loop hands to the hold tracker *)

Lemma active_pair_scan results :
  active_pair results = scan_hands (zip_hands results) NONE "unknown".
Proof.
  unfold active_pair, zip_hands, truthy.
  destruct (multi_hand_landmarks results) as [[|lm lms]|];
    destruct (multi_handedness results) as [[|lb lbs]|]; reflexivity.
Qed.

Lemma scan_hands_first pre hand_landmarks hand_label post gesture current_gesture hand_type :
  Forall (λ hand, classify_gesture hand.1 = Some NONE) pre →
  classify_gesture hand_landmarks = Some gesture → gesture ≠ NONE →
  scan_hands (pre ++ (hand_landmarks, hand_label) :: post) current_gesture hand_type
  = Normal (gesture, hand_type_of hand_label).
Proof.
  intros Hpre Hc Hg. revert hand_type.
  induction Hpre as [|[lm lb] pre Hhd _ IH]; intros hand_type; cbn [app scan_hands].
  - rewrite Hc, (bool_decide_eq_true_2 _ Hg). reflexivity.
  - change (classify_gesture lm = Some NONE) in Hhd. rewrite Hhd.
    rewrite bool_decide_eq_false_2 by (intros H; apply H; reflexivity). apply IH.
Qed.

Lemma scan_hands_none hands current_gesture hand_type :
  Forall (λ hand, classify_gesture hand.1 = Some NONE) hands →
  scan_hands hands current_gesture hand_type
  = Normal (current_gesture,
            match last hands with
            | Some (_, hand_label) => hand_type_of hand_label
            | None => hand_type
            end).
Proof.
  intros Hall. revert hand_type.
  induction Hall as [|[lm lb] hands Hhd _ IH]; intros hand_type; [reflexivity|].
  cbn [scan_hands]. change (classify_gesture lm = Some NONE) in Hhd. rewrite Hhd.
  rewrite bool_decide_eq_false_2 by (intros H; apply H; reflexivity).
  rewrite IH. destruct hands as [|[lm' lb'] hands]; [reflexivity|].
  rewrite last_cons_cons.
  destruct (last ((lm', lb') :: hands)) as [[lm'' lb'']|] eqn:El; [reflexivity|].
  apply last_None in El. discriminate El.
Qed.

Lemma scan_hands_total hands current_gesture hand_type :
  Forall (λ hand, (21 ≤ length hand.1)%nat) hands →
  ∃ gesture hand_type', scan_hands hands current_gesture hand_type
                        = Normal (gesture, hand_type').
Proof.
  intros Hall. revert hand_type.
  induction Hall as [|[lm lb] hands Hlen _ IH]; intros hand_type; [cbn; eauto|].
  cbn [scan_hands]. destruct (classify_gesture_total lm Hlen) as [g Hg]. rewrite Hg.
  destruct (bool_decide (g ≠ NONE)); [eauto|apply IH].
Qed.

(** C6, as stated, fails when hands are detected but none shows a
    gesture: the hand side of the pair is then the side of the last
    detected hand, not "unknown". One left hand with four fingers
    extended (classified NONE) gives the pair (NONE, "left"). *)
Lemma no_gesture_hand_unknown_counterexample :
  ¬ (∀ results : DetectionResults,
       Forall (λ hand, classify_gesture hand.1 = Some NONE) (zip_hands results) →
       active_pair results = Normal (NONE, "unknown")).
Proof.
  intros H. specialize (H (detected [("Left", four_finger_hand)])).
  assert (E : active_pair (detected [("Left", four_finger_hand)]) = Normal (NONE, "left"))
    by (vm_compute; reflexivity).
  rewrite E in H. discriminate H.
  constructor; [vm_compute; reflexivity|constructor].
Qed.

(** C6, amended. The detected hands are taken in the order reported. The
    pair of the tick is the gesture and side of the first hand whose
    classified gesture is not NONE. If every detected hand is classified
    NONE the gesture is NONE and the hand is the side of the last
    detected hand; the hand is "unknown" only when no hand is detected.
    That pair is what [process_frame] passes to the hold tracker, after
    counting the frame; with the 21 landmarks per hand that the detector
    delivers there always is such a pair. *)
Theorem active_pair_selection (results : DetectionResults) :
  (∀ pre hand_landmarks hand_label post gesture,
     zip_hands results = pre ++ (hand_landmarks, hand_label) :: post →
     Forall (λ hand, classify_gesture hand.1 = Some NONE) pre →
     classify_gesture hand_landmarks = Some gesture → gesture ≠ NONE →
     active_pair results
     = Normal (gesture, if (hand_label =? "Left")%string then "left" else "right")) ∧
  (Forall (λ hand, classify_gesture hand.1 = Some NONE) (zip_hands results) →
   active_pair results
   = Normal (NONE,
             match last (zip_hands results) with
             | Some (_, hand_label) => if (hand_label =? "Left")%string then "left" else "right"
             | None => "unknown"
             end)) ∧
  (zip_hands results = [] → active_pair results = Normal (NONE, "unknown")) ∧
  (∀ gesture hand_type t self,
     active_pair results = Normal (gesture, hand_type) →
     process_frame results t self
     = _handle_gesture_logic gesture hand_type t
         (set_frame_count (frame_count self + 1) self)) ∧
  (Forall (λ hand, (21 ≤ length hand.1)%nat) (zip_hands results) →
   ∃ gesture hand_type, active_pair results = Normal (gesture, hand_type)).
Proof.
  split; [|split; [|split; [|split]]];
    [| | | |intros Hall; rewrite active_pair_scan; apply scan_hands_total, Hall].
  - intros pre lm lb post g Hzip Hpre Hc Hg.
    rewrite active_pair_scan, Hzip. apply scan_hands_first; assumption.
  - intros Hall. rewrite active_pair_scan. apply scan_hands_none. exact Hall.
  - intros Hzip. rewrite active_pair_scan, Hzip. reflexivity.
  - intros g h t self Hp. apply process_frame_eq. exact Hp.
Qed.

Lemma active_pair_selection_witness :
  active_pair (detected [("Left", four_finger_hand); ("Right", peace_hand); ("Left", fist_hand)])
    = Normal (PEACE, "right") ∧
  active_pair (detected [("Right", four_finger_hand); ("Left", four_finger_hand)])
    = Normal (NONE, "left") ∧
  active_pair (detected []) = Normal (NONE, "unknown").
Proof.
  split; [|split].
  - destruct (active_pair_selection
                (detected [("Left", four_finger_hand); ("Right", peace_hand); ("Left", fist_hand)]))
      as (Hfirst & _).
    apply (Hfirst [(four_finger_hand, "Left")] peace_hand "Right" [(fist_hand, "Left")] PEACE).
    + reflexivity.
    + constructor; [vm_compute; reflexivity|constructor].
    + vm_compute; reflexivity.
    + discriminate.
  - destruct (active_pair_selection
                (detected [("Right", four_finger_hand); ("Left", four_finger_hand)]))
      as (_ & Hnone & _).
    apply Hnone.
    constructor; [vm_compute; reflexivity|].
    constructor; [vm_compute; reflexivity|constructor].
  - destruct (active_pair_selection (detected [])) as (_ & _ & Hempty & _).
    apply Hempty. reflexivity.
Defined.

(** ** C10: start on a running controller and on a camera that fails *)

(** C10, as stated, fails in its last part: when the capture object
    does not open, [start] returns False with [running] still false,
    but the controller is not as it was: [cap] now holds the unopened
    capture object. *)
Lemma start_failure_state_unchanged_counterexample :
  ¬ (∀ (self : GestureController) (cv2_VideoCapture : Z → Outcome VideoCapture)
       (camera_index : Z) (c : VideoCapture),
       running self = false →
       cv2_VideoCapture camera_index = Normal c → isOpened c = false →
       outcome_of (start cv2_VideoCapture camera_index self) = Normal false ∧
       state_of (start cv2_VideoCapture camera_index self) = self).
Proof.
  intros H.
  destruct (H __init__ missing_camera 0 {| capture_index := 0; isOpened := false |}
              eq_refl eq_refl eq_refl) as (_ & Hstate).
  apply (f_equal cap) in Hstate. vm_compute in Hstate. discriminate Hstate.
Qed.

(** C10, amended. On a running controller [start] returns True at once:
    the controller is unchanged, no capture is opened and nothing is
    logged. On a controller that is not running, when the capture
    object does not open [start] returns False, [running] stays false
    and every field but [cap] is as before, [cap] now holding the
    unopened capture object; when creating the capture raises, [start]
    returns False and the controller is unchanged. *)
Theorem start_running_or_failing (self : GestureController)
    (cv2_VideoCapture : Z → Outcome VideoCapture) (camera_index : Z) :
  (running self = true →
   start cv2_VideoCapture camera_index self = (Normal true, self, [])) ∧
  (running self = false →
   ∀ c, cv2_VideoCapture camera_index = Normal c → isOpened c = false →
     outcome_of (start cv2_VideoCapture camera_index self) = Normal false ∧
     state_of (start cv2_VideoCapture camera_index self) = set_cap (Some c) self ∧
     running (state_of (start cv2_VideoCapture camera_index self)) = false ∧
     display_thread (state_of (start cv2_VideoCapture camera_index self))
       = display_thread self) ∧
  (running self = false →
   ∀ e, cv2_VideoCapture camera_index = Raised e →
     outcome_of (start cv2_VideoCapture camera_index self) = Normal false ∧
     state_of (start cv2_VideoCapture camera_index self) = self).
Proof.
  unfold start, try_except, bind, get, lift, modify, emit, ret.
  split; [|split].
  - intros Hrun. rewrite Hrun. reflexivity.
  - intros Hrun c Hopen Hc. rewrite Hrun, Hopen. cbn. rewrite Hc. cbn.
    repeat split. exact Hrun.
  - intros Hrun e Hopen. rewrite Hrun, Hopen. cbn. split; reflexivity.
Qed.

Lemma start_running_or_failing_witness :
  start missing_camera 0 (state_of (start working_camera 0 __init__))
    = (Normal true, state_of (start working_camera 0 __init__), []) ∧
  state_of (start missing_camera 0 __init__)
    = set_cap (Some {| capture_index := 0; isOpened := false |}) __init__ ∧
  state_of (start (λ _, Raised (Exception "no backend")) 0 __init__) = __init__.
Proof.
  split; [|split].
  - destruct (start_running_or_failing (state_of (start working_camera 0 __init__))
                missing_camera 0) as (Hrunning & _).
    apply Hrunning. reflexivity.
  - destruct (start_running_or_failing __init__ missing_camera 0) as (_ & Hclosed & _).
    destruct (Hclosed eq_refl {| capture_index := 0; isOpened := false |} eq_refl eq_refl)
      as (_ & Hstate & _).
    exact Hstate.
  - destruct (start_running_or_failing __init__ (λ _, Raised (Exception "no backend")) 0)
      as (_ & _ & Hraise).
    destruct (Hraise eq_refl (Exception "no backend") eq_refl) as (_ & Hstate).
    exact Hstate.
Defined.

(** * Further properties of the gesture module *)

(** ** Landmarks needed by the classifier *)

(** X1. [get_finger_positions] reads landmarks up to index 20: on a hand
    with fewer than 21 landmarks it fails with an index error, and so
    does [classify_gesture]; on a hand with at least 21 landmarks it
    returns exactly five entries, each 0 or 1, and [classify_gesture]
    returns a label. *)
Theorem finger_positions_need_21_landmarks (landmarks : list Landmark) :
  ((length landmarks < 21)%nat →
   get_finger_positions landmarks = None ∧ classify_gesture landmarks = None) ∧
  ((21 ≤ length landmarks)%nat →
   ∃ fingers, get_finger_positions landmarks = Some fingers ∧
     length fingers = 5%nat ∧ Forall (λ f, f = 0 ∨ f = 1) fingers ∧
     is_Some (classify_gesture landmarks)).
Proof.
  split.
  - intros Hlen.
    assert (Hpos : get_finger_positions landmarks = None).
    { assert (Hrest : mapM (finger_up landmarks) [1; 2; 3; 4]%nat = None).
      { apply eq_None_not_Some. rewrite mapM_is_Some. intros Hall.
        apply Forall_cons in Hall as [_ Hall]. apply Forall_cons in Hall as [_ Hall].
        apply Forall_cons in Hall as [_ Hall]. apply Forall_cons in Hall as [H4 _].
        unfold compose, finger_up in H4.
        change (is_Some (tip ← landmarks !! 20%nat; pip ← landmarks !! 18%nat;
                         Some (if Qlt_bool (lm_y tip) (lm_y pip) then 1 else 0))) in H4.
        rewrite (lookup_ge_None_2 landmarks 20) in H4 by lia.
        destruct H4 as [? H4]. discriminate H4. }
      change (get_finger_positions landmarks)
        with (tip ← landmarks !! 4%nat; prev ← landmarks !! 3%nat;
              rest ← mapM (finger_up landmarks) [1; 2; 3; 4]%nat;
              Some ((if Qlt_bool (lm_x prev) (lm_x tip) then 1 else 0) :: rest)).
      rewrite Hrest.
      destruct (landmarks !! 4%nat) as [tip|]; [|reflexivity].
      destruct (landmarks !! 3%nat) as [prev|]; reflexivity. }
    split; [exact Hpos|]. unfold classify_gesture. rewrite Hpos. reflexivity.
  - intros Hlen. destruct (get_finger_positions_shape landmarks Hlen) as [v Hv].
    exists (fingers_of v). split; [exact Hv|]. split; [reflexivity|]. split.
    + unfold fingers_of. rewrite Forall_fmap. apply Forall_forall.
      intros b _. destruct b; cbn; auto.
    + apply classify_gesture_total. exact Hlen.
Qed.

Lemma finger_positions_need_21_landmarks_witness :
  classify_gesture (take 20 peace_hand) = None ∧
  is_Some (classify_gesture peace_hand).
Proof.
  split.
  - destruct (finger_positions_need_21_landmarks (take 20 peace_hand)) as (Hshort & _).
    apply Hshort. vm_compute. lia.
  - destruct (finger_positions_need_21_landmarks peace_hand) as (_ & Hfull).
    destruct Hfull as (fingers & _ & _ & _ & Hc); [vm_compute; lia|exact Hc].
Defined.

(** ** A gesture shown without interruption *)

Lemma run_hold_on_cons g h t shown self s1 t1 :
  _handle_gesture_logic g h t self = (Normal tt, s1, t1) →
  run_ticks (hold_on g ((h, t) :: shown)) self = then_run t1 (run_ticks (hold_on g shown) s1).
Proof. intros E. unfold hold_on. rewrite fmap_cons. apply run_ticks_step. exact E. Qed.

Lemma run_hold_on_untracked g shown self :
  contains gesture_commands g = false →
  trace_of (run_ticks (hold_on g shown) self) = [].
Proof.
  intros Hc. revert self. induction shown as [|[h t] shown IH]; intros self; [reflexivity|].
  rewrite (run_hold_on_cons _ _ _ _ _ _ _ (handle_untracked g h t self Hc)).
  rewrite then_run_nil. apply IH.
Qed.

Lemma run_hold_on_fired g shown self :
  contains gesture_commands g = true → g = last_gesture self →
  g ∈ executed_gestures self →
  run_ticks (hold_on g shown) self = (Normal tt, self, []).
Proof.
  intros Hc He Hin. induction shown as [|[h t] shown IH]; [reflexivity|].
  rewrite (run_hold_on_cons _ _ _ _ _ self []) by (apply handle_fired; assumption).
  rewrite then_run_nil. exact IH.
Qed.

Lemma run_hold_on_tracked g shown self :
  contains gesture_commands g = true →
  triggers (trace_of (run_ticks (hold_on g shown) self)) = [] ∨
  ∃ h t, (h, t) ∈ shown ∧
    triggers (trace_of (run_ticks (hold_on g shown) self)) = [(g, h)].
Proof.
  intros Hc. revert self. induction shown as [|[h t] shown IH]; intros self; [left; reflexivity|].
  assert (Hlift : ∀ s1,
    run_ticks (hold_on g ((h, t) :: shown)) self = run_ticks (hold_on g shown) s1 →
    triggers (trace_of (run_ticks (hold_on g ((h, t) :: shown)) self)) = [] ∨
    ∃ h' t', (h', t') ∈ (h, t) :: shown ∧
      triggers (trace_of (run_ticks (hold_on g ((h, t) :: shown)) self)) = [(g, h')]).
  { intros s1 E. rewrite E. destruct (IH s1) as [H|(h' & t' & Hin & H)]; [left; exact H|].
    right. exists h', t'. split; [right; exact Hin|exact H]. }
  destruct (decide (g = last_gesture self)) as [He|Hne].
  - destruct (decide (g ∈ executed_gestures self)) as [Hin|Hnin].
    + apply (Hlift self).
      rewrite (run_hold_on_cons _ _ _ _ _ self []) by (apply handle_fired; assumption).
      apply then_run_nil.
    + destruct (Qlt_le_dec (t - gesture_start_time self) (gesture_hold_duration self))
        as [Hlt|Hle].
      * apply (Hlift self).
        rewrite (run_hold_on_cons _ _ _ _ _ self []) by (apply handle_wait; assumption).
        apply then_run_nil.
      * right. exists h, t. split; [left|].
        rewrite (run_hold_on_cons _ _ _ _ _ _ _ (handle_fire g h t self Hc He Hle Hnin)).
        rewrite run_hold_on_fired;
          [|assumption|exact He|cbn; apply elem_of_union_l, elem_of_singleton; reflexivity].
        unfold then_run, trace_of; cbn [snd]. rewrite app_nil_r.
        fold (trace_of (_execute_gesture g h self)).
        rewrite triggers_cons_trigger, execute_gesture_triggers. reflexivity.
  - apply (Hlift (started g t self)).
    rewrite (run_hold_on_cons _ _ _ _ _ _ _ (handle_change g h t self Hc Hne)).
    apply then_run_nil.
Qed.

(** X2. From any state of the controller, ticks that all observe the
    same gesture emit at most one trigger, whichever hands show it and
    whatever the clock readings are; a trigger that is emitted carries
    that gesture and the hand of one of the ticks. If the gesture is the
    tracked one and has already fired, no trigger is emitted at all. *)
Theorem one_trigger_per_uninterrupted_gesture (g : GestureType) (shown : list (string * Q))
    (self : GestureController) :
  (length (triggers (trace_of (run_ticks (hold_on g shown) self))) ≤ 1)%nat ∧
  (∀ g' h', (g', h') ∈ triggers (trace_of (run_ticks (hold_on g shown) self)) →
     g' = g ∧ ∃ t, (h', t) ∈ shown) ∧
  (g = last_gesture self → g ∈ executed_gestures self →
   triggers (trace_of (run_ticks (hold_on g shown) self)) = []).
Proof.
  destruct (contains gesture_commands g) eqn:Hc.
  - destruct (run_hold_on_tracked g shown self Hc) as [H|(h & t & Hin & H)].
    + rewrite H. split; [cbn; lia|]. split; [intros g' h' Hx; inversion Hx|reflexivity].
    + split; [rewrite H; cbn; lia|]. split.
      * rewrite H. intros g' h' Hx. apply list_elem_of_singleton in Hx.
        injection Hx as -> ->. split; [reflexivity|eauto].
      * intros He Hx. rewrite run_hold_on_fired by assumption. reflexivity.
  - rewrite run_hold_on_untracked by assumption.
    split; [cbn; lia|]. split; [intros g' h' Hx; inversion Hx|reflexivity].
Qed.

Lemma one_trigger_per_uninterrupted_gesture_witness :
  triggers (trace_of (run_ticks
     (hold_on PEACE [("left", 0%Q); ("right", 1%Q); ("left", 3%Q); ("right", 9%Q)])
     (perform (CallHandleGestureLogic PEACE "left" 9%Q)
        (perform (CallHandleGestureLogic PEACE "left" 0%Q) __init__)))) = [].
Proof.
  destruct (one_trigger_per_uninterrupted_gesture PEACE
              [("left", 0%Q); ("right", 1%Q); ("left", 3%Q); ("right", 9%Q)]
              (perform (CallHandleGestureLogic PEACE "left" 9%Q)
                 (perform (CallHandleGestureLogic PEACE "left" 0%Q) __init__)))
    as (_ & _ & Hfired).
  apply Hfired; [reflexivity|]. apply (bool_decide_unpack _). vm_compute. exact I.
Defined.

(** ** Registering a callback *)

Lemma register_state key cb self :
  register_gesture_callback key cb self
  = (Normal tt, set_gesture_callbacks (<[key := cb]> (gesture_callbacks self)) self,
     [LogInfo ("已注册手势回调: " +:+ key)]).
Proof. reflexivity. Qed.

(** X3. Registering [callback] under the key of a hand and a gesture
    makes it the callback that a trigger of that gesture on that hand
    invokes, whatever was registered before (under that key or under the
    action name); the registration touches nothing but the registry, and
    a registration under any other key than the two a trigger consults
    leaves the dispatch of that trigger as it was. *)
Theorem register_then_dispatch (self : GestureController) (g : GestureType) (h : string)
    (command : GestureCommand) (callback : Callback) :
  select_command g h = Some command →
  invoked (trace_of (_execute_gesture g h
     (state_of (register_gesture_callback (h +:+ "_" +:+ value g) callback self))))
    = [callback] ∧
  state_of (register_gesture_callback (h +:+ "_" +:+ value g) callback self)
    = set_gesture_callbacks (<[h +:+ "_" +:+ value g := callback]> (gesture_callbacks self)) self ∧
  (∀ key other,
     key ≠ h +:+ "_" +:+ value g → key ≠ action command →
     trace_of (_execute_gesture g h (state_of (register_gesture_callback key other self)))
     = trace_of (_execute_gesture g h self)).
Proof.
  intros Hsel. rewrite register_state. unfold state_of; cbn [fst snd].
  split; [|split; [reflexivity|]].
  - rewrite execute_gesture_eq, Hsel. unfold trace_of, found_callback, gesture_key_of; cbn [snd].
    cbn [gesture_callbacks set_gesture_callbacks]. rewrite lookup_insert_eq.
    apply invocation_invoked.
  - intros key other Hk Ha. rewrite register_state. cbn [fst snd].
    rewrite !execute_gesture_eq, Hsel. unfold trace_of, found_callback, gesture_key_of; cbn [snd].
    cbn [gesture_callbacks set_gesture_callbacks].
    rewrite !lookup_insert_ne by assumption. reflexivity.
Qed.

Lemma register_then_dispatch_witness :
  invoked (trace_of (_execute_gesture FIST "right"
     (state_of (register_gesture_callback "right_fist" (returning "second")
        (registered [("right_fist", returning "first"); ("close_all", returning "plain")])))))
  = [returning "second"].
Proof.
  destruct (register_then_dispatch
              (registered [("right_fist", returning "first"); ("close_all", returning "plain")])
              FIST "right" (mkGestureCommand FIST "close_all" "拳头 - 关闭所有设备")
              (returning "second") eq_refl) as (Hinv & _).
  exact Hinv.
Defined.

(** ** The registries built by the two hosts *)

Ltac resolve_command :=
  match goal with
  | |- context [select_command ?g ?h] =>
      let r := eval vm_compute in (select_command g h) in
      change (select_command g h) with r
  end.

(** X4. After the registration loop of [main] in gesture_recognition.py
    every generic-table gesture has, on the left and on the right hand,
    a callback built for the action of the generic table, and that is
    the callback a trigger invokes. The hand-specific command is
    resolved but not used: a left-hand THUMBS_UP resolves to
    "decrease_brightness" and runs the "increase_brightness" callback,
    a left-hand POINTING_UP resolves to "min_brightness" and runs the
    "max_brightness" callback. *)
Theorem main_registry_uses_generic_action (device_raises : string → option Exn)
    (self : GestureController) (g : GestureType) (h : string) (command : GestureCommand) :
  h = "left" ∨ h = "right" → gesture_commands !! g = Some command →
  invoked (trace_of (_execute_gesture g h
     (state_of (main_register_callbacks device_raises self))))
    = [create_device_callback device_raises (action command)] ∧
  action <$> select_command THUMBS_UP "left" = Some "decrease_brightness" ∧
  invoked (trace_of (_execute_gesture THUMBS_UP "left"
     (state_of (main_register_callbacks device_raises self))))
    = [create_device_callback device_raises "increase_brightness"] ∧
  action <$> select_command POINTING_UP "left" = Some "min_brightness" ∧
  invoked (trace_of (_execute_gesture POINTING_UP "left"
     (state_of (main_register_callbacks device_raises self))))
    = [create_device_callback device_raises "max_brightness"].
Proof.
  assert (Hall : ∀ g h command, h = "left" ∨ h = "right" →
    gesture_commands !! g = Some command →
    invoked (trace_of (_execute_gesture g h
       (state_of (main_register_callbacks device_raises self))))
    = [create_device_callback device_raises (action command)]).
  { clear. intros g h command Hh Hg. rewrite execute_gesture_eq.
    unfold trace_of, found_callback, gesture_key_of; cbn [snd].
    destruct Hh as [-> | ->]; destruct g; vm_compute in Hg; try discriminate Hg;
      injection Hg as <-; resolve_command; cbn [action mkGestureCommand value];
      unfold main_register_callbacks, gesture_commands_items;
      cbn [for_each bind register_gesture_callback modify emit ret state_of fst snd action
           value mkGestureCommand gesture_callbacks set_gesture_callbacks String.append];
      repeat (rewrite lookup_insert_ne by discriminate);
      rewrite lookup_insert_eq; apply invocation_invoked. }
  intros Hh Hg. split; [apply Hall; assumption|].
  split; [reflexivity|]. split; [apply (Hall THUMBS_UP "left" _ (or_introl eq_refl) eq_refl)|].
  split; [reflexivity|]. apply (Hall POINTING_UP "left" _ (or_introl eq_refl) eq_refl).
Qed.

Lemma main_registry_uses_generic_action_witness :
  invoked (trace_of (_execute_gesture THUMBS_UP "left"
     (state_of (main_register_callbacks (λ _, None) __init__))))
  = [create_device_callback (λ _, None) "increase_brightness"].
Proof.
  destruct (main_registry_uses_generic_action (λ _, None) __init__ THUMBS_UP "left"
              (mkGestureCommand THUMBS_UP "increase_brightness" "拇指向上 - 增加亮度")
              (or_introl eq_refl) eq_refl) as (Hinv & _).
  exact Hinv.
Defined.

Ltac app_registry_step :=
  unfold _register_gesture_callbacks, gesture_commands_items, left_hand_commands_items,
    right_hand_commands_items;
  cbn [for_each bind register_gesture_callback modify emit ret state_of fst snd action
       value mkGestureCommand gesture_callbacks set_gesture_callbacks String.append
       String.eqb Ascii.eqb Bool.eqb andb orb];
  repeat match goal with
         | |- context [contains ?table ?g] =>
             let r := eval vm_compute in (contains table g) in
             change (contains table g) with r
         end;
  cbn [for_each bind register_gesture_callback modify emit ret state_of fst snd action
       value mkGestureCommand gesture_callbacks set_gesture_callbacks String.append
       andb orb].

(** X5. After [MiHomeControlApp._register_gesture_callbacks], whatever
    the registry held before, a trigger on the left or on the right hand
    that resolves to a command invokes the callback the application
    built for the action of exactly that command: registration and
    resolution agree on every gesture of every table. On a fresh
    controller a trigger with hand "unknown" invokes nothing, although
    the application also registers every generic callback under the
    bare gesture value: those keys are never consulted. *)
Theorem app_registry_matches_resolution (self : GestureController) (g : GestureType)
    (h : string) (command : GestureCommand) :
  h = "left" ∨ h = "right" → select_command g h = Some command →
  invoked (trace_of (_execute_gesture g h (state_of (_register_gesture_callbacks self))))
    = [app_device_callback (action command)] ∧
  (∀ g', trace_of (_execute_gesture g' "unknown"
                     (state_of (_register_gesture_callbacks __init__))) = []).
Proof.
  intros Hh Hsel. split.
  - rewrite execute_gesture_eq, Hsel.
    unfold trace_of, found_callback, gesture_key_of; cbn [snd].
    destruct Hh as [-> | ->]; destruct g; vm_compute in Hsel; try discriminate Hsel;
      injection Hsel as <-; cbn [action mkGestureCommand value];
      app_registry_step;
      repeat (rewrite lookup_insert_ne by discriminate);
      rewrite lookup_insert_eq; apply invocation_invoked.
  - intros g'. destruct g'; vm_compute; reflexivity.
Qed.

Lemma app_registry_matches_resolution_witness :
  invoked (trace_of (_execute_gesture THUMBS_UP "left"
     (state_of (_register_gesture_callbacks __init__))))
  = [app_device_callback "decrease_brightness"].
Proof.
  destruct (app_registry_matches_resolution __init__ THUMBS_UP "left"
              (mkGestureCommand THUMBS_UP "decrease_brightness" "左手拇指向上 - 降低亮度")
              (or_introl eq_refl) eq_refl) as (Hinv & _).
  exact Hinv.
Defined.

(** ** What a run of the application can invoke *)

Lemma scan_hands_hand hands current_gesture hand_type g h :
  scan_hands hands current_gesture hand_type = Normal (g, h) →
  h = hand_type ∨ h = "left" ∨ h = "right".
Proof.
  revert hand_type. induction hands as [|[lm lb] hands IH]; intros hand_type; cbn [scan_hands].
  - intros E. injection E as _ <-. left. reflexivity.
  - assert (Hside : hand_type_of lb = "left" ∨ hand_type_of lb = "right").
    { unfold hand_type_of. destruct (lb =? "Left")%string; auto. }
    destruct (classify_gesture lm) as [g0|]; [|discriminate].
    destruct (bool_decide (g0 ≠ NONE)).
    + intros E. injection E as _ <-. right. exact Hside.
    + intros E. apply IH in E. destruct E as [->|E]; [right; exact Hside|right; exact E].
Qed.

Lemma active_pair_hand results g h :
  active_pair results = Normal (g, h) → h = "unknown" ∨ h = "left" ∨ h = "right".
Proof. rewrite active_pair_scan. apply scan_hands_hand. Qed.

Lemma invoked_app t1 t2 : invoked (t1 ++ t2) = invoked t1 ++ invoked t2.
Proof. apply omap_app. Qed.

Lemma handle_keeps_callbacks g h t self :
  gesture_callbacks (state_of (_handle_gesture_logic g h t self)) = gesture_callbacks self.
Proof.
  destruct (handle_state_cases g h t self) as [[_ E]|[_ [E|[E|E]]]]; rewrite E; reflexivity.
Qed.

Lemma display_cleanup_eq self :
  display_cleanup self
  = (Normal tt,
     set_running false (match cap self with
                        | Some c => set_cap (Some (release c)) self
                        | None => self
                        end),
     [LogInfo "显示循环已结束"]).
Proof. unfold display_cleanup, bind, get, modify, emit. destruct (cap self); reflexivity. Qed.

Section AppRun.
Variable P : Callback → Prop.
Variable registry : gmap string Callback.
Hypothesis dispatch_in_P : ∀ self g h,
  gesture_callbacks self = registry → contains gesture_commands g = true →
  h = "unknown" ∨ h = "left" ∨ h = "right" →
  Forall P (invoked (trace_of (_execute_gesture g h self))).

Lemma handle_invoked_in g h t self :
  gesture_callbacks self = registry →
  h = "unknown" ∨ h = "left" ∨ h = "right" →
  Forall P (invoked (trace_of (_handle_gesture_logic g h t self))).
Proof.
  intros Hreg Hh.
  destruct (handle_state_cases g h t self) as [[_ E]|[Hc [E|[E|E]]]]; rewrite E;
    unfold trace_of; cbn [snd]; try constructor.
  rewrite invoked_cons_trigger. apply dispatch_in_P; assumption.
Qed.

Lemma process_frame_invoked_in results t self :
  gesture_callbacks self = registry →
  Forall P (invoked (trace_of (process_frame results t self))) ∧
  gesture_callbacks (state_of (process_frame results t self)) = registry.
Proof.
  intros Hreg. destruct (active_pair results) as [[g h]|e] eqn:Hpair.
  - rewrite (process_frame_eq _ _ _ g h Hpair). split.
    + apply handle_invoked_in; [exact Hreg|apply (active_pair_hand results g), Hpair].
    + rewrite handle_keeps_callbacks. exact Hreg.
  - unfold process_frame, bind, modify, lift. rewrite Hpair. cbn. split; [constructor|exact Hreg].
Qed.

Lemma display_loop_invoked_in frames self :
  gesture_callbacks self = registry →
  Forall P (invoked (trace_of (_display_loop frames self))).
Proof.
  revert self. induction frames as [|f rest IH]; intros self Hreg; [constructor|].
  cbn [_display_loop]. unfold bind at 1, get.
  destruct (running self && from_option isOpened false (cap self)).
  - destruct (read_ret f); cbn [negb].
    + unfold bind at 1.
      destruct (process_frame_invoked_in (detection f) (clock f) self Hreg) as [Hp Hreg1].
      destruct (process_frame (detection f) (clock f) self) as [[[[]|e] s1] t1];
        unfold state_of, trace_of in Hp, Hreg1; cbn [fst snd] in Hp, Hreg1;
        [|exact Hp].
      destruct ((key f =? 113) || (key f =? 27)).
      * rewrite display_cleanup_eq. unfold trace_of; cbn [snd app].
        rewrite invoked_app. apply Forall_app. split; [exact Hp|constructor].
      * specialize (IH s1 Hreg1).
        destruct (_display_loop rest s1) as [[o2 s2] t2].
        unfold trace_of in *; cbn [snd app] in *. rewrite invoked_app.
        apply Forall_app. split; assumption.
    + unfold bind at 1, emit. rewrite display_cleanup_eq. cbn. constructor.
  - rewrite display_cleanup_eq. cbn. constructor.
Qed.
End AppRun.

(** X6. Let the registry be the one the application builds on the fresh
    controller it creates. Whatever frames the camera delivers, every
    callback the display loop invokes is one built for "close_all",
    "open_all", "toggle_device", "increase_brightness",
    "decrease_brightness", "max_brightness" or "min_brightness": the
    four colour-temperature callbacks the application registers for
    TWO_FINGERS and THREE_FINGERS are never invoked. *)
Theorem color_temp_callbacks_never_invoked (self : GestureController)
    (frames : list FrameInput) :
  gesture_callbacks self
    = gesture_callbacks (state_of (_register_gesture_callbacks __init__)) →
  Forall (λ callback, callback_name callback ∈ reachable_actions ∧
                      callback_name callback ∉ color_temp_actions)
         (invoked (trace_of (_display_loop frames self))) ∧
  (∀ a, a ∈ color_temp_actions →
     ∃ key, gesture_callbacks self !! key = Some (app_device_callback a)).
Proof.
  intros Hreg. split.
  - apply (display_loop_invoked_in _
             (gesture_callbacks (state_of (_register_gesture_callbacks __init__))));
      [|exact Hreg].
    clear. intros self g h Hreg Hc Hh. rewrite execute_gesture_eq.
    unfold trace_of, found_callback; cbn [snd]. rewrite Hreg.
    destruct Hh as [->|[->| ->]]; destruct g; vm_compute in Hc; try discriminate Hc;
      match goal with
      | |- Forall _ ?l => let r := eval vm_compute in l in change l with r
      end;
      repeat (apply Forall_cons; split; [apply (bool_decide_unpack _); vm_compute; exact I|]);
      constructor.
  - intros a Ha. rewrite Hreg. unfold color_temp_actions in Ha. rewrite !elem_of_cons in Ha.
    destruct Ha as [->|[->|[->|[->|Ha]]]]; [| | | |inversion Ha].
    + exists "left_three_fingers". vm_compute. reflexivity.
    + exists "left_two_fingers". vm_compute. reflexivity.
    + exists "right_three_fingers". vm_compute. reflexivity.
    + exists "right_two_fingers". vm_compute. reflexivity.
Qed.

Lemma color_temp_callbacks_never_invoked_witness :
  Forall (λ callback, callback_name callback ∈ reachable_actions ∧
                      callback_name callback ∉ color_temp_actions)
    (invoked (trace_of (_display_loop
       [frame_of "Right" three_finger_hand 0%Q; frame_of "Right" three_finger_hand 3%Q;
        frame_of "Left" fist_hand 4%Q; frame_of "Left" fist_hand 7%Q]
       (set_cap (Some {| capture_index := 0; isOpened := true |})
          (set_running true (state_of (_register_gesture_callbacks __init__))))))).
Proof.
  destruct (color_temp_callbacks_never_invoked
              (set_cap (Some {| capture_index := 0; isOpened := true |})
                 (set_running true (state_of (_register_gesture_callbacks __init__))))
              [frame_of "Right" three_finger_hand 0%Q; frame_of "Right" three_finger_hand 3%Q;
               frame_of "Left" fist_hand 4%Q; frame_of "Left" fist_hand 7%Q])
    as (Hall & _); [reflexivity|exact Hall].
Defined.

(** ** Session operations *)

(** X7. On a controller that is not running, with a camera whose
    capture object opens, [start] returns True, stores the capture, sets
    [running], records the display thread and leaves the hold tracker,
    the registry and the frame counter as they were. A second [start]
    then returns True at once without consulting the camera, and
    [is_running] answers True. *)
Theorem start_opens_session (self : GestureController)
    (cv2_VideoCapture : Z → Outcome VideoCapture) (camera_index : Z) (c : VideoCapture) :
  running self = false → cv2_VideoCapture camera_index = Normal c → isOpened c = true →
  start cv2_VideoCapture camera_index self
  = (Normal true,
     set_display_thread (Some DisplayLoop) (set_running true (set_cap (Some c) self)),
     [LogInfo "手势识别启动成功"]) ∧
  same_hold_state self (state_of (start cv2_VideoCapture camera_index self)) ∧
  gesture_callbacks (state_of (start cv2_VideoCapture camera_index self))
    = gesture_callbacks self ∧
  frame_count (state_of (start cv2_VideoCapture camera_index self)) = frame_count self ∧
  (∀ other_camera other_index,
     start other_camera other_index (state_of (start cv2_VideoCapture camera_index self))
     = (Normal true, state_of (start cv2_VideoCapture camera_index self), [])) ∧
  outcome_of (is_running (state_of (start cv2_VideoCapture camera_index self))) = Normal true.
Proof.
  intros Hrun Hopen Hc.
  assert (E : start cv2_VideoCapture camera_index self
    = (Normal true,
       set_display_thread (Some DisplayLoop) (set_running true (set_cap (Some c) self)),
       [LogInfo "手势识别启动成功"])).
  { unfold start, try_except, bind, get, lift, modify, emit, ret.
    rewrite Hrun, Hopen. cbn. rewrite Hc. reflexivity. }
  rewrite E. unfold state_of, outcome_of; cbn [fst snd].
  split; [reflexivity|]. split; [repeat split|]. split; [reflexivity|]. split; [reflexivity|].
  split; [|reflexivity].
  intros other_camera other_index. reflexivity.
Qed.

Lemma start_opens_session_witness :
  outcome_of (start working_camera 0 __init__) = Normal true ∧
  outcome_of (start missing_camera 1 (state_of (start working_camera 0 __init__)))
    = Normal true.
Proof.
  destruct (start_opens_session __init__ working_camera 0
              {| capture_index := 0; isOpened := true |} eq_refl eq_refl eq_refl)
    as (E & _ & _ & _ & Hagain & _).
  split; [rewrite E; reflexivity|]. rewrite (Hagain missing_camera 1). reflexivity.
Defined.

Lemma stop_eq self :
  stop self
  = (Normal tt,
     match cap self with
     | Some _ => set_cap None (set_running false self)
     | None => set_running false self
     end,
     [LogInfo "手势识别已停止"]).
Proof.
  unfold stop, try_except, bind, get, modify, emit, ret. cbn. destruct (cap self); reflexivity.
Qed.

(** X8. [stop] never raises. Afterwards the controller is not running
    and holds no capture, while the hold tracker (tracked gesture,
    start time, executed set), the registry, the hold duration and the
    frame counter are exactly as before: a restart does not reset the
    hold tracker. Stopping a stopped controller changes nothing, and
    [start] followed by [stop] leaves a controller that is not running
    and has no capture whatever the camera did. *)
Theorem stop_ends_session (self : GestureController) :
  outcome_of (stop self) = Normal tt ∧
  running (state_of (stop self)) = false ∧ cap (state_of (stop self)) = None ∧
  same_hold_state self (state_of (stop self)) ∧
  gesture_callbacks (state_of (stop self)) = gesture_callbacks self ∧
  gesture_hold_duration (state_of (stop self)) = gesture_hold_duration self ∧
  frame_count (state_of (stop self)) = frame_count self ∧
  state_of (stop (state_of (stop self))) = state_of (stop self) ∧
  (∀ cv2_VideoCapture camera_index,
     running (state_of (stop (state_of (start cv2_VideoCapture camera_index self)))) = false ∧
     cap (state_of (stop (state_of (start cv2_VideoCapture camera_index self)))) = None ∧
     same_hold_state self
       (state_of (stop (state_of (start cv2_VideoCapture camera_index self))))) ∧
  outcome_of (is_running (state_of (stop self))) = Normal false.
Proof.
  assert (Hstop : ∀ s, outcome_of (stop s) = Normal tt ∧
    running (state_of (stop s)) = false ∧ cap (state_of (stop s)) = None ∧
    same_hold_state s (state_of (stop s)) ∧
    gesture_callbacks (state_of (stop s)) = gesture_callbacks s ∧
    gesture_hold_duration (state_of (stop s)) = gesture_hold_duration s ∧
    frame_count (state_of (stop s)) = frame_count s).
  { intros s. rewrite stop_eq. unfold outcome_of, state_of, same_hold_state; cbn [fst snd].
    destruct (cap s) eqn:Hcap; cbn; rewrite ?Hcap; repeat split. }
  destruct (Hstop self) as (Ho & Hr & Hc & Hh & Hcb & Hd & Hf).
  repeat (split; [assumption|]). split; [|split].
  - rewrite (stop_eq (state_of (stop self))). rewrite Hc. unfold state_of at 1; cbn [fst snd].
    destruct (state_of (stop self)) eqn:E. cbn in Hr. subst. reflexivity.
  - intros open i.
    destruct (Hstop (state_of (start open i self))) as (_ & Hr' & Hc' & Hh' & _).
    split; [exact Hr'|]. split; [exact Hc'|].
    destruct Hh' as (H1 & H2 & H3). unfold same_hold_state. rewrite H1, H2, H3.
    unfold start, try_except, bind, get, lift, modify, emit, ret.
    destruct (running self); [repeat split|].
    destruct (open i) as [c|e]; [|repeat split].
    destruct (isOpened c); repeat split.
  - unfold is_running, bind, get, ret, outcome_of. cbn. rewrite Hr. reflexivity.
Qed.

Lemma stop_ends_session_witness :
  cap (state_of (stop (state_of (start working_camera 0 __init__)))) = None ∧
  running (state_of (stop (state_of (start working_camera 0 __init__)))) = false.
Proof.
  destruct (stop_ends_session __init__) as (_ & _ & _ & _ & _ & _ & _ & _ & Hround & _).
  destruct (Hround working_camera 0) as (Hr & Hc & _). split; assumption.
Defined.

(** ** The display loop *)

Lemma handle_same_session g h t self :
  same_session self (state_of (_handle_gesture_logic g h t self)) ∧
  frame_count (state_of (_handle_gesture_logic g h t self)) = frame_count self.
Proof.
  destruct (handle_state_cases g h t self) as [[_ E]|[_ [E|[E|E]]]]; rewrite E;
    unfold same_session, state_of; cbn; repeat split.
Qed.

Lemma process_frame_same_session results t self :
  same_session self (state_of (process_frame results t self)) ∧
  frame_count (state_of (process_frame results t self)) = frame_count self + 1.
Proof.
  destruct (active_pair results) as [[g h]|e] eqn:Hpair.
  - rewrite (process_frame_eq _ _ _ g h Hpair).
    destruct (handle_same_session g h t (set_frame_count (frame_count self + 1) self))
      as [Hs Hf].
    split; [exact Hs|exact Hf].
  - unfold process_frame, bind, modify, lift. rewrite Hpair.
    unfold same_session, state_of; cbn. repeat split.
Qed.

Lemma display_loop_stopped f rest self :
  running self && from_option isOpened false (cap self) = false →
  _display_loop (f :: rest) self = display_cleanup self.
Proof.
  intros Hcond. cbn [_display_loop]. unfold bind at 1, get. rewrite Hcond.
  destruct (display_cleanup self) as [[o s] t]. reflexivity.
Qed.

(** X9. A display loop that finds the controller not running, or
    without an opened capture, processes no frame: whatever frames are
    waiting, no trigger is emitted, no callback is invoked, the frame
    counter and the hold tracker stay as they are and the loop returns
    normally. In particular nothing fires once [stop] has run. *)
Theorem display_loop_after_stop (self : GestureController) (frames : list FrameInput) :
  running self = false ∨ from_option isOpened false (cap self) = false →
  outcome_of (_display_loop frames self) = Normal tt ∧
  triggers (trace_of (_display_loop frames self)) = [] ∧
  invoked (trace_of (_display_loop frames self)) = [] ∧
  frame_count (state_of (_display_loop frames self)) = frame_count self ∧
  same_hold_state self (state_of (_display_loop frames self)) ∧
  (∀ before,
     self = state_of (stop before) →
     triggers (trace_of (_display_loop frames (state_of (stop before)))) = [] ∧
     invoked (trace_of (_display_loop frames (state_of (stop before)))) = []).
Proof.
  intros Hstopped.
  assert (Hcond : running self && from_option isOpened false (cap self) = false).
  { destruct Hstopped as [-> | ->]; [reflexivity|apply andb_false_r]. }
  assert (Hmain : outcome_of (_display_loop frames self) = Normal tt ∧
    triggers (trace_of (_display_loop frames self)) = [] ∧
    invoked (trace_of (_display_loop frames self)) = [] ∧
    frame_count (state_of (_display_loop frames self)) = frame_count self ∧
    same_hold_state self (state_of (_display_loop frames self))).
  { destruct frames as [|f rest]; [repeat split|].
    rewrite (display_loop_stopped f rest self Hcond), display_cleanup_eq.
    unfold outcome_of, state_of, trace_of, same_hold_state; cbn [fst snd].
    destruct (cap self); repeat split. }
  destruct Hmain as (H1 & H2 & H3 & H4 & H5).
  repeat (split; [assumption|]).
  intros before <-. split; assumption.
Qed.

Lemma display_loop_after_stop_witness :
  triggers (trace_of (_display_loop
     [frame_of "Left" fist_hand 5%Q; frame_of "Left" fist_hand 9%Q]
     (state_of (stop (perform (CallHandleGestureLogic FIST "left" 0%Q)
                        (state_of (start working_camera 0 __init__))))))) = [].
Proof.
  destruct (display_loop_after_stop
              (state_of (stop (perform (CallHandleGestureLogic FIST "left" 0%Q)
                                 (state_of (start working_camera 0 __init__)))))
              [frame_of "Left" fist_hand 5%Q; frame_of "Left" fist_hand 9%Q])
    as (_ & Htrig & _); [left; reflexivity|exact Htrig].
Defined.

Lemma display_cleanup_ended self : ended (state_of (display_cleanup self)).
Proof.
  rewrite display_cleanup_eq. unfold ended, state_of; cbn [fst snd].
  destruct (cap self) eqn:Hcap; cbn; rewrite ?Hcap; split; reflexivity.
Qed.

(** One turn of the display loop, in closed form. *)
Lemma display_loop_cons f rest self :
  _display_loop (f :: rest) self =
  if running self && from_option isOpened false (cap self) then
    if read_ret f then
      match process_frame (detection f) (clock f) self with
      | (Normal _, s1, t1) =>
          if (key f =? 113) || (key f =? 27) then then_run t1 (display_cleanup s1)
          else then_run t1 (_display_loop rest s1)
      | (Raised e, s1, t1) => (Raised e, s1, t1)
      end
    else then_run [LogError "无法读取摄像头画面"] (display_cleanup self)
  else display_cleanup self.
Proof.
  cbn [_display_loop]. unfold bind at 1, get.
  destruct (running self && from_option isOpened false (cap self)).
  - destruct (read_ret f); cbn [negb].
    + unfold bind at 1.
      destruct (process_frame (detection f) (clock f) self) as [[[[]|e] s1] t1];
        [|reflexivity].
      destruct ((key f =? 113) || (key f =? 27)).
      * destruct (display_cleanup s1) as [[o s] t]. reflexivity.
      * destruct (_display_loop rest s1) as [[o s] t]. reflexivity.
    + unfold bind at 1, emit. destruct (display_cleanup self) as [[o s] t]. reflexivity.
  - destruct (display_cleanup self) as [[o s] t]. reflexivity.
Qed.

Lemma then_run_cleanup_ended t1 self :
  ended (state_of (then_run t1 (display_cleanup self))).
Proof. unfold then_run. apply display_cleanup_ended. Qed.

(** X10. A frame whose read fails, or whose key is [q] or ESC, is the
    last one the display loop looks at: the frames after it make no
    difference to the outcome, the controller and the effects. When the
    loop returns normally from such a run it has cleaned up: [running]
    is false and the capture, if any, is released. *)
Theorem display_loop_ends (pre post : list FrameInput) (f : FrameInput)
    (self : GestureController) :
  ends_loop f →
  _display_loop (pre ++ f :: post) self = _display_loop (pre ++ [f]) self ∧
  (outcome_of (_display_loop (pre ++ f :: post) self) = Normal tt →
   ended (state_of (_display_loop (pre ++ f :: post) self))).
Proof.
  intros Hend. revert self. induction pre as [|f0 pre IH]; intros self.
  - cbn [app]. rewrite !display_loop_cons.
    destruct (running self && from_option isOpened false (cap self));
      [|split; [reflexivity|intros _; apply display_cleanup_ended]].
    destruct (read_ret f) eqn:Hread;
      [|split; [reflexivity|intros _; apply then_run_cleanup_ended]].
    assert (Hkey : (key f =? 113) || (key f =? 27) = true).
    { destruct Hend as [H|[H|H]]; [congruence| |]; rewrite H; reflexivity. }
    rewrite Hkey.
    destruct (process_frame (detection f) (clock f) self) as [[[[]|e] s1] t1].
    + split; [reflexivity|intros _; apply then_run_cleanup_ended].
    + split; [reflexivity|]. intros H. discriminate H.
  - cbn [app]. rewrite !display_loop_cons.
    destruct (running self && from_option isOpened false (cap self));
      [|split; [reflexivity|intros _; apply display_cleanup_ended]].
    destruct (read_ret f0);
      [|split; [reflexivity|intros _; apply then_run_cleanup_ended]].
    destruct (process_frame (detection f0) (clock f0) self) as [[[[]|e] s1] t1].
    + destruct ((key f0 =? 113) || (key f0 =? 27));
        [split; [reflexivity|intros _; apply then_run_cleanup_ended]|].
      destruct (IH s1) as [E Hfin]. rewrite E. split; [reflexivity|].
      rewrite E in Hfin. exact Hfin.
    + split; [reflexivity|]. intros H. discriminate H.
Qed.

Lemma display_loop_ends_witness :
  _display_loop
    ([frame_of "Left" fist_hand 0%Q]
       ++ {| read_ret := true; detection := detected []; clock := 1%Q; key := 113 |}
       :: [frame_of "Left" fist_hand 2%Q; frame_of "Left" fist_hand 3%Q])
    (state_of (start working_camera 0 __init__))
  = _display_loop
      ([frame_of "Left" fist_hand 0%Q]
         ++ [{| read_ret := true; detection := detected []; clock := 1%Q; key := 113 |}])
      (state_of (start working_camera 0 __init__)).
Proof.
  destruct (display_loop_ends [frame_of "Left" fist_hand 0%Q]
              [frame_of "Left" fist_hand 2%Q; frame_of "Left" fist_hand 3%Q]
              {| read_ret := true; detection := detected []; clock := 1%Q; key := 113 |}
              (state_of (start working_camera 0 __init__))) as (E & _).
  - right; left. reflexivity.
  - exact E.
Defined.

Lemma state_of_then_run t1 r : state_of (then_run t1 r) = state_of r.
Proof. reflexivity. Qed.

Lemma outcome_of_then_run t1 r : outcome_of (then_run t1 r) = outcome_of r.
Proof. reflexivity. Qed.

(** X11. [process_frame] counts the frame before it looks at it, so the
    counter goes up by one even when the classifier raises. Over a run
    of the display loop the counter never goes down and grows by at
    most the number of frames delivered; when the loop has returned
    normally and the controller is still running, every frame was
    processed: the counter grew by exactly the number of frames. *)
Theorem frame_count_accounting (frames : list FrameInput) (self : GestureController) :
  (∀ results t,
     frame_count (state_of (process_frame results t self)) = frame_count self + 1) ∧
  frame_count self ≤ frame_count (state_of (_display_loop frames self)) ∧
  frame_count (state_of (_display_loop frames self)) ≤ frame_count self + Z.of_nat (length frames) ∧
  (outcome_of (_display_loop frames self) = Normal tt →
   running (state_of (_display_loop frames self)) = true →
   frame_count (state_of (_display_loop frames self))
   = frame_count self + Z.of_nat (length frames)).
Proof.
  split; [intros results t; apply process_frame_same_session|].
  assert (Hclean : ∀ s, frame_count (state_of (display_cleanup s)) = frame_count s ∧
                        running (state_of (display_cleanup s)) = false).
  { intros s. rewrite display_cleanup_eq. unfold state_of; cbn [fst snd].
    destruct (cap s); split; reflexivity. }
  revert self. induction frames as [|f rest IH]; intros self.
  - cbn. split; [lia|]. split; [lia|]. intros _ _. lia.
  - rewrite display_loop_cons. cbn [length]. rewrite Nat2Z.inj_succ.
    destruct (Hclean self) as [Hf Hr].
    destruct (running self && from_option isOpened false (cap self));
      [|rewrite Hf, Hr; repeat split; try lia; discriminate].
    destruct (read_ret f);
      [|rewrite !state_of_then_run, Hf, Hr; repeat split; try lia; discriminate].
    destruct (process_frame_same_session (detection f) (clock f) self) as [_ Hp].
    destruct (process_frame (detection f) (clock f) self) as [[[[]|e] s1] t1];
      unfold state_of in Hp; cbn [fst snd] in Hp.
    + destruct ((key f =? 113) || (key f =? 27)).
      * destruct (Hclean s1) as [Hf1 Hr1].
        rewrite !state_of_then_run, Hf1, Hr1, Hp. repeat split; try lia; discriminate.
      * destruct (IH s1) as (Hlo & Hhi & Hexact).
        rewrite !state_of_then_run, outcome_of_then_run.
        split; [lia|]. split; [lia|]. intros Ho Hrun.
        rewrite (Hexact Ho Hrun). lia.
    + unfold outcome_of, state_of; cbn [fst snd]. rewrite Hp.
      split; [lia|]. split; [lia|]. intros H. discriminate H.
Qed.

Lemma frame_count_accounting_witness :
  frame_count (state_of (_display_loop
     [frame_of "Left" fist_hand 0%Q; frame_of "Left" fist_hand 1%Q;
      frame_of "Right" peace_hand 2%Q]
     (state_of (start working_camera 0 __init__)))) = 3.
Proof.
  destruct (frame_count_accounting
              [frame_of "Left" fist_hand 0%Q; frame_of "Left" fist_hand 1%Q;
               frame_of "Right" peace_hand 2%Q]
              (state_of (start working_camera 0 __init__))) as (_ & _ & _ & Hexact).
  rewrite Hexact; [reflexivity|vm_compute; reflexivity|vm_compute; reflexivity].
Defined.

(** ** Invariants of the controller *)

Lemma well_formed_handle g h t self :
  well_formed self → well_formed (state_of (_handle_gesture_logic g h t self)).
Proof.
  intros (Hd & Hl & Hr).
  destruct (handle_same_session g h t self) as [(Hrun & Hcap & Hth & Hdur & _) _].
  split; [rewrite Hdur; exact Hd|]. split.
  - destruct (handle_state_cases g h t self) as [[_ E]|[Hc [E|[E|E]]]]; rewrite E;
      unfold state_of; cbn [fst snd]; cbn; auto.
  - rewrite Hrun, Hcap, Hth. exact Hr.
Qed.

Lemma well_formed_process_frame results t self :
  well_formed self → well_formed (state_of (process_frame results t self)).
Proof.
  intros Hwf. destruct (active_pair results) as [[g h]|e] eqn:Hpair.
  - rewrite (process_frame_eq _ _ _ g h Hpair). apply well_formed_handle. exact Hwf.
  - unfold process_frame, bind, modify, lift. rewrite Hpair. exact Hwf.
Qed.

Lemma well_formed_cleanup self :
  well_formed self → well_formed (state_of (display_cleanup self)).
Proof.
  intros (Hd & Hl & _). rewrite display_cleanup_eq. unfold state_of; cbn [fst snd].
  destruct (cap self); (split; [exact Hd|split; [exact Hl|intros H; discriminate H]]).
Qed.

Lemma well_formed_display_loop frames self :
  well_formed self → well_formed (state_of (_display_loop frames self)).
Proof.
  revert self. induction frames as [|f rest IH]; intros self Hwf; [exact Hwf|].
  rewrite display_loop_cons.
  destruct (running self && from_option isOpened false (cap self));
    [|apply well_formed_cleanup, Hwf].
  destruct (read_ret f); [|rewrite state_of_then_run; apply well_formed_cleanup, Hwf].
  pose proof (well_formed_process_frame (detection f) (clock f) self Hwf) as Hp.
  destruct (process_frame (detection f) (clock f) self) as [[[[]|e] s1] t1];
    unfold state_of in Hp; cbn [fst snd] in Hp; [|exact Hp].
  destruct ((key f =? 113) || (key f =? 27)); rewrite state_of_then_run;
    [apply well_formed_cleanup|apply IH]; exact Hp.
Qed.

Lemma well_formed_start open i self :
  well_formed self → well_formed (state_of (start open i self)).
Proof.
  intros (Hd & Hl & Hr). unfold start, try_except, bind, get, lift, modify, emit, ret.
  destruct (running self) eqn:Hrun;
    [split; [exact Hd|split; [exact Hl|intros _; apply Hr; reflexivity]]|].
  destruct (open i) as [c|e];
    [|split; [exact Hd|split; [exact Hl|cbn; rewrite Hrun; intros H; discriminate H]]].
  cbn. destruct (isOpened c) eqn:Hc; cbn.
  - split; [exact Hd|]. split; [exact Hl|]. intros _. cbn. rewrite Hc. split; reflexivity.
  - split; [exact Hd|]. split; [exact Hl|]. cbn. rewrite Hrun. intros H. discriminate H.
Qed.

Lemma well_formed_stop self : well_formed self → well_formed (state_of (stop self)).
Proof.
  intros (Hd & Hl & _). rewrite stop_eq. unfold state_of; cbn [fst snd].
  destruct (cap self); (split; [exact Hd|split; [exact Hl|intros H; discriminate H]]).
Qed.

(** X12. Every controller reached from a fresh one by calls of its
    methods keeps these facts: the hold duration is still 2.0 s (no
    method writes it); the tracked gesture is NONE or a key of the
    generic command table; NONE is never marked executed; and while
    [running] is true the controller holds an opened capture and the
    display thread has been started. *)
Theorem reachable_well_formed (self : GestureController) :
  reachable self →
  gesture_hold_duration self = 2.0%Q ∧
  (last_gesture self = NONE ∨ contains gesture_commands (last_gesture self) = true) ∧
  (NONE ∉ executed_gestures self) ∧
  (running self = true →
   ∃ c, cap self = Some c ∧ isOpened c = true ∧ display_thread self = Some DisplayLoop).
Proof.
  intros Hr.
  assert (Hwf : well_formed self).
  { induction Hr as [|c self _ IH].
    - split; [reflexivity|]. split; [left; reflexivity|]. intros H. discriminate H.
    - destruct c as [k cb|open i| |r t|g h t|fs]; cbn [perform].
      + exact IH.
      + apply well_formed_start, IH.
      + apply well_formed_stop, IH.
      + apply well_formed_process_frame, IH.
      + apply well_formed_handle, IH.
      + apply well_formed_display_loop, IH. }
  destruct Hwf as (Hd & Hl & Hrun).
  split; [exact Hd|]. split; [exact Hl|]. split.
  - intros Hin. apply (reachable_executed_in_generic self Hr) in Hin.
    vm_compute in Hin. discriminate Hin.
  - intros H. destruct (Hrun H) as [Hopen Hth].
    destruct (cap self) as [c|]; [|discriminate Hopen].
    exists c. split; [reflexivity|]. split; assumption.
Qed.

Lemma reachable_well_formed_witness :
  gesture_hold_duration
    (perform (CallDisplayLoop [frame_of "Left" fist_hand 0%Q; frame_of "Left" fist_hand 3%Q])
       (perform (CallStart working_camera 0) __init__)) = 2.0%Q.
Proof.
  destruct (reachable_well_formed
              (perform (CallDisplayLoop [frame_of "Left" fist_hand 0%Q;
                                         frame_of "Left" fist_hand 3%Q])
                 (perform (CallStart working_camera 0) __init__))) as (Hd & _).
  - apply reachable_step, reachable_step, reachable_init.
  - exact Hd.
Defined.

(** ** The hold status line of the interface *)

Lemma Qmax0_pos x : Qlt_bool 0 (Qmax0 x) = true ↔ (0 < x)%Q.
Proof.
  unfold Qlt_bool, Qmax0. destruct (Qle_bool x 0) eqn:E.
  - cbn. split; [discriminate|]. intros H. apply Qle_bool_iff in E.
    exfalso. apply (Qlt_not_le _ _ H E).
  - rewrite E. cbn. split; [intros _|reflexivity].
    apply Qnot_le_lt. intros H. apply Qle_bool_iff in H. congruence.
Qed.

(** X13. The status line drawn after a tick. Let the hold duration be
    positive and let the drawing read the clock at [t'], not before the
    tick's reading [t]. The countdown is shown exactly while the tracked
    gesture is short of the hold duration at [t'], and the remaining
    time shown is positive and, when the hold did not start after [t'],
    at most the hold duration. The "executing" line is shown only if
    the hold duration was reached between the two clock readings: with
    [t' = t] it is never shown, because a tick that sees the hold
    complete marks the gesture executed before the interface is drawn. *)
Theorem hold_status_after_tick (self : GestureController) (g : GestureType) (h : string)
    (t t' : Q) :
  (0 < gesture_hold_duration self)%Q → (t <= t')%Q →
  (∀ name remaining,
     hold_status (state_of (_handle_gesture_logic g h t self)) t' = Progress name remaining →
     name = gesture_names g ∧ (0 < remaining)%Q ∧
     (remaining == gesture_hold_duration self
                   - (t' - gesture_start_time (state_of (_handle_gesture_logic g h t self))))%Q ∧
     ((gesture_start_time self <= t)%Q → (remaining <= gesture_hold_duration self)%Q)) ∧
  (∀ name,
     hold_status (state_of (_handle_gesture_logic g h t self)) t' = Executing name →
     name = gesture_names g ∧
     (t - gesture_start_time (state_of (_handle_gesture_logic g h t self))
        < gesture_hold_duration self)%Q ∧
     (gesture_hold_duration self
        <= t' - gesture_start_time (state_of (_handle_gesture_logic g h t self)))%Q) ∧
  (∀ name, hold_status (state_of (_handle_gesture_logic g h t self)) t ≠ Executing name).
Proof.
  intros Hd Htt.
  assert (Hcases :
    (hold_status (state_of (_handle_gesture_logic g h t self)) t' = NoStatus ∧
     hold_status (state_of (_handle_gesture_logic g h t self)) t = NoStatus) ∨
    (last_gesture (state_of (_handle_gesture_logic g h t self)) = g ∧
     contains gesture_commands g = true ∧
     gesture_hold_duration (state_of (_handle_gesture_logic g h t self))
       = gesture_hold_duration self ∧
     ((g ∈ executed_gestures (state_of (_handle_gesture_logic g h t self))) ∨
      ((g ∉ executed_gestures (state_of (_handle_gesture_logic g h t self))) ∧
       (t - gesture_start_time (state_of (_handle_gesture_logic g h t self))
          < gesture_hold_duration self)%Q)) ∧
     ((gesture_start_time self <= t)%Q →
      (gesture_start_time (state_of (_handle_gesture_logic g h t self)) <= t)%Q))).
  { destruct (contains gesture_commands g) eqn:Hc.
    - right. destruct (decide (g = last_gesture self)) as [He|Hne].
      + destruct (decide (g ∈ executed_gestures self)) as [Hin|Hnin].
        * rewrite handle_fired by assumption. unfold state_of; cbn [fst snd]. auto 10.
        * destruct (Qlt_le_dec (t - gesture_start_time self) (gesture_hold_duration self)).
          -- rewrite handle_wait by assumption. unfold state_of; cbn [fst snd]. auto 10.
          -- rewrite handle_fire by assumption. unfold state_of; cbn [fst snd]. cbn.
             repeat split; auto. left. apply elem_of_union_l, elem_of_singleton. reflexivity.
      + rewrite handle_change by assumption. unfold state_of; cbn [fst snd]. cbn.
        repeat split; auto.
        * right. split; [rewrite elem_of_difference, elem_of_singleton; tauto|]. lra.
        * intros _. lra.
    - left. rewrite handle_untracked by assumption. unfold state_of; cbn [fst snd].
      unfold hold_status. cbn. split; reflexivity. }
  destruct Hcases as [[H1 H2]|(Hl & Hc & Hdur & Hex & Hst)].
  { rewrite H1, H2. repeat split; intros; discriminate. }
  assert (Hshape : ∀ now,
    hold_status (state_of (_handle_gesture_logic g h t self)) now =
    if Qlt_bool 0 (Qmax0 (gesture_hold_duration self
          - (now - gesture_start_time (state_of (_handle_gesture_logic g h t self)))))
    then Progress (gesture_names g)
           (Qmax0 (gesture_hold_duration self
              - (now - gesture_start_time (state_of (_handle_gesture_logic g h t self)))))
    else if bool_decide (g ∉ executed_gestures (state_of (_handle_gesture_logic g h t self)))
         then Executing (gesture_names g) else NoStatus).
  { intros now. unfold hold_status. rewrite Hl, Hc, Hdur.
    rewrite (bool_decide_eq_true_2 _ (contains_generic_not_NONE g Hc)). reflexivity. }
  split; [|split].
  - intros name remaining E. rewrite Hshape in E.
    destruct (Qlt_bool 0 (Qmax0 _)) eqn:Hpos; [|destruct (bool_decide _); discriminate E].
    injection E as <- <-. apply Qmax0_pos in Hpos.
    assert (Hq : (Qmax0 (gesture_hold_duration self
      - (t' - gesture_start_time (state_of (_handle_gesture_logic g h t self))))
      == gesture_hold_duration self
      - (t' - gesture_start_time (state_of (_handle_gesture_logic g h t self))))%Q).
    { unfold Qmax0. destruct (Qle_bool _ 0) eqn:Hle; [|reflexivity].
      apply Qle_bool_iff in Hle. exfalso. apply (Qlt_not_le _ _ Hpos Hle). }
    split; [reflexivity|]. split; [rewrite Hq; exact Hpos|]. split; [exact Hq|].
    intros Hs. specialize (Hst Hs). rewrite Hq. lra.
  - intros name E. rewrite Hshape in E.
    destruct (Qlt_bool 0 (Qmax0 _)) eqn:Hpos; [discriminate E|].
    destruct (bool_decide _) eqn:Hb; [|discriminate E]. injection E as <-.
    apply bool_decide_eq_true_1 in Hb.
    destruct Hex as [Hin|[_ Hlt]]; [contradiction|].
    split; [reflexivity|]. split; [exact Hlt|].
    apply Qnot_lt_le. intros Hn.
    assert (Hp : Qlt_bool 0 (Qmax0 (gesture_hold_duration self
      - (t' - gesture_start_time (state_of (_handle_gesture_logic g h t self))))) = true).
    { apply Qmax0_pos. lra. }
    congruence.
  - intros name E. rewrite Hshape in E.
    destruct (Qlt_bool 0 (Qmax0 _)) eqn:Hpos; [discriminate E|].
    destruct (bool_decide _) eqn:Hb; [|discriminate E].
    apply bool_decide_eq_true_1 in Hb.
    destruct Hex as [Hin|[_ Hlt]]; [contradiction|].
    assert (Hp : Qlt_bool 0 (Qmax0 (gesture_hold_duration self
      - (t - gesture_start_time (state_of (_handle_gesture_logic g h t self))))) = true).
    { apply Qmax0_pos. lra. }
    congruence.
Qed.

Lemma hold_status_after_tick_witness :
  hold_status (state_of (_handle_gesture_logic FIST "left" 3%Q
                           (perform (CallHandleGestureLogic FIST "left" 0%Q) __init__))) 3%Q
    ≠ Executing (gesture_names FIST).
Proof.
  destruct (hold_status_after_tick
              (perform (CallHandleGestureLogic FIST "left" 0%Q) __init__)
              FIST "left" 3%Q 3%Q) as (_ & _ & Hnever).
  - reflexivity.
  - discriminate.
  - apply Hnever.
Defined.


(** ** The light devices *)

Lemma same_identity_refl (self : MiHomeDevice) : same_identity self self.
Proof. repeat split. Qed.

Lemma same_identity_trans (a b c : MiHomeDevice) :
  same_identity a b → same_identity b c → same_identity a c.
Proof. intros (H1 & H2 & H3) (H4 & H5 & H6). repeat split; congruence. Qed.

Lemma same_identity_power (v : bool) (self : MiHomeDevice) :
  same_identity self (set_info (with_power v) self).
Proof. repeat split. Qed.

Lemma same_identity_brightness (v : Z) (self : MiHomeDevice) :
  same_identity self (set_info (with_brightness v) self).
Proof. repeat split. Qed.

Lemma same_identity_color_temp (v : Z) (self : MiHomeDevice) :
  same_identity self (set_info (with_color_temp v) self).
Proof. repeat split. Qed.

Lemma send_command_unconnected (self : MiHomeDevice) (command : string)
    (parameters : list Value) :
  device self = None → send_command self command parameters = (None, []).
Proof. intros H. unfold send_command. rewrite H. reflexivity. Qed.

Lemma send_command_connected (self : MiHomeDevice) (d : MiioDevice) (command : string)
    (parameters : list Value) :
  device self = Some d →
  send_command self command parameters =
    (match d command parameters with Normal result => Some result | Raised _ => None end,
     [Send (name (device_info self)) command parameters]).
Proof.
  intros H. unfold send_command. rewrite H. destruct (d command parameters); reflexivity.
Qed.

Lemma send_command_behaved (self : MiHomeDevice) (command : string)
    (parameters : list Value) :
  valid_command (Send (name (device_info self)) command parameters) →
  behaved self self (send_command self command parameters).2.
Proof.
  intros Hv. split; [apply same_identity_refl|].
  destruct (device self) as [d|] eqn:Hd.
  - rewrite (send_command_connected _ d) by exact Hd. cbn [snd]. split; [|discriminate].
    constructor; [|constructor]. split; [exact Hv|reflexivity].
  - rewrite send_command_unconnected by exact Hd. cbn [snd]. split; [constructor|reflexivity].
Qed.

Lemma behaved_identity (self a b : MiHomeDevice) (sent : list DeviceEffect) :
  same_identity self b → behaved self a sent → behaved self b sent.
Proof. intros H (_ & H1 & H2). split; [exact H|]. split; assumption. Qed.

Lemma behaved_nil (self self' : MiHomeDevice) :
  same_identity self self' → behaved self self' [].
Proof. intros H. split; [exact H|]. split; [constructor|reflexivity]. Qed.

Lemma behaved_app (self a b : MiHomeDevice) (sent sent' : list DeviceEffect) :
  behaved self a sent → behaved a b sent' → behaved self b (sent ++ sent').
Proof.
  intros (Hi & Hv & Hn) (Hi' & Hv' & Hn').
  split; [exact (same_identity_trans _ _ _ Hi Hi')|]. split.
  - apply Forall_app. split; [exact Hv|].
    destruct Hi as (Hname & _). rewrite Hname. exact Hv'.
  - intros Hd. rewrite (Hn Hd). destruct Hi as (_ & Hdev & _).
    rewrite Hn' by congruence. reflexivity.
Qed.

Lemma valid_get_prop (device_name : string) (parameters : list Value) :
  valid_command (Send device_name "get_prop" parameters).
Proof. cbn. auto. Qed.

Lemma valid_set_scene (device_name : string) (b : Z) :
  1 ≤ b ≤ 100 →
  valid_command (Send device_name "set_scene" [VStr "color"; VInt 16777215; VInt b]).
Proof. intros H. cbn. right; left. split; [reflexivity|]. exists b. auto. Qed.

Lemma valid_set_ct_abx (device_name : string) (t : Z) :
  1700 ≤ t ≤ 6500 →
  valid_command (Send device_name "set_ct_abx" [VInt t; VStr "smooth"; VInt 500]).
Proof. intros H. cbn. right; right; left. split; [reflexivity|]. exists t. auto. Qed.

Lemma valid_set_power (device_name : string) (s : string) :
  s = "on" ∨ s = "off" → valid_command (Send device_name "set_power" [VStr s]).
Proof. intros [->| ->]; cbn; left; auto. Qed.

Lemma turn_on_behaved (self : MiHomeDevice) :
  behaved self (turn_on self).1.2 (turn_on self).2.
Proof.
  unfold turn_on.
  pose proof (send_command_behaved self "set_power" [VStr "on"]
                (valid_set_power _ "on" (or_introl eq_refl))) as H.
  destruct (send_command self "set_power" [VStr "on"]) as [result sent]. cbn [snd] in H.
  destruct (first_is "ok" result); cbn [fst snd]; [|exact H].
  eapply behaved_identity; [|exact H]. apply same_identity_power.
Qed.

Lemma turn_off_behaved (self : MiHomeDevice) :
  behaved self (turn_off self).1.2 (turn_off self).2.
Proof.
  unfold turn_off.
  pose proof (send_command_behaved self "set_power" [VStr "off"]
                (valid_set_power _ "off" (or_intror eq_refl))) as H.
  destruct (send_command self "set_power" [VStr "off"]) as [result sent]. cbn [snd] in H.
  destruct (first_is "ok" result); cbn [fst snd]; [|exact H].
  eapply behaved_identity; [|exact H]. apply same_identity_power.
Qed.

Lemma set_brightness_behaved (self : MiHomeDevice) (b : Z) :
  behaved self (set_brightness self b).1.2 (set_brightness self b).2.
Proof.
  unfold set_brightness.
  destruct (1 <=? b) eqn:H1; [|apply behaved_nil, same_identity_refl].
  destruct (b <=? 100) eqn:H2; [|apply behaved_nil, same_identity_refl]. cbn [negb andb].
  assert (Hb : 1 ≤ b ≤ 100) by lia.
  pose proof (send_command_behaved self "set_scene" [VStr "color"; VInt 16777215; VInt b]
                (valid_set_scene _ b Hb)) as H.
  destruct (send_command self "set_scene" _) as [result sent]. cbn [snd] in H.
  destruct (first_is "ok" result); cbn [fst snd]; [|exact H].
  eapply behaved_identity; [|exact H]. apply same_identity_brightness.
Qed.

Lemma set_color_temp_behaved (self : MiHomeDevice) (t : Z) :
  behaved self (set_color_temp self t).1.2 (set_color_temp self t).2.
Proof.
  unfold set_color_temp.
  destruct (1700 <=? t) eqn:H1; [|apply behaved_nil, same_identity_refl].
  destruct (t <=? 6500) eqn:H2; [|apply behaved_nil, same_identity_refl]. cbn [negb andb].
  assert (Hb : 1700 ≤ t ≤ 6500) by lia.
  pose proof (send_command_behaved self "set_ct_abx" [VInt t; VStr "smooth"; VInt 500]
                (valid_set_ct_abx _ t Hb)) as H.
  destruct (send_command self "set_ct_abx" _) as [result sent]. cbn [snd] in H.
  destruct (first_is "ok" result); cbn [fst snd]; [|exact H].
  eapply behaved_identity; [|exact H]. apply same_identity_color_temp.
Qed.

Section LightMethods.
Variable int_of_str : string → option Z.

Lemma get_brightness_behaved (self : MiHomeDevice) :
  behaved self (get_brightness int_of_str self).1.2 (get_brightness int_of_str self).2.
Proof.
  unfold get_brightness.
  pose proof (send_command_behaved self "get_prop" [VStr "bright"] (valid_get_prop _ _)) as H.
  destruct (send_command self "get_prop" _) as [result sent]. cbn [snd] in H.
  destruct result as [[|v rest]|]; cbn [fst snd]; try exact H.
  destruct (int int_of_str v); cbn [fst snd]; [|exact H].
  eapply behaved_identity; [|exact H]. apply same_identity_brightness.
Qed.

Lemma adjust_brightness_behaved (self : MiHomeDevice) (delta : Z) :
  behaved self (adjust_brightness int_of_str self delta).1.2
    (adjust_brightness int_of_str self delta).2.
Proof.
  unfold adjust_brightness.
  pose proof (get_brightness_behaved self) as H.
  destruct (get_brightness int_of_str self) as [[[cur|] self1] sent]; cbn [fst snd] in H;
    [|exact H].
  pose proof (set_brightness_behaved self1 (Z.max 1 (Z.min 100 (cur + delta)))) as H'.
  destruct (set_brightness self1 _) as [[r self2] sent']. cbn [fst snd] in *.
  exact (behaved_app _ _ _ _ _ H H').
Qed.

Lemma adjust_color_temp_behaved (self : MiHomeDevice) (delta : Z) :
  behaved self (adjust_color_temp int_of_str self delta).1.2
    (adjust_color_temp int_of_str self delta).2.
Proof.
  unfold adjust_color_temp.
  pose proof (send_command_behaved self "get_prop" [VStr "ct"] (valid_get_prop _ _)) as H.
  destruct (send_command self "get_prop" _) as [result sent]. cbn [snd] in H.
  destruct result as [[|v rest]|]; cbn [fst snd]; try exact H.
  destruct (int int_of_str v) as [cur|]; cbn [fst snd]; [|exact H].
  cbv zeta.
  match goal with |- context [set_color_temp self ?t] =>
    pose proof (set_color_temp_behaved self t) as H';
    destruct (set_color_temp self t) as [[r self2] sent'] end.
  cbn [fst snd] in *. exact (behaved_app _ _ _ _ _ H H').
Qed.

Lemma get_status_behaved (self : MiHomeDevice) :
  behaved self (get_status int_of_str self).1.2 (get_status int_of_str self).2.
Proof.
  unfold get_status.
  pose proof (send_command_behaved self "get_prop" [VStr "power"; VStr "bright"; VStr "ct"]
                (valid_get_prop _ _)) as H.
  destruct (send_command self "get_prop" _) as [result sent]. cbn [snd] in H.
  destruct result as [[|r0 [|r1 [|r2 rest]]]|]; cbn [fst snd]; try exact H.
  destruct (int int_of_str r1) as [b|]; cbn [fst snd];
    [|eapply behaved_identity; [|exact H]; repeat split].
  destruct (int int_of_str r2) as [ct|]; cbn [fst snd];
    eapply behaved_identity; try exact H; repeat split.
Qed.

Lemma adjust_cached_color_temp_behaved (delta : Z) (self : MiHomeDevice) :
  behaved self (adjust_cached_color_temp int_of_str delta self).1.2
    (adjust_cached_color_temp int_of_str delta self).2.
Proof.
  unfold adjust_cached_color_temp. cbv zeta.
  destruct (color_temp (device_info self) =? 0).
  - pose proof (get_status_behaved self) as H.
    destruct (get_status int_of_str self) as [[st self1] sent]. cbn [fst snd] in H.
    match goal with |- context [set_color_temp self1 ?t] =>
      pose proof (set_color_temp_behaved self1 t) as H';
      destruct (set_color_temp self1 t) as [[r self2] sent'] end.
    cbn [fst snd] in *. exact (behaved_app _ _ _ _ _ H H').
  - match goal with |- context [set_color_temp self ?t] =>
      pose proof (set_color_temp_behaved self t) as H';
      destruct (set_color_temp self t) as [[r self2] sent'] end.
    cbn [fst snd app] in *. exact H'.
Qed.
End LightMethods.

(** ** The loops of the device controller *)

Lemma for_lights_cons_light (method : MiHomeDevice → bool * MiHomeDevice * list DeviceEffect)
    (k : string) (d : MiHomeDevice) (rest : list (string * MiHomeDevice)) :
  light d = true →
  for_lights method ((k, d) :: rest) =
    ((k, (method d).1.1) :: (for_lights method rest).1.1,
     (k, (method d).1.2) :: (for_lights method rest).1.2,
     (method d).2 ++ (for_lights method rest).2).
Proof.
  intros H. cbn [for_lights]. rewrite H.
  destruct (method d) as [[r d'] sent]. destruct (for_lights method rest) as [[rs ds] sent'].
  reflexivity.
Qed.

Lemma for_lights_cons_other (method : MiHomeDevice → bool * MiHomeDevice * list DeviceEffect)
    (k : string) (d : MiHomeDevice) (rest : list (string * MiHomeDevice)) :
  light d = false →
  for_lights method ((k, d) :: rest) =
    ((for_lights method rest).1.1, (k, d) :: (for_lights method rest).1.2,
     (for_lights method rest).2).
Proof.
  intros H. cbn [for_lights]. rewrite H.
  destruct (for_lights method rest) as [[rs ds] sent']. reflexivity.
Qed.

Lemma for_lights_serves (method : MiHomeDevice → bool * MiHomeDevice * list DeviceEffect)
    (devices : list (string * MiHomeDevice)) :
  (∀ d, behaved d (method d).1.2 (method d).2) →
  serves_lights devices (for_lights method devices) ∧
  Forall valid_command (for_lights method devices).2.
Proof.
  intros Hm. induction devices as [|[k d] rest IH].
  { split; [|constructor]. repeat split; try constructor. intros i k d H. destruct i; discriminate H. }
  destruct IH as ((IH1 & IH2 & IH3 & IH4) & IH5).
  assert (Hweak : Forall (λ e, ∃ kd, kd ∈ (k, d) :: rest ∧ light kd.2 = true ∧
                                 is_Some (device kd.2) ∧ addressed_to (name (device_info kd.2)) e)
                    (for_lights method rest).2).
  { eapply Forall_impl; [exact IH4|]. intros e (kd & Hin & H). exists kd.
    split; [right; exact Hin|exact H]. }
  destruct (light d) eqn:Hl.
  - rewrite for_lights_cons_light by exact Hl.
    destruct (Hm d) as (Hid & Hv & Hn).
    split; [split; [|split; [|split]]|]; cbn [fst snd].
    + rewrite filter_cons_True by exact Hl. cbn. f_equal. exact IH1.
    + cbn. f_equal. exact IH2.
    + intros [|i] k' d' H; cbn in H |- *.
      * injection H as <- <-. exists (method d).1.2. split; [reflexivity|].
        split; [exact Hid|]. rewrite Hl. discriminate.
      * exact (IH3 i k' d' H).
    + apply Forall_app. split; [|exact Hweak].
      destruct (device d) as [m|] eqn:Hd; [|rewrite (Hn eq_refl); constructor].
      eapply Forall_impl; [exact Hv|]. intros e (_ & Ha). exists (k, d).
      split; [left|]. split; [exact Hl|]. split; [cbn [snd]; rewrite Hd; eexists; reflexivity|exact Ha].
    + apply Forall_app. split; [|exact IH5].
      eapply Forall_impl; [exact Hv|]. intros e (H & _). exact H.
  - rewrite for_lights_cons_other by exact Hl.
    split; [split; [|split; [|split]]|]; cbn [fst snd].
    + rewrite filter_cons_False by (cbn [snd]; congruence). exact IH1.
    + cbn. f_equal. exact IH2.
    + intros [|i] k' d' H; cbn in H |- *.
      * injection H as <- <-. exists d. split; [reflexivity|].
        split; [apply same_identity_refl|reflexivity].
      * exact (IH3 i k' d' H).
    + exact Hweak.
    + exact IH5.
Qed.

(** X14. Whatever the devices reply and whatever adjustment or value is
    asked for, the light methods and the loops of the controller hand
    only these commands to a device: [set_power] with "on" or "off",
    [set_scene] with white and a brightness from 1 to 100, [set_ct_abx]
    with a colour temperature from 1700 to 6500 and a smooth transition
    of 500 ms, and [get_prop] queries. *)
Theorem light_commands_in_range (int_of_str : string → option Z) (self : MiHomeDevice)
    (devices : list (string * MiHomeDevice)) (brightness temp delta : Z) :
  Forall valid_command (turn_on self).2 ∧
  Forall valid_command (turn_off self).2 ∧
  Forall valid_command (set_brightness self brightness).2 ∧
  Forall valid_command (adjust_brightness int_of_str self delta).2 ∧
  Forall valid_command (get_brightness int_of_str self).2 ∧
  Forall valid_command (set_color_temp self temp).2 ∧
  Forall valid_command (adjust_color_temp int_of_str self delta).2 ∧
  Forall valid_command (get_status int_of_str self).2 ∧
  Forall valid_command (turn_on_all devices).2 ∧
  Forall valid_command (turn_off_all devices).2 ∧
  Forall valid_command (adjust_brightness_all int_of_str delta devices).2 ∧
  Forall valid_command (set_color_temp_all temp devices).2 ∧
  Forall valid_command (adjust_color_temp_all int_of_str delta devices).2.
Proof.
  assert (Hb : ∀ s s' sent, behaved s s' sent → Forall valid_command sent).
  { intros s s' sent (_ & H & _). eapply Forall_impl; [exact H|]. intros e (He & _). exact He. }
  repeat split.
  - exact (Hb _ _ _ (turn_on_behaved self)).
  - exact (Hb _ _ _ (turn_off_behaved self)).
  - exact (Hb _ _ _ (set_brightness_behaved self brightness)).
  - exact (Hb _ _ _ (adjust_brightness_behaved int_of_str self delta)).
  - exact (Hb _ _ _ (get_brightness_behaved int_of_str self)).
  - exact (Hb _ _ _ (set_color_temp_behaved self temp)).
  - exact (Hb _ _ _ (adjust_color_temp_behaved int_of_str self delta)).
  - exact (Hb _ _ _ (get_status_behaved int_of_str self)).
  - apply for_lights_serves. exact turn_on_behaved.
  - apply for_lights_serves. exact turn_off_behaved.
  - apply (for_lights_serves (λ d, adjust_brightness int_of_str d delta)).
    intros d. exact (adjust_brightness_behaved int_of_str d delta).
  - apply (for_lights_serves (λ d, set_color_temp d temp)).
    intros d. exact (set_color_temp_behaved d temp).
  - apply for_lights_serves. exact (adjust_cached_color_temp_behaved int_of_str delta).
Qed.

(** X15. Each loop of the controller returns a result for every light
    of the dictionary and for no other device, under the key of the
    device and in the order of the dictionary; it keeps the keys, the
    name, the connection and the class of every device, leaves the
    devices that are no lights as they are, and sends commands to
    connected lights of the dictionary only. *)
Theorem controller_loops_serve_lights (int_of_str : string → option Z)
    (devices : list (string * MiHomeDevice)) (temp delta : Z) :
  serves_lights devices (turn_on_all devices) ∧
  serves_lights devices (turn_off_all devices) ∧
  serves_lights devices (adjust_brightness_all int_of_str delta devices) ∧
  serves_lights devices (set_color_temp_all temp devices) ∧
  serves_lights devices (adjust_color_temp_all int_of_str delta devices).
Proof.
  split; [|split; [|split; [|split]]].
  - apply for_lights_serves. exact turn_on_behaved.
  - apply for_lights_serves. exact turn_off_behaved.
  - apply (for_lights_serves (λ d, adjust_brightness int_of_str d delta)).
    intros d. exact (adjust_brightness_behaved int_of_str d delta).
  - apply (for_lights_serves (λ d, set_color_temp d temp)).
    intros d. exact (set_color_temp_behaved d temp).
  - apply for_lights_serves. exact (adjust_cached_color_temp_behaved int_of_str delta).
Qed.

(** X16. On a device whose connection failed every light method fails:
    the setters and adjusters return False, [get_brightness] returns
    None, [get_status] returns the all-off status; nothing is sent and
    the cached state of the device is left as it is. *)
Theorem unconnected_device_inert (int_of_str : string → option Z) (self : MiHomeDevice)
    (brightness temp delta : Z) :
  device self = None →
  turn_on self = (false, self, []) ∧
  turn_off self = (false, self, []) ∧
  set_brightness self brightness = (false, self, []) ∧
  adjust_brightness int_of_str self delta = (false, self, []) ∧
  get_brightness int_of_str self = (None, self, []) ∧
  set_color_temp self temp = (false, self, []) ∧
  adjust_color_temp int_of_str self delta = (false, self, []) ∧
  get_status int_of_str self = (default_status, self, []).
Proof.
  intros Hd.
  assert (Hsb : ∀ b, set_brightness self b = (false, self, [])).
  { intros b. unfold set_brightness. rewrite send_command_unconnected by exact Hd.
    destruct (negb _); reflexivity. }
  assert (Hgb : get_brightness int_of_str self = (None, self, [])).
  { unfold get_brightness. rewrite send_command_unconnected by exact Hd. reflexivity. }
  repeat split.
  - unfold turn_on. rewrite send_command_unconnected by exact Hd. reflexivity.
  - unfold turn_off. rewrite send_command_unconnected by exact Hd. reflexivity.
  - apply Hsb.
  - unfold adjust_brightness. rewrite Hgb. reflexivity.
  - exact Hgb.
  - unfold set_color_temp. rewrite send_command_unconnected by exact Hd.
    destruct (negb _); reflexivity.
  - unfold adjust_color_temp. rewrite send_command_unconnected by exact Hd. reflexivity.
  - unfold get_status. rewrite send_command_unconnected by exact Hd. reflexivity.
Qed.

Lemma unconnected_device_inert_witness :
  adjust_brightness sample_int (unconnected_light "lamp") 20
    = (false, unconnected_light "lamp", []) ∧
  get_status sample_int (unconnected_light "lamp")
    = (default_status, unconnected_light "lamp", []).
Proof.
  destruct (unconnected_device_inert sample_int (unconnected_light "lamp") 50 4000 20)
    as (_ & _ & _ & Hab & _ & _ & _ & Hgs).
  - reflexivity.
  - split; [exact Hab|exact Hgs].
Defined.

(** X17. When the device reports its brightness as [cur],
    [adjust_brightness(delta)] asks the device for [cur + delta] brought
    into the range from 1 to 100, whatever [delta] is: it sends the
    query and then exactly this one [set_scene] command. It returns
    whether the device acknowledged with "ok"; the cached brightness is
    then the new value, and otherwise the value that was read. *)
Theorem adjust_brightness_clamps (int_of_str : string → option Z) (self : MiHomeDevice)
    (d : MiioDevice) (delta : Z) (v : Value) (rest : list Value) (cur : Z) :
  device self = Some d →
  d "get_prop" [VStr "bright"] = Normal (v :: rest) →
  int int_of_str v = Some cur →
  let target := Z.max 1 (Z.min 100 (cur + delta)) in
  let set_scene := [VStr "color"; VInt 16777215; VInt target] in
  let acknowledged := first_is "ok" (send_command self "set_scene" set_scene).1 in
  1 ≤ target ≤ 100 ∧
  adjust_brightness int_of_str self delta =
    (acknowledged,
     set_info (with_brightness (if acknowledged then target else cur)) self,
     [Send (name (device_info self)) "get_prop" [VStr "bright"];
      Send (name (device_info self)) "set_scene" set_scene]).
Proof.
  intros Hd Hq Hv target set_scene acknowledged.
  assert (Ht : 1 ≤ target ≤ 100) by (unfold target; lia).
  split; [exact Ht|].
  unfold adjust_brightness, get_brightness.
  rewrite (send_command_connected _ d) by exact Hd. rewrite Hq, Hv.
  unfold set_brightness. fold target.
  replace (negb ((1 <=? target) && (target <=? 100))) with false
    by (symmetry; apply negb_false_iff, andb_true_iff; split; lia).
  subst acknowledged set_scene.
  rewrite !(send_command_connected _ d) by exact Hd. cbn [fst].
  destruct (first_is "ok" _); reflexivity.
Qed.

Lemma adjust_brightness_clamps_witness :
  adjust_brightness sample_int (sample_light "lamp" "100" "4000") 20 =
    (true, set_info (with_brightness 100) (sample_light "lamp" "100" "4000"),
     [Send "lamp" "get_prop" [VStr "bright"];
      Send "lamp" "set_scene" [VStr "color"; VInt 16777215; VInt 100]]).
Proof.
  destruct (adjust_brightness_clamps sample_int (sample_light "lamp" "100" "4000")
              (reporting "100" "4000") 20 (VStr "100") [] 100) as (_ & H).
  - reflexivity.
  - reflexivity.
  - reflexivity.
  - exact H.
Defined.

(** X18. When the device reports its colour temperature as [cur],
    [adjust_color_temp(delta)] starts from [cur] if it lies between 1700
    and 6500 and from 3000 otherwise (a reading such as 65535), adds
    [delta] and brings the sum into the range from 1700 to 6500; it
    sends the query and then exactly this one [set_ct_abx] command. It
    returns whether the device acknowledged with "ok", and only then is
    the new value cached; the reading itself is never cached. *)
Theorem adjust_color_temp_abnormal_reading (int_of_str : string → option Z)
    (self : MiHomeDevice) (d : MiioDevice) (delta : Z) (v : Value) (rest : list Value)
    (cur : Z) :
  device self = Some d →
  d "get_prop" [VStr "ct"] = Normal (v :: rest) →
  int int_of_str v = Some cur →
  let base := if bool_decide (1700 ≤ cur ≤ 6500) then cur else 3000 in
  let target := Z.max 1700 (Z.min 6500 (base + delta)) in
  let set_ct := [VInt target; VStr "smooth"; VInt 500] in
  let acknowledged := first_is "ok" (send_command self "set_ct_abx" set_ct).1 in
  1700 ≤ target ≤ 6500 ∧
  adjust_color_temp int_of_str self delta =
    (acknowledged,
     if acknowledged then set_info (with_color_temp target) self else self,
     [Send (name (device_info self)) "get_prop" [VStr "ct"];
      Send (name (device_info self)) "set_ct_abx" set_ct]).
Proof.
  intros Hd Hq Hv base target set_ct acknowledged.
  assert (Ht : 1700 ≤ target ≤ 6500) by (unfold target; lia).
  split; [exact Ht|].
  unfold adjust_color_temp.
  rewrite (send_command_connected _ d) by exact Hd. rewrite Hq, Hv.
  replace (if (6500 <? cur) || (cur <? 1700) then 3000 else cur) with base.
  2:{ unfold base. destruct (bool_decide (1700 ≤ cur ≤ 6500)) eqn:Hb.
      - apply bool_decide_eq_true_1 in Hb.
        replace (6500 <? cur) with false by (symmetry; apply Z.ltb_ge; lia).
        replace (cur <? 1700) with false by (symmetry; apply Z.ltb_ge; lia). reflexivity.
      - apply bool_decide_eq_false_1 in Hb.
        destruct (6500 <? cur) eqn:H1; [reflexivity|].
        destruct (cur <? 1700) eqn:H2; [reflexivity|]. exfalso. apply Hb. lia. }
  cbv zeta. fold target.
  unfold set_color_temp.
  replace (negb ((1700 <=? target) && (target <=? 6500))) with false
    by (symmetry; apply negb_false_iff, andb_true_iff; split; lia).
  subst acknowledged set_ct.
  rewrite !(send_command_connected _ d) by exact Hd. cbn [fst].
  destruct (first_is "ok" _); reflexivity.
Qed.

Lemma adjust_color_temp_abnormal_reading_witness :
  adjust_color_temp sample_int (sample_light "lamp" "50" "65535") 200 =
    (true, set_info (with_color_temp 3200) (sample_light "lamp" "50" "65535"),
     [Send "lamp" "get_prop" [VStr "ct"];
      Send "lamp" "set_ct_abx" [VInt 3200; VStr "smooth"; VInt 500]]).
Proof.
  destruct (adjust_color_temp_abnormal_reading sample_int (sample_light "lamp" "50" "65535")
              (reporting "50" "65535") 200 (VStr "65535") [] 65535) as (_ & H).
  - reflexivity.
  - reflexivity.
  - reflexivity.
  - exact H.
Defined.

Lemma set_color_temp_in_range (self : MiHomeDevice) (t : Z) :
  1700 ≤ t ≤ 6500 →
  set_color_temp self t =
    (first_is "ok" (send_command self "set_ct_abx" [VInt t; VStr "smooth"; VInt 500]).1,
     if first_is "ok" (send_command self "set_ct_abx" [VInt t; VStr "smooth"; VInt 500]).1
     then set_info (with_color_temp t) self else self,
     (send_command self "set_ct_abx" [VInt t; VStr "smooth"; VInt 500]).2).
Proof.
  intros Ht. unfold set_color_temp.
  replace (negb ((1700 <=? t) && (t <=? 6500))) with false
    by (symmetry; apply negb_false_iff, andb_true_iff; split; lia).
  destruct (send_command self "set_ct_abx" _) as [result sent]. cbn [fst snd].
  destruct (first_is "ok" result); reflexivity.
Qed.

Lemma adjust_cached_color_temp_cached (int_of_str : string → option Z) (delta : Z)
    (d : MiHomeDevice) :
  color_temp (device_info d) ≠ 0 →
  adjust_cached_color_temp int_of_str delta d =
    set_color_temp d (Z.max 1700 (Z.min 6500 (color_temp (device_info d) + delta))).
Proof.
  intros Hc. unfold adjust_cached_color_temp. cbv zeta.
  replace (color_temp (device_info d) =? 0) with false by (symmetry; apply Z.eqb_neq; exact Hc).
  destruct (set_color_temp d _) as [[r d'] sent]. reflexivity.
Qed.

(** X19. [adjust_color_temp_all(delta)] works from the cache: for a
    dictionary whose lights all have a cached colour temperature other
    than 0 it queries no device and sends each connected light exactly
    one [set_ct_abx] command, with the cached value plus [delta] brought
    into the range from 1700 to 6500 (a cached 65535 gives 6500, it is not
    replaced by 3000 as in [adjust_color_temp]); the result filed for a
    light is whether its device acknowledged with "ok". *)
Theorem adjust_color_temp_all_uses_cache (int_of_str : string → option Z)
    (devices : list (string * MiHomeDevice)) (delta : Z) :
  Forall (λ kd, light kd.2 = true → color_temp (device_info kd.2) ≠ 0) devices →
  let target (d : MiHomeDevice) := Z.max 1700 (Z.min 6500 (color_temp (device_info d) + delta)) in
  let set_ct (d : MiHomeDevice) := [VInt (target d); VStr "smooth"; VInt 500] in
  (adjust_color_temp_all int_of_str delta devices).2 =
    (λ kd, Send (name (device_info kd.2)) "set_ct_abx" (set_ct kd.2))
      <$> filter (λ kd, light kd.2 = true ∧ is_Some (device kd.2)) devices ∧
  (adjust_color_temp_all int_of_str delta devices).1.1 =
    (λ kd, (kd.1, first_is "ok" (send_command kd.2 "set_ct_abx" (set_ct kd.2)).1))
      <$> filter (λ kd, light kd.2 = true) devices.
Proof.
  intros Hall target set_ct. unfold adjust_color_temp_all.
  induction devices as [|[k d] rest IH]; [split; reflexivity|].
  apply Forall_cons in Hall as [Hd Hrest]. destruct (IH Hrest) as [IH1 IH2]. cbn [snd] in Hd.
  destruct (light d) eqn:Hl.
  - rewrite for_lights_cons_light by exact Hl. cbn [fst snd].
    rewrite adjust_cached_color_temp_cached by (apply Hd; reflexivity).
    fold (target d). rewrite set_color_temp_in_range by (unfold target; lia).
    cbn [fst snd]. rewrite IH1, IH2. split.
    + destruct (device d) as [m|] eqn:Hdev.
      * rewrite filter_cons_True by (cbn [snd]; rewrite Hdev; split; [exact Hl|eexists; reflexivity]).
        rewrite (send_command_connected _ m) by exact Hdev. reflexivity.
      * rewrite filter_cons_False
          by (cbn [snd]; rewrite Hdev; intros [_ [x Hx]]; discriminate Hx).
        rewrite send_command_unconnected by exact Hdev. reflexivity.
    + rewrite filter_cons_True by exact Hl. reflexivity.
  - rewrite for_lights_cons_other by exact Hl. cbn [fst snd]. rewrite IH1, IH2. split.
    + rewrite filter_cons_False by (cbn [snd]; rewrite Hl; intros [H _]; discriminate H).
      reflexivity.
    + rewrite filter_cons_False by (cbn [snd]; congruence). reflexivity.
Qed.

Lemma adjust_color_temp_all_uses_cache_witness :
  (adjust_color_temp_all sample_int 200
     [("desk", cached_light "desk" 65535);
      ("hall", set_info (with_color_temp 3000) (unconnected_light "hall"));
      ("bed", cached_light "bed" 4000)]).2 =
    [Send "desk" "set_ct_abx" [VInt 6500; VStr "smooth"; VInt 500];
     Send "bed" "set_ct_abx" [VInt 4200; VStr "smooth"; VInt 500]].
Proof.
  destruct (adjust_color_temp_all_uses_cache sample_int
              [("desk", cached_light "desk" 65535);
               ("hall", set_info (with_color_temp 3000) (unconnected_light "hall"));
               ("bed", cached_light "bed" 4000)] 200) as [H _].
  - repeat constructor; intros _; discriminate.
  - exact H.
Defined.

(** X20. When a connected light has no cached colour temperature (0)
    and its device raises on the status query, [adjust_color_temp_all]
    still sets a colour temperature: the first light of the dictionary
    receives the query and then [set_ct_abx] with [delta] itself brought
    into the range from 1700 to 6500, which is 1700 for every [delta] up
    to 1700. *)
Theorem adjust_color_temp_all_without_reading (int_of_str : string → option Z)
    (k : string) (d : MiHomeDevice) (m : MiioDevice) (e : Exn)
    (rest : list (string * MiHomeDevice)) (delta : Z) :
  light d = true →
  device d = Some m →
  color_temp (device_info d) = 0 →
  m "get_prop" [VStr "power"; VStr "bright"; VStr "ct"] = Raised e →
  (adjust_color_temp_all int_of_str delta ((k, d) :: rest)).2 =
    Send (name (device_info d)) "get_prop" [VStr "power"; VStr "bright"; VStr "ct"]
    :: Send (name (device_info d)) "set_ct_abx"
         [VInt (Z.max 1700 (Z.min 6500 delta)); VStr "smooth"; VInt 500]
    :: (adjust_color_temp_all int_of_str delta rest).2.
Proof.
  intros Hl Hd Hc Hq. unfold adjust_color_temp_all.
  rewrite for_lights_cons_light by exact Hl. cbn [snd].
  unfold adjust_cached_color_temp at 1. cbv zeta. rewrite Hc. cbn [Z.eqb].
  unfold get_status. rewrite (send_command_connected _ m) by exact Hd. rewrite Hq.
  rewrite Hc. cbn [Z.add].
  rewrite set_color_temp_in_range by lia. cbn [fst snd].
  rewrite (send_command_connected _ m) by exact Hd. reflexivity.
Qed.

Lemma adjust_color_temp_all_without_reading_witness :
  (adjust_color_temp_all sample_int 200 [("lamp", silent_light "lamp")]).2 =
    [Send "lamp" "get_prop" [VStr "power"; VStr "bright"; VStr "ct"];
     Send "lamp" "set_ct_abx" [VInt 1700; VStr "smooth"; VInt 500]].
Proof.
  apply (adjust_color_temp_all_without_reading sample_int "lamp" (silent_light "lamp") silent
           (Exception "timed out") [] 200); reflexivity.
Defined.

(** X21. [get_status] assigns the cached fields one after the other:
    when the reply has at least three elements and the brightness is an
    integer but the colour temperature is not, the call returns the
    all-off status although the cached power and brightness have been
    overwritten with the reply (the cached colour temperature is kept). *)
Theorem get_status_partial_update (int_of_str : string → option Z) (self : MiHomeDevice)
    (d : MiioDevice) (r0 r1 r2 : Value) (rest : list Value) (b : Z) :
  device self = Some d →
  d "get_prop" [VStr "power"; VStr "bright"; VStr "ct"] = Normal (r0 :: r1 :: r2 :: rest) →
  int int_of_str r1 = Some b →
  int int_of_str r2 = None →
  (get_status int_of_str self).1.1 = default_status ∧
  (power (device_info (get_status int_of_str self).1.2) = true ↔ r0 = VStr "on") ∧
  brightness (device_info (get_status int_of_str self).1.2) = b ∧
  color_temp (device_info (get_status int_of_str self).1.2) = color_temp (device_info self).
Proof.
  intros Hd Hq H1 H2. unfold get_status.
  rewrite (send_command_connected _ d) by exact Hd. rewrite Hq, H1, H2. cbn [fst snd].
  split; [reflexivity|]. split; [|split; reflexivity].
  cbn. destruct r0 as [s|n]; [|split; discriminate].
  split.
  - intros H. apply String.eqb_eq in H. congruence.
  - intros H. injection H as ->. reflexivity.
Qed.

Lemma get_status_partial_update_witness :
  (get_status sample_int (sample_light "lamp" "50" "warm")).1.1 = default_status ∧
  brightness (device_info (get_status sample_int (sample_light "lamp" "50" "warm")).1.2) = 50.
Proof.
  destruct (get_status_partial_update sample_int (sample_light "lamp" "50" "warm")
              (reporting "50" "warm") (VStr "on") (VStr "50") (VStr "warm") [] 50)
    as (H1 & _ & H2 & _).
  - reflexivity.
  - reflexivity.
  - reflexivity.
  - reflexivity.
  - split; [exact H1|exact H2].
Defined.

(** ** Loading the devices *)

Lemma get_device_dict_set (devices : list (string * MiHomeDevice)) (k : string)
    (d : MiHomeDevice) (device_name : string) :
  get_device (dict_set k d devices) device_name =
    if (k =? device_name)%string then Some d else get_device devices device_name.
Proof.
  induction devices as [|[k' d'] rest IH]; cbn [dict_set get_device].
  - reflexivity.
  - destruct (String.eqb_spec k' k) as [->|Hk]; cbn [get_device].
    + destruct (k =? device_name)%string; reflexivity.
    + rewrite IH. destruct (String.eqb_spec k' device_name) as [->|Hn]; [|reflexivity].
      destruct (String.eqb_spec k device_name) as [->|_]; [contradiction|reflexivity].
Qed.

Section LoadingProperties.
Variable miio_Device : string → string → Outcome MiioDevice.

Lemma load_device_cases (device_name : string) (config : gmap string string)
    (devices : list (string * MiHomeDevice)) :
  (loadable config ∧
   ∃ d, built_from miio_Device device_name config d ∧
        load_device miio_Device device_name config devices = dict_set device_name d devices) ∨
  (¬ loadable config ∧ load_device miio_Device device_name config devices = devices).
Proof.
  unfold load_device, loadable, built_from.
  destruct (config !! "ip") as [i|] eqn:Hi;
    [|right; split; [intros ([x Hx] & _); discriminate Hx|
                     destruct (DeviceType_of _); reflexivity]].
  destruct (config !! "token") as [t|] eqn:Ht;
    [|right; split; [intros (_ & [x Hx] & _); discriminate Hx|
                     destruct (DeviceType_of _); reflexivity]].
  generalize (default "light" (config !! "type")). intros ty.
  assert (Hbuilt : ∀ is_light dt,
    DeviceType_of ty = Some dt → (is_light = false ↔ ty = "unknown") →
    ∃ d, (name (device_info d) = device_name ∧
          Some (device_type (device_info d)) = DeviceType_of ty ∧
          Some i = Some (ip (device_info d)) ∧ Some t = Some (token (device_info d)) ∧
          model (device_info d) = default "" (config !! "model") ∧
          did (device_info d) = default "" (config !! "did") ∧
          mac (device_info d) = default "" (config !! "mac") ∧
          brightness (device_info d) = 0 ∧ power (device_info d) = false ∧
          color_temp (device_info d) = 0 ∧
          (light d = false ↔ ty = "unknown") ∧
          device d = match miio_Device (ip (device_info d)) (token (device_info d)) with
                     | Normal m => Some m
                     | Raised _ => None
                     end ∧
          (online (device_info d) = true ↔ is_Some (device d))) ∧
         dict_set device_name
           (MiHomeDevice__init__ miio_Device is_light
              {| name := device_name; device_type := dt; ip := i; token := t;
                 model := default "" (config !! "model");
                 did := default "" (config !! "did");
                 mac := default "" (config !! "mac");
                 online := false; brightness := 0; power := false; color_temp := 0 |})
           devices = dict_set device_name d devices).
  { intros is_light dt Hdt Hlight. eexists. split; [|reflexivity].
    unfold MiHomeDevice__init__, _connect. cbn [device_info ip token light].
    rewrite Hdt.
    destruct (miio_Device i t) as [m|e] eqn:Hm; cbn; rewrite ?Hm;
      repeat split; auto; try apply Hlight; try discriminate; try (eexists; reflexivity).
    intros [x Hx]. discriminate Hx. }
  assert (Hin : ∀ s, s ∈ ["light"; "ceiling_light"; "desk_lamp"; "bulb"; "unknown"] ↔
                     s = "light" ∨ s = "ceiling_light" ∨ s = "desk_lamp" ∨ s = "bulb" ∨
                     s = "unknown").
  { intros s. rewrite !elem_of_cons, elem_of_nil. tauto. }
  unfold DeviceType_of in *.
  destruct (String.eqb_spec ty "light") as [E|H1].
  { subst ty. left. split; [repeat split; eauto; apply Hin; auto|].
    apply (Hbuilt true LIGHT); [reflexivity|]. split; discriminate. }
  destruct (String.eqb_spec ty "ceiling_light") as [E|H2].
  { subst ty. left. split; [repeat split; eauto; apply Hin; auto|].
    apply (Hbuilt true CEILING_LIGHT); [reflexivity|]. split; discriminate. }
  destruct (String.eqb_spec ty "desk_lamp") as [E|H3].
  { subst ty. left. split; [repeat split; eauto; apply Hin; auto|].
    apply (Hbuilt true DESK_LAMP); [reflexivity|]. split; discriminate. }
  destruct (String.eqb_spec ty "bulb") as [E|H4].
  { subst ty. left. split; [repeat split; eauto; apply Hin; auto|].
    apply (Hbuilt true BULB); [reflexivity|]. split; discriminate. }
  destruct (String.eqb_spec ty "strip") as [E|H5].
  { subst ty. right. split; [|reflexivity]. intros (_ & _ & H). apply Hin in H.
    destruct H as [H|[H|[H|[H|H]]]]; discriminate H. }
  destruct (String.eqb_spec ty "unknown") as [E|H6].
  { subst ty. left. split; [repeat split; eauto; apply Hin; auto 6|].
    apply (Hbuilt false UNKNOWN); [reflexivity|]. split; reflexivity. }
  right. split; [|reflexivity]. intros (_ & _ & H). apply Hin in H.
  destruct H as [H|[H|[H|[H|H]]]]; contradiction.
Qed.

Lemma load_device_present (device_name : string) (config : gmap string string)
    (devices : list (string * MiHomeDevice)) (k : string) :
  is_Some (get_device (load_device miio_Device device_name config devices) k) ↔
  is_Some (get_device devices k) ∨ (device_name = k ∧ loadable config).
Proof.
  destruct (load_device_cases device_name config devices)
    as [(Hl & d & _ & ->)|(Hn & ->)].
  - rewrite get_device_dict_set.
    destruct (String.eqb_spec device_name k) as [->|Hk].
    + split; [intros _; right; split; [reflexivity|exact Hl]|intros _; eexists; reflexivity].
    + split; [intros H; left; exact H|intros [H|[H _]]; [exact H|contradiction]].
  - split; [intros H; left; exact H|intros [H|[_ H]]; [exact H|contradiction]].
Qed.

Lemma load_devices_present (devices_config : list (string * gmap string string))
    (devices : list (string * MiHomeDevice)) (k : string) :
  is_Some (get_device (_load_devices_from_config miio_Device devices_config devices) k) ↔
  is_Some (get_device devices k) ∨
  ∃ config, (k, config) ∈ devices_config ∧ loadable config.
Proof.
  revert devices. induction devices_config as [|[n c] rest IH]; intros devices;
    cbn [_load_devices_from_config].
  - split; [intros H; left; exact H|intros [H|(c & Hin & _)]; [exact H|]].
    apply elem_of_nil in Hin. contradiction.
  - rewrite IH, load_device_present. split.
    + intros [[H|[-> Hl]]|(c' & Hin & Hl)].
      * left. exact H.
      * right. exists c. split; [left|exact Hl].
      * right. exists c'. split; [right; exact Hin|exact Hl].
    + intros [H|(c' & Hin & Hl)].
      * left. left. exact H.
      * apply elem_of_cons in Hin as [Heq|Hin].
        -- injection Heq as -> ->. left. right. split; [reflexivity|exact Hl].
        -- right. exists c'. split; assumption.
Qed.

Lemma load_devices_json (devices_data : list (string * gmap string string))
    (devices : list (string * MiHomeDevice)) :
  _load_devices_from_json miio_Device devices_data devices =
  _load_devices_from_config miio_Device devices_data devices.
Proof.
  revert devices. induction devices_data as [|[n c] rest IH]; intros devices;
    [reflexivity|apply IH].
Qed.

Lemma load_devices_other (devices_config : list (string * gmap string string))
    (devices : list (string * MiHomeDevice)) (k : string) :
  k ∉ devices_config.*1 →
  get_device (_load_devices_from_config miio_Device devices_config devices) k =
  get_device devices k.
Proof.
  revert devices. induction devices_config as [|[n c] rest IH]; intros devices Hk;
    cbn [_load_devices_from_config]; [reflexivity|].
  cbn in Hk. apply not_elem_of_cons in Hk as [Hne Hk]. rewrite IH by exact Hk.
  destruct (load_device_cases n c devices) as [(_ & d & _ & ->)|(_ & ->)]; [|reflexivity].
  rewrite get_device_dict_set.
  destruct (String.eqb_spec n k) as [->|_]; [contradiction|reflexivity].
Qed.
End LoadingProperties.

(** X22. Loading a configuration never removes a device and adds
    exactly the loadable entries: after [_load_devices_from_config] (and
    likewise [_load_devices_from_json]) a name is a key of the dictionary
    if and only if it was one before or the configuration has an entry
    under it with an "ip", a "token" and a type (light when absent)
    among light, ceiling_light, desk_lamp, bulb and unknown. Entries of
    type strip, of any other type, or without "ip" or "token" are
    skipped, and do not keep the entries after them from being loaded. *)
Theorem loading_adds_loadable_entries (miio_Device : string → string → Outcome MiioDevice)
    (devices_config : list (string * gmap string string))
    (devices : list (string * MiHomeDevice)) (device_name : string) :
  (is_Some (get_device (_load_devices_from_config miio_Device devices_config devices)
              device_name) ↔
   is_Some (get_device devices device_name) ∨
   ∃ config, (device_name, config) ∈ devices_config ∧ loadable config) ∧
  _load_devices_from_json miio_Device devices_config devices =
    _load_devices_from_config miio_Device devices_config devices.
Proof.
  split; [apply load_devices_present|apply load_devices_json].
Qed.

(** X23. For a configuration whose keys are distinct, the device found
    under the key of a loadable entry after loading is the one built
    from that entry, whatever was under the key before: its name is the
    key, its address, token, model, did and mac are those of the entry
    (empty when absent), its cache is fresh (brightness 0, power off,
    colour temperature 0), it is a light unless the type is unknown, and
    it is connected and marked online exactly when [miio.Device] did not
    raise. *)
Theorem loaded_device_built_from_entry
    (miio_Device : string → string → Outcome MiioDevice)
    (devices_config : list (string * gmap string string))
    (devices : list (string * MiHomeDevice)) (device_name : string)
    (config : gmap string string) :
  NoDup devices_config.*1 →
  (device_name, config) ∈ devices_config →
  loadable config →
  ∃ self,
    get_device (_load_devices_from_config miio_Device devices_config devices) device_name
      = Some self ∧
    built_from miio_Device device_name config self.
Proof.
  revert devices. induction devices_config as [|[n c] rest IH]; intros devices Hnd Hin Hl.
  { apply elem_of_nil in Hin. contradiction. }
  cbn in Hnd. apply NoDup_cons in Hnd as [Hfresh Hnd].
  cbn [_load_devices_from_config].
  apply elem_of_cons in Hin as [Heq|Hin].
  - injection Heq as <- <-. rewrite load_devices_other by exact Hfresh.
    destruct (load_device_cases miio_Device device_name config devices)
      as [(_ & d & Hb & ->)|(Hn & _)]; [|contradiction].
    exists d. split; [|exact Hb]. rewrite get_device_dict_set, String.eqb_refl. reflexivity.
  - exact (IH _ Hnd Hin Hl).
Qed.

Lemma loaded_device_built_from_entry_witness :
  ∃ self,
    get_device (_load_devices_from_config sample_connect sample_config []) "hall" = Some self ∧
    built_from sample_connect "hall" {[ "ip" := "192.168.1.99"; "token" := "22" ]} self.
Proof.
  apply (loaded_device_built_from_entry sample_connect sample_config [] "hall").
  - apply (bool_decide_unpack _). vm_compute. exact I.
  - do 2 right. left.
  - split; [|split].
    + exists "192.168.1.99". apply (bool_decide_unpack _). vm_compute. exact I.
    + exists "22". apply (bool_decide_unpack _). vm_compute. exact I.
    + apply (bool_decide_unpack _). vm_compute. exact I.
Defined.
